(** * English-Level-Quiz: the assessment session engine of [bot.py] and [app.py]

    A shallow embedding of the quiz handlers of the Telegram bot
    ([src/bot.py]) and of the Flask web application ([src/app.py]):
    the SQLite tables as finite maps and row lists, the per-user
    session stores as explicit state, Python exceptions as an error
    monad, and the accuracy percentage as the IEEE binary64 value
    that Python computes. *)

From Stdlib Require Import ZArith List String Floats Uint63 Lia Permutation Sorted.
From stdpp Require Import gmap strings list.

Local Open Scope string_scope.
Local Open Scope Z_scope.

(** ** Python exceptions *)

Inductive PyError := IndexError | ZeroDivisionError | KeyError.

Inductive Exc (A : Type) : Type :=
| Ok (a : A)
| Raise (e : PyError).
Arguments Ok {A} a.
Arguments Raise {A} e.

#[global] Instance Exc_ret : MRet Exc := fun _ a => Ok a.
#[global] Instance Exc_bind : MBind Exc := fun _ _ f m =>
  match m with Ok a => f a | Raise e => Raise e end.

(** [len(l)] *)
Definition len {A} (l : list A) : Z := Z.of_nat (length l).

(** [l[i]] on a Python list: a negative index counts from the end, an
    index out of range raises [IndexError]. *)
Definition getitem {A} (l : list A) (i : Z) : Exc A :=
  let j := if i <? 0 then i + len l else i in
  if (j <? 0) || (len l <=? j) then Raise IndexError
  else match l !! Z.to_nat j with
       | Some x => Ok x
       | None => Raise IndexError
       end.

(** ** The accuracy percentage and the level rule

    [score] and [total] are Python ints and [score / total] is true
    division: the binary64 number nearest to the quotient.  For counts
    below [2^53] this is the binary64 division of the two converted
    operands, which is what [truediv] computes. *)

Definition int_to_float (z : Z) : float := PrimFloat.of_uint63 (Uint63.of_Z z).

Definition truediv (a b : Z) : Exc float :=
  if b =? 0 then Raise ZeroDivisionError
  else Ok (PrimFloat.div (int_to_float a) (int_to_float b)).

(** [percentage = (score / total) * 100] *)
Definition percentage (score total : Z) : Exc float :=
  r ← truediv score total; Ok (PrimFloat.mul r 100%float).

(** [percentage >= n] for an int literal [n] that binary64 holds exactly *)
Definition ge (p n : float) : bool := PrimFloat.leb n p.

(** The [if]/[elif] chain of [finish_quiz] (bot.py) and of the finishing
    branch of [submit_answer] (app.py); the two are the same text. *)
Definition level_of_percentage (p : float) : string :=
  if ge p 90%float then "C1"
  else if ge p 80%float then "B2"
  else if ge p 70%float then "B1"
  else if ge p 60%float then "A2"
  else "A1".

Definition determine_level (score total : Z) : Exc string :=
  p ← percentage score total; Ok (level_of_percentage p).

(** The same rule on exact integers, [100 * score >= n * total], used
    to cross-check the binary64 computation on small quizzes. *)
Definition level_exact (score total : Z) : string :=
  if 90 * total <=? 100 * score then "C1"
  else if 80 * total <=? 100 * score then "B2"
  else if 70 * total <=? 100 * score then "B1"
  else if 60 * total <=? 100 * score then "A2"
  else "A1".

Definition agrees_upto (n : nat) : bool :=
  forallb (fun t : nat =>
    forallb (fun s : nat =>
      match determine_level (Z.of_nat s) (Z.of_nat (S t)) with
      | Ok l => String.eqb l (level_exact (Z.of_nat s) (Z.of_nat (S t)))
      | Raise _ => false
      end) (seq 0 (S (S t)))) (seq 0 n).

(** ** The SQLite database [english_quiz.db]

    Tables without a uniqueness constraint on what the handlers look up
    are row lists in storage order; [daily_bonus], with
    [UNIQUE(user_id, date)], and [user_hints], with [user_id UNIQUE],
    are finite maps from their key to the remaining column.  The
    [options] column holds a JSON array, kept here as the decoded list. *)

Record LevelRow := {
  l_id : Z;
  l_level : string
}.

Record QuestionRow := {
  qr_id : Z;
  qr_level_id : Z;
  qr_question_text : string;
  qr_options : list string;
  qr_correct_answer : Z
}.

(** A row of
    [SELECT q.id, q.question_text, q.options, q.correct_answer, l.level]. *)
Record Question := {
  q_id : Z;
  question_text : string;
  options : list string;
  correct_answer : Z;
  q_level : string
}.

#[global] Instance Question_eq_dec : EqDecision Question.
Proof. solve_decision. Defined.

(** The [wrong_answers] column of [results]: SQL [NULL], the JSON list
    of question ids that app.py writes, or the JSON list of whole
    question rows that bot.py writes. *)
Inductive WrongJson :=
| WNull
| WIds (ids : list Z)
| WRows (rows : list Question).

Record ResultRow := {
  r_user_id : Z;
  r_level : string;
  r_score : Z;
  r_total_questions : Z;
  r_wrong_answers : WrongJson;
  r_time_taken : Z
}.

Record DB := {
  t_english_levels : list LevelRow;
  t_questions : list QuestionRow;
  t_results : list ResultRow;
  t_daily_bonus : gmap (Z * string) Z;
  t_user_hints : gmap Z Z
}.

Definition set_results (f : list ResultRow -> list ResultRow) (db : DB) : DB :=
  {| t_english_levels := t_english_levels db; t_questions := t_questions db;
     t_results := f (t_results db);
     t_daily_bonus := t_daily_bonus db; t_user_hints := t_user_hints db |}.

Definition set_daily_bonus (m : gmap (Z * string) Z) (db : DB) : DB :=
  {| t_english_levels := t_english_levels db; t_questions := t_questions db;
     t_results := t_results db;
     t_daily_bonus := m; t_user_hints := t_user_hints db |}.

Definition set_user_hints (m : gmap Z Z) (db : DB) : DB :=
  {| t_english_levels := t_english_levels db; t_questions := t_questions db;
     t_results := t_results db;
     t_daily_bonus := t_daily_bonus db; t_user_hints := m |}.

(** [FROM questions q JOIN english_levels l ON q.level_id = l.id],
    with the level row kept beside the selected columns for the
    [ORDER BY l.id] of the full test. *)
Definition joined (db : DB) : list (LevelRow * Question) :=
  q ← t_questions db;
  l ← filter (fun l => qr_level_id q = l_id l) (t_english_levels db);
  [(l, {| q_id := qr_id q; question_text := qr_question_text q;
          options := qr_options q; correct_answer := qr_correct_answer q;
          q_level := l_level l |})].

(** [WHERE l.level = ?] *)
Definition where_level (level : string) (rows : list (LevelRow * Question))
  : list (LevelRow * Question) :=
  filter (fun r => l_level (fst r) = level) rows.

(** Insertion sort: the [ORDER BY] of a query, by a total preorder
    given as a boolean test.  Rows with equal keys keep their order. *)
Fixpoint insert_by {A} (le : A -> A -> bool) (x : A) (l : list A) : list A :=
  match l with
  | [] => [x]
  | y :: l' => if le x y then x :: y :: l' else y :: insert_by le x l'
  end.

Fixpoint order_by {A} (le : A -> A -> bool) (l : list A) : list A :=
  match l with
  | [] => []
  | x :: l' => insert_by le x (order_by le l')
  end.

(** [ORDER BY q.id] *)
Definition by_q_id (a b : LevelRow * Question) : bool :=
  q_id (snd a) <=? q_id (snd b).

(** [ORDER BY l.id, q.id] *)
Definition by_l_id_q_id (a b : LevelRow * Question) : bool :=
  (l_id (fst a) <? l_id (fst b))
  || ((l_id (fst a) =? l_id (fst b)) && (q_id (snd a) <=? q_id (snd b))).

(** [ORDER BY RANDOM()]: SQLite draws one random integer per row and
    sorts the rows by it.  [random i] is the integer drawn for row [i]. *)
Definition by_key {A} (a b : Z * A) : bool := fst a <=? fst b.

Definition order_by_random {A} (random : nat -> Z) (rows : list A) : list A :=
  snd <$> order_by by_key (imap (fun i r => (random i, r)) rows).

(** The questions a level filter selects, in storage order. *)
Definition pool (db : DB) (level : option string) : list Question :=
  match level with
  | Some lv => snd <$> where_level lv (joined db)
  | None => snd <$> joined db
  end.

(** The outcome shown when a quiz ends (both front-ends report these). *)
Record Outcome := {
  o_score : Z;
  o_total : Z;
  o_percentage : float;
  o_level : string;
  o_time_taken : Z
}.

(** ** bot.py: the Telegram front-end *)

Module Bot.

(** *** Database functions *)

(** [get_questions(level=None)]; [if level:] is false on [None] and on
    the empty string. *)
Definition get_questions (level : option string) (db : DB) : list Question :=
  match level with
  | Some lv =>
      if decide (lv = "") then snd <$> order_by by_l_id_q_id (joined db)
      else snd <$> order_by by_q_id (where_level lv (joined db))
  | None => snd <$> order_by by_l_id_q_id (joined db)
  end.

(** [save_result]: [json.dumps(wrong_answers) if wrong_answers else None] *)
Definition save_result (user_id : Z) (level : string) (score total : Z)
    (wrong_answers : list Question) (time_taken : Z) (db : DB) : DB :=
  let wrong_json :=
    match wrong_answers with [] => WNull | _ => WRows wrong_answers end in
  set_results (fun rs => app rs [{| r_user_id := user_id; r_level := level;
                                    r_score := score; r_total_questions := total;
                                    r_wrong_answers := wrong_json;
                                    r_time_taken := time_taken |}]) db.

(** [get_daily_bonus]: [today] is [date.today().isoformat()].  A row
    found is a non-empty tuple, so [if claimed:] holds whatever the
    column holds, and the column is returned. *)
Definition get_daily_bonus (today : string) (user_id : Z) (db : DB) : DB * Z :=
  match t_daily_bonus db !! (user_id, today) with
  | Some claimed => (db, claimed)
  | None =>
      let db1 := set_daily_bonus (<[(user_id, today) := 1]> (t_daily_bonus db)) db in
      let hints :=
        match t_user_hints db1 !! user_id with
        | Some n => n + 1
        | None => 1
        end in
      (set_user_hints (<[user_id := hints]> (t_user_hints db1)) db1, 1)
  end.

(** [get_user_hints]: [hints[0] if hints else 0] *)
Definition get_user_hints (user_id : Z) (db : DB) : Z :=
  match t_user_hints db !! user_id with
  | Some n => n
  | None => 0
  end.

(** [use_hint]:
    [UPDATE user_hints SET hints_count = hints_count - 1
     WHERE user_id = ? AND hints_count > 0] *)
Definition use_hint (user_id : Z) (db : DB) : DB :=
  match t_user_hints db !! user_id with
  | Some n =>
      if 0 <? n then set_user_hints (<[user_id := n - 1]> (t_user_hints db)) db
      else db
  | None => db
  end.

(** *** The FSM storage

    [MemoryStorage] keeps, per user, a state and a data dict.  The
    quiz keys of the dict are written together by [start_quiz] and
    always updated together, so they are one optional record. *)

Inductive QuizStates := taking_quiz | waiting_answer.

Record QuizData := {
  questions : list Question;
  current : Z;
  score : Z;
  level : string;
  lives : Z;
  wrong_answers : list Question;
  start_time : Z;
  user_id : Z
}.

Record Context := {
  state : option QuizStates;
  data : option QuizData
}.

Record World := {
  db : DB;
  storage : gmap Z Context
}.

Definition get_context (uid : Z) (w : World) : Context :=
  match storage w !! uid with
  | Some c => c
  | None => {| state := None; data := None |}
  end.

Definition set_context (uid : Z) (c : Context) (w : World) : World :=
  {| db := db w; storage := <[uid := c]> (storage w) |}.

Definition set_db (d : DB) (w : World) : World :=
  {| db := d; storage := storage w |}.

(** [await state.update_data(...)] with all the quiz keys *)
Definition update_data (uid : Z) (d : QuizData) (w : World) : World :=
  set_context uid {| state := state (get_context uid w); data := Some d |} w.

(** [await state.set_state(s)] *)
Definition set_state (uid : Z) (s : QuizStates) (w : World) : World :=
  set_context uid {| state := Some s; data := data (get_context uid w) |} w.

(** [await state.clear()] *)
Definition clear (uid : Z) (w : World) : World :=
  set_context uid {| state := None; data := None |} w.

(** The session of a user: the quiz data while the state is
    [taking_quiz], the filter on [handle_answer]. *)
Definition session (uid : Z) (w : World) : option QuizData :=
  match state (get_context uid w) with
  | Some taking_quiz => data (get_context uid w)
  | _ => None
  end.

(** *** Replies *)

Inductive Reply :=
| NoQuestionsAlert
| AskQuestion (q : Question) (number total lives : Z) (has_hint : bool)
| Finished (o : Outcome) (lives : Z) (early_end : bool)
| Unhandled
| AlreadyClaimed (hints : Z)
| BonusGranted
| HintUsed
| NoHint.

(** *** Handlers

    A handler returns the world it leaves behind and its reply, or the
    exception that ended it; writes made before an exception stay. *)

(** [ask_question]: the question is rendered with the progress, the
    lives and the hint button read from the stored data. *)
Definition ask_question (uid : Z) (question : Question) (w : World)
  : World * Exc Reply :=
  match data (get_context uid w) with
  | Some d =>
      let has_hint := 0 <? get_user_hints (user_id d) (db w) in
      (w, Ok (AskQuestion question (current d + 1) (len (questions d))
                (lives d) has_hint))
  | None => (w, Raise KeyError)
  end.

(** The closing message lists, for the first five wrong answers, the
    correct option [options[q[3]]]; an index outside the options of a
    question raises [IndexError]. *)
Definition correct_option (q : Question) : Exc string :=
  getitem (options q) (correct_answer q).

Fixpoint wrong_answers_text (wrong : list Question) : Exc (list string) :=
  match wrong with
  | [] => Ok []
  | q :: wrong' =>
      correct_opt ← correct_option q;
      lines ← wrong_answers_text wrong';
      Ok (correct_opt :: lines)
  end.

(** [finish_quiz(callback, state, score, total, early_end=False)].  The
    body never reads [early_end]; the reply keeps the argument so that
    the two calls of [handle_answer] can be told apart.  The result is
    saved before the message is built, and the state is cleared last.
    The certificate and the calls to Telegram are not modelled. *)
Definition finish_quiz (uid now : Z) (score total : Z) (early_end : bool)
    (w : World) : World * Exc Reply :=
  let d := data (get_context uid w) in
  let wrong := match d with Some d => wrong_answers d | None => [] end in
  let time_taken := match d with Some d => now - start_time d | None => 0 end in
  let lives_left := match d with Some d => lives d | None => 0 end in
  match percentage score total with
  | Raise e => (w, Raise e)
  | Ok p =>
      let determined_level := level_of_percentage p in
      let w1 := set_db (save_result uid determined_level score total wrong
                          time_taken (db w)) w in
      match wrong_answers_text (take 5 wrong) with
      | Raise e => (w1, Raise e)
      | Ok _ =>
          (clear uid w1,
           Ok (Finished {| o_score := score; o_total := total;
                           o_percentage := p;
                           o_level := determined_level;
                           o_time_taken := time_taken |} lives_left early_end))
      end
  end.

(** The body of [handle_answer] from the comparison of the answer up to
    [current += 1]: the values then passed to [update_data]. *)
Definition answer_step (d : QuizData) (answer_idx : Z) : Exc QuizData :=
  q ← getitem (questions d) (current d);
  let correct := correct_answer q in
  if decide (answer_idx = correct) then
    Ok {| questions := questions d; current := current d + 1;
          score := score d + 1; level := level d; lives := lives d;
          wrong_answers := wrong_answers d;
          start_time := start_time d; user_id := user_id d |}
  else
    Ok {| questions := questions d; current := current d + 1;
          score := score d; level := level d; lives := lives d - 1;
          wrong_answers := app (wrong_answers d) [q];
          start_time := start_time d; user_id := user_id d |}.

(** [handle_answer], registered with the filter [QuizStates.taking_quiz]:
    in any other state no handler takes the callback. *)
Definition handle_answer (uid now : Z) (answer_idx : Z) (w : World)
  : World * Exc Reply :=
  match state (get_context uid w) with
  | Some taking_quiz =>
      match data (get_context uid w) with
      | None => (w, Raise KeyError)
      | Some d =>
          match answer_step d answer_idx with
          | Raise e => (w, Raise e)
          | Ok d' =>
              let w1 := update_data uid d' w in
              if lives d' <=? 0 then
                finish_quiz uid now (score d') (len (questions d')) true w1
              else if len (questions d') <=? current d' then
                finish_quiz uid now (score d') (len (questions d')) false w1
              else
                match getitem (questions d') (current d') with
                | Ok q => ask_question uid q w1
                | Raise e => (w1, Raise e)
                end
          end
      end
  | _ => (w, Ok Unhandled)
  end.

(** [start_quiz]: [level] is the callback data after ["start_quiz_"]. *)
Definition start_quiz (uid now : Z) (level : string) (w : World)
  : World * Exc Reply :=
  let qs := if decide (level = "full") then get_questions None (db w)
            else get_questions (Some level) (db w) in
  match qs with
  | [] => (w, Ok NoQuestionsAlert)
  | _ =>
      let w1 := update_data uid
                  {| questions := qs; current := 0; score := 0;
                     level := level; lives := 3; wrong_answers := [];
                     start_time := now; user_id := uid |} w in
      let w2 := set_state uid taking_quiz w1 in
      match getitem qs 0 with
      | Ok q => ask_question uid q w2
      | Raise e => (w2, Raise e)
      end
  end.

(** [claim_daily_bonus] *)
Definition claim_daily_bonus (uid : Z) (today : string) (w : World)
  : World * Exc Reply :=
  let '(db1, claimed) := get_daily_bonus today uid (db w) in
  if decide (claimed = 0) then (set_db db1 w, Ok BonusGranted)
  else (set_db db1 w, Ok (AlreadyClaimed (get_user_hints uid db1))).

(** [use_hint_callback] *)
Definition use_hint_callback (uid : Z) (w : World) : World * Exc Reply :=
  if 0 <? get_user_hints uid (db w) then
    (set_db (use_hint uid (db w)) w, Ok HintUsed)
  else (w, Ok NoHint).

(** A run of the bot: the quiz, bonus and hint callbacks and messages
    it receives, in order.  (The report and admin handlers change the
    FSM state whenever they write to the data, which ends a quiz.) *)
Inductive Event :=
| StartQuiz (uid now : Z) (level : string)
| Answer (uid now : Z) (answer_idx : Z)
| ClaimBonus (uid : Z) (today : string)
| UseHint (uid : Z).

Definition handle (e : Event) (w : World) : World * Exc Reply :=
  match e with
  | StartQuiz uid now level => start_quiz uid now level w
  | Answer uid now a => handle_answer uid now a w
  | ClaimBonus uid today => claim_daily_bonus uid today w
  | UseHint uid => use_hint_callback uid w
  end.

Definition run (es : list Event) (w : World) : World :=
  foldl (fun w e => fst (handle e w)) w es.

(** The replies of a run, in order. *)
Fixpoint replies (es : list Event) (w : World) : list (Exc Reply) :=
  match es with
  | [] => []
  | e :: es' => snd (handle e w) :: replies es' (fst (handle e w))
  end.

(** The bot as started: the given database and an empty FSM storage. *)
Definition boot (d : DB) : World := {| db := d; storage := ∅ |}.

End Bot.

(** ** app.py: the web front-end *)

Module App.

(** The quiz dict kept under [session['current_quiz']]. *)
Record Quiz := {
  questions : list Question;
  current : Z;
  score : Z;
  wrong_answers : list Z;
  start_time : Z;
  level : option string
}.

(** The Flask session of one client: the keys the quiz routes read.
    A route works on the session object of its request; a write made
    before an exception is in that object, and [start_quiz] and
    [submit_answer] return the object as the view leaves it.  Whether
    the client receives it with the error response is decided by
    Flask, see [Flask.serve]. *)
Record Session := {
  user_id : option Z;
  current_quiz : option Quiz
}.

Record World := {
  db : DB;
  session : Session
}.

Inductive Response :=
| AuthenticationRequired
| NoActiveQuiz
| Started (total_questions : Z) (question : Question) (number : Z)
| Next (is_correct : bool) (question : Question) (number total score : Z)
| Done (is_correct : bool) (result : Outcome).

Definition set_current_quiz (q : Quiz) (w : World) : World :=
  {| db := db w;
     session := {| user_id := user_id (session w); current_quiz := Some q |} |}.

Definition set_db (d : DB) (w : World) : World :=
  {| db := d; session := session w |}.

(** The two queries of [start_quiz], both [ORDER BY RANDOM()];
    [if level and level != 'full'] is false on a missing level, on the
    empty string and on ['full']. *)
Definition fetch_questions (random : nat -> Z) (level : option string)
    (d : DB) : list Question :=
  match level with
  | Some lv =>
      if decide (lv = "") then order_by_random random (snd <$> joined d)
      else if decide (lv = "full") then order_by_random random (snd <$> joined d)
      else order_by_random random (snd <$> where_level lv (joined d))
  | None => order_by_random random (snd <$> joined d)
  end.

(** [POST /api/quiz/start]; [level] is [data.get('level')] and [random]
    the integers that SQLite draws for the [ORDER BY RANDOM()]. *)
Definition start_quiz (now : Z) (random : nat -> Z) (level : option string)
    (w : World) : World * Exc Response :=
  match user_id (session w) with
  | None => (w, Ok AuthenticationRequired)
  | Some _ =>
      let quiz_data := fetch_questions random level (db w) in
      let w1 := set_current_quiz
                  {| questions := quiz_data; current := 0; score := 0;
                     wrong_answers := []; start_time := now;
                     level := level |} w in
      match getitem quiz_data 0 with
      | Ok q => (w1, Ok (Started (len quiz_data) q 1))
      | Raise e => (w1, Raise e)
      end
  end.

(** [POST /api/quiz/answer]; [answer] is [data.get('answer')], [None]
    standing for a value that equals no integer. *)
Definition submit_answer (now : Z) (answer : option Z) (w : World)
  : World * Exc Response :=
  match user_id (session w) with
  | None => (w, Ok AuthenticationRequired)
  | Some uid =>
      match current_quiz (session w) with
      | None => (w, Ok NoActiveQuiz)
      | Some quiz =>
          match getitem (questions quiz) (current quiz) with
          | Raise e => (w, Raise e)
          | Ok current_q =>
              let is_correct :=
                bool_decide (answer = Some (correct_answer current_q)) in
              let quiz1 :=
                if is_correct then
                  {| questions := questions quiz; current := current quiz + 1;
                     score := score quiz + 1;
                     wrong_answers := wrong_answers quiz;
                     start_time := start_time quiz; level := level quiz |}
                else
                  {| questions := questions quiz; current := current quiz + 1;
                     score := score quiz;
                     wrong_answers := app (wrong_answers quiz) [q_id current_q];
                     start_time := start_time quiz; level := level quiz |} in
              let w1 := set_current_quiz quiz1 w in
              if len (questions quiz1) <=? current quiz1 then
                let total := len (questions quiz1) in
                match percentage (score quiz1) total with
                | Raise e => (w1, Raise e)
                | Ok p =>
                    let determined_level := level_of_percentage p in
                    let time_taken := now - start_time quiz1 in
                    let row := {| r_user_id := uid + 10000;
                                  r_level := determined_level;
                                  r_score := score quiz1;
                                  r_total_questions := total;
                                  r_wrong_answers := WIds (wrong_answers quiz1);
                                  r_time_taken := time_taken |} in
                    (set_db (set_results (fun rs => app rs [row]) (db w1)) w1,
                     Ok (Done is_correct
                           {| o_score := score quiz1; o_total := total;
                              o_percentage := p; o_level := determined_level;
                              o_time_taken := time_taken |}))
                end
              else
                match getitem (questions quiz1) (current quiz1) with
                | Raise e => (w1, Raise e)
                | Ok next_q =>
                    (w1, Ok (Next is_correct next_q (current quiz1 + 1)
                               (len (questions quiz1)) (score quiz1)))
                end
          end
      end
  end.

(** A run of one client against the web application.  The session is
    held by the client in a signed cookie: [run] is the client that
    sends each request with the session of the response before it,
    and that receives the session also with an error response (the
    application run without [debug]; [Flask.run] has both
    configurations).  A client that sends an older cookie again is a
    world whose session is the older one and whose tables are the
    current ones. *)
Inductive Event :=
| StartQuiz (now : Z) (random : nat -> Z) (level : option string)
| SubmitAnswer (now : Z) (answer : option Z).

Definition handle (e : Event) (w : World) : World * Exc Response :=
  match e with
  | StartQuiz now random level => start_quiz now random level w
  | SubmitAnswer now answer => submit_answer now answer w
  end.

Definition run (es : list Event) (w : World) : World :=
  foldl (fun w e => fst (handle e w)) w es.

(** A logged-in client with no quiz yet. *)
Definition logged_in (uid : Z) (d : DB) : World :=
  {| db := d; session := {| user_id := Some uid; current_quiz := None |} |}.

End App.

(** ** Flask: how a request of the web front-end is served

    A view that raises ends its request with the status 500.  What
    becomes of the session that the view has written to by then is
    Flask's decision, not the view's.  Started with [debug=True], as
    the last line of app.py starts it, Flask raises the exception
    again and sends no session cookie: the client keeps the session it
    had.  Without [debug], the response is finished like any other and
    carries the session as the view left it.  What was committed to
    the database stays in both. *)

Module Flask.

Definition serve (debug : bool) (e : App.Event) (w : App.World)
  : App.World * Exc App.Response :=
  let r := App.handle e w in
  match snd r with
  | Ok _ => r
  | Raise err =>
      if debug then (App.set_db (App.db (fst r)) w, Raise err) else r
  end.

Definition run (debug : bool) (es : list App.Event) (w : App.World) : App.World :=
  foldl (fun w e => fst (serve debug e w)) w es.

End Flask.

(** ** A small database for the examples

    Levels as [init_db] inserts them and seven questions: three of
    level A1, two of level B1 and two of level A2; question 3 is stored
    before questions 1 and 2. *)

Definition sample_levels : list LevelRow :=
  [ {| l_id := 1; l_level := "A1" |}; {| l_id := 2; l_level := "A2" |};
    {| l_id := 3; l_level := "B1" |}; {| l_id := 4; l_level := "B2" |};
    {| l_id := 5; l_level := "C1" |} ].

Definition sample_question (i lv c : Z) (text : string) : QuestionRow :=
  {| qr_id := i; qr_level_id := lv; qr_question_text := text;
     qr_options := ["a"; "b"; "c"; "d"]; qr_correct_answer := c |}.

Definition sample_db : DB :=
  {| t_english_levels := sample_levels;
     t_questions :=
       [ sample_question 3 1 0 "How are you?";
         sample_question 1 1 0 "What is your name?";
         sample_question 2 1 1 "Where is the door?";
         sample_question 4 3 1 "I wish I ___ taller.";
         sample_question 5 3 0 "She has been ___ for two hours.";
         sample_question 6 2 0 "She ___ a teacher.";
         sample_question 7 2 0 "What ___ your hobby?" ];
     t_results := [];
     t_daily_bonus := ∅;
     t_user_hints := ∅ |}.

(** Twenty questions of level B1, all with the correct option at index 0. *)
Definition b1_db : DB :=
  {| t_english_levels := sample_levels;
     t_questions :=
       (fun i : nat => sample_question (Z.of_nat i) 3 0 "If I ___ rich") <$> seq 1 20;
     t_results := [];
     t_daily_bonus := ∅;
     t_user_hints := ∅ |}.

(** The bot with user 7 on the B1 quiz of [sample_db], the first of
    its two questions answered correctly. *)
Definition bot_b1_last : Bot.World :=
  Bot.run [Bot.StartQuiz 7 100 "B1"; Bot.Answer 7 101 1] (Bot.boot sample_db).

Definition bot_b1_data : Bot.QuizData :=
  {| Bot.questions := Bot.get_questions (Some "B1") sample_db;
     Bot.current := 1; Bot.score := 1; Bot.level := "B1"; Bot.lives := 3;
     Bot.wrong_answers := []; Bot.start_time := 100; Bot.user_id := 7 |}.

(** Web user 1 on the A2 quiz of [sample_db], drawn in storage order,
    the first of its two questions answered correctly. *)
Definition app_a2_last : App.World :=
  App.run [App.StartQuiz 50 (fun _ => 0) (Some "A2"); App.SubmitAnswer 51 (Some 0)]
          (App.logged_in 1 sample_db).

Definition app_a2_quiz : App.Quiz :=
  {| App.questions := App.fetch_questions (fun _ => 0) (Some "A2") sample_db;
     App.current := 1; App.score := 1; App.wrong_answers := [];
     App.start_time := 50; App.level := Some "A2" |}.

(** The bot with user 7 on the twenty B1 questions of [b1_db]: the
    first answer wrong, eighteen right, one question left. *)
Definition bot_b1x20_last : Bot.World :=
  Bot.run (Bot.StartQuiz 7 100 "B1" :: Bot.Answer 7 101 3
             :: repeat (Bot.Answer 7 102 0) 18) (Bot.boot b1_db).

Definition bot_b1x20_data : Bot.QuizData :=
  {| Bot.questions := Bot.get_questions (Some "B1") b1_db;
     Bot.current := 19; Bot.score := 18; Bot.level := "B1"; Bot.lives := 2;
     Bot.wrong_answers := take 1 (Bot.get_questions (Some "B1") b1_db);
     Bot.start_time := 100; Bot.user_id := 7 |}.

(** User 7 starts the full test of [sample_db], seven questions, and
    gives three answers; option 3 is the correct one of no question. *)
Definition three_wrong : list Bot.Event :=
  [Bot.StartQuiz 7 100 "full"; Bot.Answer 7 101 3; Bot.Answer 7 102 3;
   Bot.Answer 7 103 3].

(** ** Invariants and notions used in the statements *)

(** Number of entries of a [wrong_answers] column. *)
Definition wrong_count (w : WrongJson) : Z :=
  match w with
  | WNull => 0
  | WIds ids => len ids
  | WRows rows => len rows
  end.

(** A stored bot session: every answer so far was counted once, in the
    score or in the wrong answers, a life was lost per wrong answer,
    and the cursor is within the questions. *)
Definition bot_session_inv (d : Bot.QuizData) : Prop :=
  0 <= Bot.score d
  /\ Bot.score d + len (Bot.wrong_answers d) = Bot.current d
  /\ Bot.current d <= len (Bot.questions d)
  /\ Bot.lives d = 3 - len (Bot.wrong_answers d).

Definition bot_inv (w : Bot.World) : Prop :=
  forall uid d, Bot.session uid w = Some d -> bot_session_inv d.

(** A stored web quiz; it stays in the session after its last answer. *)
Definition app_quiz_inv (q : App.Quiz) : Prop :=
  0 <= App.score q
  /\ App.score q + len (App.wrong_answers q) = App.current q
  /\ App.current q <= len (App.questions q).

Definition app_inv (w : App.World) : Prop :=
  forall q, App.current_quiz (App.session w) = Some q -> app_quiz_inv q.

(** No stored hint balance is negative. *)
Definition hints_nonneg (d : DB) : Prop :=
  forall u n, t_user_hints d !! u = Some n -> 0 <= n.

(** Every [daily_bonus] row has [claimed = 1], as [get_daily_bonus],
    the only writer of the table, inserts it. *)
Definition bonus_rows_claimed (d : DB) : Prop :=
  forall k v, t_daily_bonus d !! k = Some v -> v = 1.

(** The questions that [start_quiz] of the bot fetches for the level
    named in the callback data. *)
Definition bot_selected (level : string) (d : DB) : list Question :=
  if decide (level = "full") then Bot.get_questions None d
  else Bot.get_questions (Some level) d.

(** The session that [start_quiz] of the bot stores. *)
Definition bot_fresh (uid now : Z) (level : string) (qs : list Question)
  : Bot.QuizData :=
  {| Bot.questions := qs; Bot.current := 0; Bot.score := 0;
     Bot.level := level; Bot.lives := 3; Bot.wrong_answers := [];
     Bot.start_time := now; Bot.user_id := uid |}.

(** A level filter that selects one level: neither absent, nor the
    empty string, nor ['full'], which all select every question. *)
Definition one_level (lv : string) : Prop := lv <> "" /\ lv <> "full".

(** The results a question-fetching operation can give. *)
Definition bot_fetches (d : DB) (level : option string) (qs : list Question)
  : Prop :=
  qs = Bot.get_questions level d.

Definition app_fetches (d : DB) (level : option string) (qs : list Question)
  : Prop :=
  exists random, qs = App.fetch_questions random level d.

(** Randomized order: whatever order of the selected pool one names,
    the operation can return it. *)
Definition randomized
    (fetch : DB -> option string -> list Question -> Prop) : Prop :=
  forall d lv p, one_level lv ->
    Permutation p (pool d (Some lv)) -> fetch d (Some lv) p.

(** The questions that the level of a request selects in the web
    front-end: a missing level, the empty string and ['full'] select
    every question ([if level and level != 'full']). *)
Definition app_pool (d : DB) (level : option string) : list Question :=
  match level with
  | Some lv =>
      if decide (lv = "") then pool d None
      else if decide (lv = "full") then pool d None
      else pool d (Some lv)
  | None => pool d None
  end.

(** The questions that the level of a [start_quiz_<level>] button
    selects in the bot: ['full'] and the empty string select every
    question. *)
Definition bot_pool (d : DB) (level : string) : list Question :=
  if decide (level = "full") then pool d None
  else if decide (level = "") then pool d None
  else pool d (Some level).

(** A session that ended, in either front-end: the level filter it was
    started with, the outcome reported and the row appended to
    [results]. *)
Inductive completed : option string -> Outcome -> ResultRow -> Prop :=
| completed_bot uid now a w w' d o l e row :
    Bot.session uid w = Some d ->
    Bot.handle_answer uid now a w = (w', Ok (Bot.Finished o l e)) ->
    t_results (Bot.db w') = app (t_results (Bot.db w)) [row] ->
    completed (Some (Bot.level d)) o row
| completed_app now a w w' q c o row :
    App.current_quiz (App.session w) = Some q ->
    App.submit_answer now a w = (w', Ok (App.Done c o)) ->
    t_results (App.db w') = app (t_results (App.db w)) [row] ->
    completed (App.level q) o row.

(** What [finish_quiz] leaves for a session whose updated data is
    [d']: the row is saved; then either the message is built, the
    state cleared and the outcome sent, or building the message raises
    and the updated session stays. *)
Definition bot_finished (uid now : Z) (d' : Bot.QuizData) (p : float)
    (early_end : bool) (w : Bot.World) : Bot.World * Exc Bot.Reply :=
  let total := len (Bot.questions d') in
  let w1 := Bot.set_db
              (Bot.save_result uid (level_of_percentage p) (Bot.score d') total
                 (Bot.wrong_answers d') (now - Bot.start_time d') (Bot.db w))
              (Bot.update_data uid d' w) in
  match Bot.wrong_answers_text (take 5 (Bot.wrong_answers d')) with
  | Raise e => (w1, Raise e)
  | Ok _ =>
      (Bot.clear uid w1,
       Ok (Bot.Finished {| o_score := Bot.score d'; o_total := total;
                           o_percentage := p; o_level := level_of_percentage p;
                           o_time_taken := now - Bot.start_time d' |}
             (Bot.lives d') early_end))
  end.

(** ** Further code of the two front-ends

    What follows models functions and handlers beside the quiz engine:
    the percentages as they are displayed, the answer keyboard, the
    question bank's maintenance, registration and bans, the report and
    admin dialogues of the bot and the accounts of the web
    application. *)

(** *** Percentages as displayed *)

(** [int(x)] on a float: truncation towards zero; [None] where Python
    raises (on an infinity and on NaN). *)
Definition py_int (x : float) : option Z :=
  match Prim2SF x with
  | S754_zero _ => Some 0
  | S754_finite s m e =>
      let v := if 0 <=? e then Z.pos m * 2 ^ e else Z.pos m / 2 ^ (- e) in
      Some (if s then - v else v)
  | S754_infinity _ => None
  | S754_nan => None
  end.

(** [int(percentage)] in the closing message of [finish_quiz] and
    [int((score / total) * 100)] in [show_results]; [None] where the
    expression raises. *)
Definition shown_percentage (score total : Z) : option Z :=
  match percentage score total with
  | Ok p => py_int p
  | Raise _ => None
  end.

(** [int(score*100/total)] on the certificate *)
Definition certificate_percentage (score total : Z) : option Z :=
  match truediv (score * 100) total with
  | Ok p => py_int p
  | Raise _ => None
  end.

(** [int(percentage)] in [show_leaderboard], of the column
    [(r.score * 100.0 / r.total_questions)] of [get_leaderboard]: SQLite
    multiplies and divides in binary64 and gives [NULL] on a division
    by zero, on which [int] raises. *)
Definition leaderboard_percentage (score total : Z) : option Z :=
  if total =? 0 then None
  else py_int (PrimFloat.div (PrimFloat.mul (int_to_float score) 100%float)
                             (int_to_float total)).

(** A test on every score of every quiz of up to [n] questions. *)
Definition small_quizzes_all (P : Z -> Z -> bool) (n : nat) : bool :=
  forallb (fun t : nat =>
    forallb (fun s : nat => P (Z.of_nat s) (Z.of_nat (S t)))
            (seq 0 (S (S t)))) (seq 0 n).

Definition percentages_close (score total : Z) : bool :=
  let exact := 100 * score / total in
  bool_decide (certificate_percentage score total = Some exact)
  && bool_decide (leaderboard_percentage score total = Some exact)
  && (bool_decide (shown_percentage score total = Some exact)
      || bool_decide (shown_percentage score total = Some (exact - 1))).

(** *** The answer keyboard of the bot *)

(** The buttons of [get_answer_keyboard], with the callback data
    [answer_<i>], [hint_<id>] and [report_<id>] kept as their parts. *)
Inductive Button :=
| AnswerButton (text : string) (i : Z)
| HintButton (question_id : Z)
| ReportButton (question_id : Z).

Definition get_answer_keyboard (options : list string) (question_id : Z)
    (has_hint : bool) : list (list Button) :=
  let keyboard := imap (fun i option => [AnswerButton option (Z.of_nat i)]) options in
  let bottom_row :=
    app (if has_hint then [HintButton question_id] else [])
        [ReportButton question_id] in
  app keyboard [bottom_row].

(** The answer indices that the keyboard of a question can send. *)
Definition answers_offered (q : Question) (has_hint : bool) : list Z :=
  row ← get_answer_keyboard (options q) (q_id q) has_hint;
  b ← row;
  match b with AnswerButton _ i => [i] | _ => [] end.

(** A result row that can be displayed: [show_results] and the
    leaderboard divide the score by the total. *)
Definition row_ok (r : ResultRow) : Prop :=
  0 <= r_score r <= r_total_questions r /\ 1 <= r_total_questions r.

(** The number of quiz starts among the requests of a web client. *)
Fixpoint app_starts (es : list App.Event) : nat :=
  match es with
  | [] => 0
  | App.StartQuiz _ _ _ :: es' => S (app_starts es')
  | App.SubmitAnswer _ _ :: es' => app_starts es'
  end.

(** Whether the session of a web client holds a quiz with a question
    still to be answered. *)
Definition app_pending (w : App.World) : nat :=
  match App.current_quiz (App.session w) with
  | Some q => if App.current q <? len (App.questions q) then 1 else 0
  | None => 0
  end.

(** The number of quizzes a client gives up: its requests that are
    answered with the first question of a new quiz while the quiz of
    its session still has a question to be answered. *)
Fixpoint app_abandoned (debug : bool) (es : list App.Event) (w : App.World)
  : nat :=
  match es with
  | [] => 0
  | e :: es' =>
      (match snd (Flask.serve debug e w) with
       | Ok (App.Started _ _ _) => app_pending w
       | _ => 0
       end + app_abandoned debug es' (fst (Flask.serve debug e w)))%nat
  end.

(** A database whose only question has its correct index outside its
    four options. *)
Definition broken_db : DB :=
  {| t_english_levels := sample_levels;
     t_questions := [ sample_question 1 1 7 "What is this?" ];
     t_results := [];
     t_daily_bonus := ∅;
     t_user_hints := ∅ |}.

(** *** Maintenance of the question bank (bot.py) *)

Module BotDb.

Definition set_questions (f : list QuestionRow -> list QuestionRow) (d : DB) : DB :=
  {| t_english_levels := t_english_levels d; t_questions := f (t_questions d);
     t_results := t_results d;
     t_daily_bonus := t_daily_bonus d; t_user_hints := t_user_hints d |}.

(** [SELECT id FROM english_levels WHERE level = ?] and [fetchone()] *)
Definition level_id (level : string) (d : DB) : option Z :=
  l_id <$> head (filter (fun l => l_level l = level) (t_english_levels d)).

(** [add_question]: nothing is inserted, and nothing raised, for a
    level that is not in [english_levels].  [rowid] is the id that
    SQLite gives to the new row. *)
Definition add_question (rowid : Z) (level question_text : string)
    (options : list string) (correct_answer : Z) (d : DB) : DB :=
  match level_id level d with
  | Some lid =>
      set_questions (fun qs => app qs
        [{| qr_id := rowid; qr_level_id := lid;
            qr_question_text := question_text; qr_options := options;
            qr_correct_answer := correct_answer |}]) d
  | None => d
  end.

(** [delete_question]: [DELETE FROM questions WHERE id = ?] *)
Definition delete_question (question_id : Z) (d : DB) : DB :=
  set_questions (filter (fun q => qr_id q <> question_id)) d.

(** [update_question]: the text, the options and the correct index of
    the row with the id are replaced; its level is not. *)
Definition update_question (question_id : Z) (q_text : string)
    (options : list string) (correct : Z) (d : DB) : DB :=
  set_questions (fmap (fun q =>
    if decide (qr_id q = question_id) then
      {| qr_id := qr_id q; qr_level_id := qr_level_id q;
         qr_question_text := q_text; qr_options := options;
         qr_correct_answer := correct |}
    else q)) d.

(** A row of the CSV text as [csv.DictReader] yields it, the header
    naming the seven columns and the row holding a field for each;
    [c_correct] is [int(row['correct'])], [None] where [int] raises. *)
Record CsvRow := {
  c_level : string;
  c_question : string;
  c_option1 : string;
  c_option2 : string;
  c_option3 : string;
  c_option4 : string;
  c_correct : option Z
}.

(** The loop of [import_questions_from_csv]: the rows are inserted one
    by one, with consecutive ids from [rowid] on, the correct index
    being the column less 1; a row of an unknown level is passed over.
    [None] when a row raises. *)
Fixpoint import_rows (rowid : Z) (rows : list CsvRow) (d : DB) : option DB :=
  match rows with
  | [] => Some d
  | row :: rows' =>
      match c_correct row with
      | None => None
      | Some n =>
          let options := [c_option1 row; c_option2 row; c_option3 row;
                          c_option4 row] in
          match level_id (c_level row) d with
          | Some _ =>
              import_rows (rowid + 1) rows'
                (add_question rowid (c_level row) (c_question row) options (n - 1) d)
          | None => import_rows rowid rows' d
          end
      end
  end.

(** [import_questions_from_csv]: [conn.commit()] is its last statement
    but one, so the rows inserted before an exception are never
    committed and the database is left as it was. *)
Definition import_questions_from_csv (rowid : Z) (rows : list CsvRow) (d : DB)
  : DB * bool :=
  match import_rows rowid rows d with
  | Some d' => (d', true)
  | None => (d, false)
  end.

End BotDb.

(** A joined row of [get_questions]: the columns selected from a
    question and its level. *)
Definition question_of (qr : QuestionRow) (l : LevelRow) : Question :=
  {| q_id := qr_id qr; question_text := qr_question_text qr;
     options := qr_options qr; correct_answer := qr_correct_answer qr;
     q_level := l_level l |}.

(** Whether a level row is selected by the argument of [get_questions]. *)
Definition level_selected (level : option string) (l : LevelRow) : Prop :=
  match level with
  | Some lv => lv = "" \/ l_level l = lv
  | None => True
  end.

(** The row that [import_questions_from_csv] inserts for a CSV row of
    a known level. *)
Definition imported_row (d : DB) (rowid : Z) (row : BotDb.CsvRow) : QuestionRow :=
  {| qr_id := rowid;
     qr_level_id := default 0 (BotDb.level_id (BotDb.c_level row) d);
     qr_question_text := BotDb.c_question row;
     qr_options := [BotDb.c_option1 row; BotDb.c_option2 row;
                    BotDb.c_option3 row; BotDb.c_option4 row];
     qr_correct_answer := default 0 (BotDb.c_correct row) - 1 |}.

(** The question that [update_question] makes of a selected question. *)
Definition updated_question (question_id : Z) (q_text : string)
    (opts : list string) (correct : Z) (q : Question) : Question :=
  if decide (q_id q = question_id) then
    {| q_id := q_id q; question_text := q_text; options := opts;
       correct_answer := correct; q_level := q_level q |}
  else q.

(** ** bot.py: the router with the report and the admin dialogues *)

(** The user whose callback or message a quiz event is. *)
Definition event_user (e : Bot.Event) : Z :=
  match e with
  | Bot.StartQuiz uid _ _ => uid
  | Bot.Answer uid _ _ => uid
  | Bot.ClaimBonus uid _ => uid
  | Bot.UseHint uid => uid
  end.

(** The character [','] *)
Definition comma : Ascii.ascii :=
  Ascii.Ascii false false true true false true false false.

(** [text.split(',')]: one more field than there are commas. *)
Fixpoint split_comma (s : string) : list string :=
  match s with
  | EmptyString => [EmptyString]
  | String c s' =>
      if Ascii.eqb c comma then EmptyString :: split_comma s'
      else match split_comma s' with
           | x :: xs => String c x :: xs
           | [] => [String c EmptyString]
           end
  end.

Module Router.

Inductive AdminStates :=
| adding_question
| waiting_level
| waiting_question
| waiting_options
| waiting_correct
| editing_question
| waiting_edit_text
| waiting_edit_options
| waiting_edit_correct
| importing_csv
| waiting_delete_id
| waiting_ban_user_id
| waiting_ban_reason
| waiting_report_reason
| waiting_edit_id
| waiting_unban_user_id.

Definition ADMIN_IDS : list Z := [7782143104].

(** The tables [users], [banned_users] (with [user_id UNIQUE]) and
    [question_reports]; their date columns, which no handler reads,
    are left out.  [u_username] is [None] for a Telegram account
    without a user name, [u_full_name] for a web account registered
    without a name. *)
Record UserRow := {
  u_user_id : Z;
  u_username : option string;
  u_full_name : option string
}.

Record ReportRow := {
  rp_question_id : Z;
  rp_user_id : Z;
  rp_reason : string
}.

(** The keys that the dialogues keep in the FSM data of a user. *)
Record Form := {
  f_level : option string;
  f_question : option string;
  f_options : option (list string);
  f_edit_q_id : option Z;
  f_current_options : option (list string);
  f_current_correct : option Z;
  f_edit_q_text : option string;
  f_edit_options : option (list string);
  f_ban_user_id : option Z;
  f_report_question_id : option Z
}.

Definition empty_form : Form :=
  {| f_level := None; f_question := None; f_options := None;
     f_edit_q_id := None; f_current_options := None;
     f_current_correct := None; f_edit_q_text := None;
     f_edit_options := None; f_ban_user_id := None;
     f_report_question_id := None |}.

(** The FSM record of a user is one state and one dict.  The quiz keeps
    its state and its eight keys in the storage of [Bot.World]; the
    states of [AdminStates] and the other keys are kept beside it, in
    [admin_state] and [form].  A quiz state, where the storage has one,
    is the state of the user, and the key [level], which [start_quiz]
    and [admin_select_level] both write, is the one of the quiz data
    where the storage has quiz data: [set_state] of a dialogue state
    removes the quiz state, and what a quiz state or the quiz data hide
    is removed with them by [clear]. *)
Record World := {
  bot : Bot.World;
  admin_state : gmap Z AdminStates;
  form : gmap Z Form;
  t_users : list UserRow;
  t_banned_users : gmap Z string;
  t_question_reports : list ReportRow
}.

Definition set_bot (b : Bot.World) (w : World) : World :=
  {| bot := b; admin_state := admin_state w; form := form w;
     t_users := t_users w; t_banned_users := t_banned_users w;
     t_question_reports := t_question_reports w |}.

Definition set_fsm (s : gmap Z AdminStates) (f : gmap Z Form) (w : World) : World :=
  {| bot := bot w; admin_state := s; form := f;
     t_users := t_users w; t_banned_users := t_banned_users w;
     t_question_reports := t_question_reports w |}.

Definition set_users (us : list UserRow) (w : World) : World :=
  {| bot := bot w; admin_state := admin_state w; form := form w;
     t_users := us; t_banned_users := t_banned_users w;
     t_question_reports := t_question_reports w |}.

Definition set_banned_users (bs : gmap Z string) (w : World) : World :=
  {| bot := bot w; admin_state := admin_state w; form := form w;
     t_users := t_users w; t_banned_users := bs;
     t_question_reports := t_question_reports w |}.

Definition set_question_reports (rs : list ReportRow) (w : World) : World :=
  {| bot := bot w; admin_state := admin_state w; form := form w;
     t_users := t_users w; t_banned_users := t_banned_users w;
     t_question_reports := rs |}.

Definition set_db (d : DB) (w : World) : World :=
  set_bot (Bot.set_db d (bot w)) w.

Definition db (w : World) : DB := Bot.db (bot w).

(** *** The FSM context *)

Definition get_form (uid : Z) (w : World) : Form :=
  default empty_form (form w !! uid).

(** [await state.update_data(...)] with keys of the dialogues *)
Definition update_data (uid : Z) (f : Form -> Form) (w : World) : World :=
  set_fsm (admin_state w) (<[uid := f (get_form uid w)]> (form w)) w.

(** [await state.set_state(AdminStates.s)] *)
Definition set_state (uid : Z) (s : AdminStates) (w : World) : World :=
  set_fsm (<[uid := s]> (admin_state w)) (form w)
    (set_bot (Bot.set_context uid
                {| Bot.state := None;
                   Bot.data := Bot.data (Bot.get_context uid (bot w)) |}
                (bot w)) w).

(** [await state.clear()] *)
Definition clear (uid : Z) (w : World) : World :=
  set_fsm (delete uid (admin_state w)) (delete uid (form w))
    (set_bot (Bot.clear uid (bot w)) w).

(** The state that the filters of the dialogue handlers look at. *)
Definition get_state (uid : Z) (w : World) : option AdminStates :=
  match Bot.state (Bot.get_context uid (bot w)) with
  | Some _ => None
  | None => admin_state w !! uid
  end.

(** [data['level']], [None] where the key is missing *)
Definition get_level (uid : Z) (w : World) : option string :=
  match Bot.data (Bot.get_context uid (bot w)) with
  | Some d => Some (Bot.level d)
  | None => f_level (get_form uid w)
  end.

Definition with_level (lv : string) (f : Form) : Form :=
  {| f_level := Some lv; f_question := f_question f; f_options := f_options f;
     f_edit_q_id := f_edit_q_id f; f_current_options := f_current_options f;
     f_current_correct := f_current_correct f; f_edit_q_text := f_edit_q_text f;
     f_edit_options := f_edit_options f; f_ban_user_id := f_ban_user_id f;
     f_report_question_id := f_report_question_id f |}.

Definition with_question (q : string) (f : Form) : Form :=
  {| f_level := f_level f; f_question := Some q; f_options := f_options f;
     f_edit_q_id := f_edit_q_id f; f_current_options := f_current_options f;
     f_current_correct := f_current_correct f; f_edit_q_text := f_edit_q_text f;
     f_edit_options := f_edit_options f; f_ban_user_id := f_ban_user_id f;
     f_report_question_id := f_report_question_id f |}.

Definition with_options (opts : list string) (f : Form) : Form :=
  {| f_level := f_level f; f_question := f_question f; f_options := Some opts;
     f_edit_q_id := f_edit_q_id f; f_current_options := f_current_options f;
     f_current_correct := f_current_correct f; f_edit_q_text := f_edit_q_text f;
     f_edit_options := f_edit_options f; f_ban_user_id := f_ban_user_id f;
     f_report_question_id := f_report_question_id f |}.

(** [update_data(edit_q_id=..., current_options=..., current_correct=...)] *)
Definition with_edit (q_id : Z) (opts : list string) (correct : Z) (f : Form) : Form :=
  {| f_level := f_level f; f_question := f_question f; f_options := f_options f;
     f_edit_q_id := Some q_id; f_current_options := Some opts;
     f_current_correct := Some correct; f_edit_q_text := f_edit_q_text f;
     f_edit_options := f_edit_options f; f_ban_user_id := f_ban_user_id f;
     f_report_question_id := f_report_question_id f |}.

Definition with_edit_q_text (q : string) (f : Form) : Form :=
  {| f_level := f_level f; f_question := f_question f; f_options := f_options f;
     f_edit_q_id := f_edit_q_id f; f_current_options := f_current_options f;
     f_current_correct := f_current_correct f; f_edit_q_text := Some q;
     f_edit_options := f_edit_options f; f_ban_user_id := f_ban_user_id f;
     f_report_question_id := f_report_question_id f |}.

Definition with_edit_options (opts : list string) (f : Form) : Form :=
  {| f_level := f_level f; f_question := f_question f; f_options := f_options f;
     f_edit_q_id := f_edit_q_id f; f_current_options := f_current_options f;
     f_current_correct := f_current_correct f; f_edit_q_text := f_edit_q_text f;
     f_edit_options := Some opts; f_ban_user_id := f_ban_user_id f;
     f_report_question_id := f_report_question_id f |}.

Definition with_ban_user_id (user_id : Z) (f : Form) : Form :=
  {| f_level := f_level f; f_question := f_question f; f_options := f_options f;
     f_edit_q_id := f_edit_q_id f; f_current_options := f_current_options f;
     f_current_correct := f_current_correct f; f_edit_q_text := f_edit_q_text f;
     f_edit_options := f_edit_options f; f_ban_user_id := Some user_id;
     f_report_question_id := f_report_question_id f |}.

Definition with_report_question_id (question_id : Z) (f : Form) : Form :=
  {| f_level := f_level f; f_question := f_question f; f_options := f_options f;
     f_edit_q_id := f_edit_q_id f; f_current_options := f_current_options f;
     f_current_correct := f_current_correct f; f_edit_q_text := f_edit_q_text f;
     f_edit_options := f_edit_options f; f_ban_user_id := f_ban_user_id f;
     f_report_question_id := Some question_id |}.

(** [await state.update_data(level=level)] *)
Definition update_level (uid : Z) (lv : string) (w : World) : World :=
  match Bot.data (Bot.get_context uid (bot w)) with
  | Some d =>
      set_bot (Bot.update_data uid
                 {| Bot.questions := Bot.questions d; Bot.current := Bot.current d;
                    Bot.score := Bot.score d; Bot.level := lv;
                    Bot.lives := Bot.lives d;
                    Bot.wrong_answers := Bot.wrong_answers d;
                    Bot.start_time := Bot.start_time d;
                    Bot.user_id := Bot.user_id d |} (bot w)) w
  | None => update_data uid (with_level lv) w
  end.

(** *** The tables of users, bans and reports *)

(** [add_user]: [INSERT OR IGNORE] on the unique [user_id] *)
Definition add_user (user_id : Z) (username full_name : option string)
    (w : World) : World :=
  if bool_decide (user_id ∈ u_user_id <$> t_users w) then w
  else set_users (app (t_users w)
                    [{| u_user_id := user_id; u_username := username;
                        u_full_name := full_name |}]) w.

Definition is_banned (user_id : Z) (w : World) : bool :=
  bool_decide (is_Some (t_banned_users w !! user_id)).

Definition unban_user (user_id : Z) (w : World) : World :=
  set_banned_users (delete user_id (t_banned_users w)) w.

(** [ban_user]: [INSERT OR REPLACE] on the unique [user_id] *)
Definition ban_user (user_id : Z) (reason : string) (w : World) : World :=
  set_banned_users (<[user_id := reason]> (t_banned_users w)) w.

Definition report_question (question_id user_id : Z) (reason : string)
    (w : World) : World :=
  set_question_reports
    (app (t_question_reports w)
       [{| rp_question_id := question_id; rp_user_id := user_id;
           rp_reason := reason |}]) w.

(** [SELECT user_id FROM users WHERE username = ?] and [fetchone()] *)
Definition user_id_of (username : string) (w : World) : option Z :=
  u_user_id <$> head (filter (fun u => u_username u = Some username) (t_users w)).

(** [SELECT question_text, options, correct_answer FROM questions
    WHERE id = ?] and [fetchone()] *)
Definition question_by_id (q_id : Z) (w : World) : option QuestionRow :=
  head (filter (fun q => qr_id q = q_id) (t_questions (db w))).

(** The join of [admin_view_reports]: a report is listed with the text
    of its question and the name of its user, where both rows exist.
    The handler shows ten of the rows; which ten is left to SQLite,
    and is not modelled. *)
Definition reports (w : World) : list (string * string * option string) :=
  r ← t_question_reports w;
  q ← filter (fun q => qr_id q = rp_question_id r) (t_questions (db w));
  u ← filter (fun u => u_user_id u = rp_user_id r) (t_users w);
  [(qr_question_text q, rp_reason r, u_full_name u)].

(** *** Updates and replies *)

(** The buttons of the admin keyboards that are matched by
    [F.data == ...], named after their callback data:
    [admin_add_question], [admin_view_questions], [admin_stats],
    [admin_delete_question], [admin_edit_question], [admin_import_csv],
    [admin_ban_user], [admin_unban_user], [admin_view_reports] and
    [back_to_admin]. *)
Inductive AdminButton :=
| btn_add_question
| btn_view_questions
| btn_stats
| btn_delete_question
| btn_edit_question
| btn_import_csv
| btn_ban_user
| btn_unban_user
| btn_view_reports
| btn_back_to_admin.

(** What the router receives.  [QuizUpdate] is a callback or message
    of the quiz, the bonus or the hint; [CommandStart] and
    [CommandAdmin] are the messages that pass the filters of the two
    commands; [AddLevel] and [Report] are the callbacks
    [add_q_level_<level>] and [report_<id>]; [Text] is a text message
    that passes none of the filters on the text, with the id that
    SQLite gives to the first row inserted for it.  The menu handlers
    [start_quiz_menu], [show_results], [show_leaderboard], [show_info]
    and [back_to_main], which write neither to the FSM nor to the
    database, are not among the updates: what is proved of the router
    is proved of the other handlers only.  Of the five, [show_results]
    computes [int((score / total) * 100)] for each stored row it lists
    and raises [ZeroDivisionError] on a row whose total is 0. *)
Inductive Update :=
| QuizUpdate (e : Bot.Event)
| CommandStart (uid : Z) (username : option string) (full_name : string)
| CommandAdmin (uid : Z) (text : string)
| Callback (uid : Z) (b : AdminButton)
| AddLevel (uid : Z) (level : string)
| Report (uid : Z) (question_id : Z)
| Text (uid : Z) (text : string) (rowid : Z).

Definition sender (u : Update) : Z :=
  match u with
  | QuizUpdate e => event_user e
  | CommandStart uid _ _ => uid
  | CommandAdmin uid _ => uid
  | Callback uid _ => uid
  | AddLevel uid _ => uid
  | Report uid _ => uid
  | Text uid _ _ => uid
  end.

Inductive Reply :=
| QuizReply (r : Bot.Reply)
| BannedNotice
| Welcome
| NotAdmin
| AdminPanel
| NoReply
| Unhandled
| AskReportReason
| ReportSent
| AskLevel
| AskQuestionText
| AskOptions
| TooFewOptions
| AskCorrect (options : list string)
| QuestionAdded
| CorrectOutOfRange (n : Z)
| NotANumber
| NoQuestions
| QuestionList (correct_options : list string)
| Stats (users_count questions_count results_count : Z)
| AskDeleteId
| QuestionDeleted
| BadId
| AskEditId
| QuestionNotFound
| AskEditText (q : QuestionRow)
| AskEditOptions
| AskEditCorrect (options : list string)
| QuestionEdited
| AskCsv
| CsvImported
| CsvError
| AskBanUser
| AskUnbanUser
| EmptyInput
| UsernameNotFound
| UserNotFound
| AskBanReason
| UserBanned
| UserUnbanned
| NoReports
| ReportList.

Definition quiz_reply (r : Exc Bot.Reply) : Exc Reply :=
  match r with
  | Ok r => Ok (QuizReply r)
  | Raise e => Raise e
  end.

Definition is_admin (uid : Z) : bool := bool_decide (uid ∈ ADMIN_IDS).

(** *** Handlers *)

Section handlers.

(** [int(s)] on a string, [None] where it raises [ValueError];
    [s.strip()]; and the rows that [csv.DictReader] makes of a text,
    [None] where the header lacks one of the seven columns, so that
    reading the first row raises [KeyError]. *)
Variable int : string -> option Z.
Variable strip : string -> string.
Variable DictReader : string -> option (list BotDb.CsvRow).

(** The handlers of the quiz, the bonus and the hint.  [finish_quiz]
    ends with [state.clear()], which clears the whole FSM record. *)
Definition quiz (e : Bot.Event) (w : World) : World * Exc Reply :=
  let r := Bot.handle e (bot w) in
  let w1 := set_bot (fst r) w in
  match snd r with
  | Ok (Bot.Finished _ _ _) => (clear (event_user e) w1, quiz_reply (snd r))
  | _ => (w1, quiz_reply (snd r))
  end.

Definition start_command (uid : Z) (username : option string)
    (full_name : string) (w : World) : World * Exc Reply :=
  if is_banned uid w then (w, Ok BannedNotice)
  else (add_user uid username (Some full_name) w, Ok Welcome).

Definition report_question_callback (uid question_id : Z) (w : World)
  : World * Exc Reply :=
  let w1 := update_data uid (with_report_question_id question_id) w in
  (set_state uid waiting_report_reason w1, Ok AskReportReason).

Definition enter_report_reason (uid : Z) (text : string) (w : World)
  : World * Exc Reply :=
  match f_report_question_id (get_form uid w) with
  | None => (w, Raise KeyError)
  | Some question_id =>
      (clear uid (report_question question_id uid text w), Ok ReportSent)
  end.

Definition admin_command (uid : Z) (w : World) : World * Exc Reply :=
  if is_admin uid then (w, Ok AdminPanel) else (w, Ok NotAdmin).

Definition back_to_admin (uid : Z) (w : World) : World * Exc Reply :=
  if is_admin uid then (w, Ok AdminPanel) else (w, Ok NoReply).

Definition admin_add_question (uid : Z) (w : World) : World * Exc Reply :=
  if is_admin uid then (set_state uid waiting_level w, Ok AskLevel)
  else (w, Ok NoReply).

Definition admin_select_level (uid : Z) (level : string) (w : World)
  : World * Exc Reply :=
  (set_state uid waiting_question (update_level uid level w), Ok AskQuestionText).

Definition admin_enter_question (uid : Z) (text : string) (w : World)
  : World * Exc Reply :=
  (set_state uid waiting_options (update_data uid (with_question text) w),
   Ok AskOptions).

Definition admin_enter_options (uid : Z) (text : string) (w : World)
  : World * Exc Reply :=
  let opts := strip <$> split_comma text in
  if len opts <? 2 then (w, Ok TooFewOptions)
  else (set_state uid waiting_correct (update_data uid (with_options opts) w),
        Ok (AskCorrect opts)).

Definition admin_enter_correct (uid : Z) (text : string) (rowid : Z) (w : World)
  : World * Exc Reply :=
  match int text with
  | None => (w, Ok NotANumber)
  | Some n =>
      let correct := n - 1 in
      match f_options (get_form uid w) with
      | None => (w, Raise KeyError)
      | Some opts =>
          if (0 <=? correct) && (correct <? len opts) then
            match get_level uid w, f_question (get_form uid w) with
            | Some level, Some question =>
                (clear uid
                   (set_db (BotDb.add_question rowid level question opts correct
                              (db w)) w),
                 Ok QuestionAdded)
            | _, _ => (w, Raise KeyError)
            end
          else (w, Ok (CorrectOutOfRange (len opts)))
      end
  end.

(** [admin_view_questions]: the first twenty questions are listed with
    the option [options[correct]] of each. *)
Definition admin_view_questions (uid : Z) (w : World) : World * Exc Reply :=
  if is_admin uid then
    match Bot.get_questions None (db w) with
    | [] => (w, Ok NoQuestions)
    | qs =>
        match Bot.wrong_answers_text (take 20 qs) with
        | Ok lines => (w, Ok (QuestionList lines))
        | Raise e => (w, Raise e)
        end
    end
  else (w, Ok NoReply).

Definition admin_stats (uid : Z) (w : World) : World * Exc Reply :=
  if is_admin uid then
    (w, Ok (Stats (len (t_users w)) (len (t_questions (db w)))
              (len (t_results (db w)))))
  else (w, Ok NoReply).

Definition admin_delete_question (uid : Z) (w : World) : World * Exc Reply :=
  if is_admin uid then (set_state uid waiting_delete_id w, Ok AskDeleteId)
  else (w, Ok NoReply).

Definition delete_question_id (uid : Z) (text : string) (w : World)
  : World * Exc Reply :=
  match int text with
  | Some q_id =>
      (clear uid (set_db (BotDb.delete_question q_id (db w)) w), Ok QuestionDeleted)
  | None => (clear uid w, Ok BadId)
  end.

Definition edit_question_id (uid : Z) (text : string) (w : World)
  : World * Exc Reply :=
  match int text with
  | Some q_id =>
      match question_by_id q_id w with
      | None => (clear uid w, Ok QuestionNotFound)
      | Some q =>
          (set_state uid waiting_edit_text
             (update_data uid
                (with_edit q_id (qr_options q) (qr_correct_answer q)) w),
           Ok (AskEditText q))
      end
  | None => (w, Ok BadId)
  end.

Definition edit_question_text (uid : Z) (text : string) (w : World)
  : World * Exc Reply :=
  (set_state uid waiting_edit_options
     (update_data uid (with_edit_q_text text) w),
   Ok AskEditOptions).

Definition edit_question_options (uid : Z) (text : string) (w : World)
  : World * Exc Reply :=
  let opts := strip <$> split_comma text in
  if len opts <? 2 then (w, Ok TooFewOptions)
  else (set_state uid waiting_edit_correct
          (update_data uid (with_edit_options opts) w),
        Ok (AskEditCorrect opts)).

Definition edit_question_correct (uid : Z) (text : string) (w : World)
  : World * Exc Reply :=
  match int text with
  | None => (w, Ok NotANumber)
  | Some n =>
      let correct := n - 1 in
      match f_edit_options (get_form uid w) with
      | None => (w, Raise KeyError)
      | Some opts =>
          if (0 <=? correct) && (correct <? len opts) then
            match f_edit_q_id (get_form uid w), f_edit_q_text (get_form uid w) with
            | Some q_id, Some q_text =>
                (clear uid
                   (set_db (BotDb.update_question q_id q_text opts correct (db w)) w),
                 Ok QuestionEdited)
            | _, _ => (w, Raise KeyError)
            end
          else (w, Ok (CorrectOutOfRange (len opts)))
      end
  end.

Definition admin_edit_question (uid : Z) (w : World) : World * Exc Reply :=
  if is_admin uid then (set_state uid waiting_edit_id w, Ok AskEditId)
  else (w, Ok NoReply).

Definition admin_import_csv (uid : Z) (w : World) : World * Exc Reply :=
  if is_admin uid then (set_state uid importing_csv w, Ok AskCsv)
  else (w, Ok NoReply).

(** [import_csv_content]: every exception of the import is caught. *)
Definition import_csv_content (uid : Z) (text : string) (rowid : Z) (w : World)
  : World * Exc Reply :=
  match DictReader text with
  | None => (clear uid w, Ok CsvError)
  | Some rows =>
      let r := BotDb.import_questions_from_csv rowid rows (db w) in
      (clear uid (set_db (fst r) w), Ok (if snd r then CsvImported else CsvError))
  end.

Definition admin_ban_user (uid : Z) (w : World) : World * Exc Reply :=
  if is_admin uid then (set_state uid waiting_ban_user_id w, Ok AskBanUser)
  else (w, Ok NoReply).

Definition admin_unban_user (uid : Z) (w : World) : World * Exc Reply :=
  if is_admin uid then (set_state uid waiting_unban_user_id w, Ok AskUnbanUser)
  else (w, Ok NoReply).

(** The user that [ban_user_id] and [unban_user_id] make of the input:
    a number is taken as the id, anything else is looked up as a user
    name.  [inl] is the reply that ends the handler. *)
Definition find_user (input_text : string) (w : World) : Reply + Z :=
  match int input_text with
  | Some user_id => inr user_id
  | None =>
      match user_id_of input_text w with
      | Some user_id => inr user_id
      | None => inl UsernameNotFound
      end
  end.

Definition ban_user_id (uid : Z) (text : string) (w : World)
  : World * Exc Reply :=
  let input_text := strip text in
  if decide (input_text = "") then (w, Ok EmptyInput)
  else match find_user input_text w with
       | inl r => (w, Ok r)
       | inr user_id =>
           if decide (user_id = 0) then (w, Ok UserNotFound)
           else (set_state uid waiting_ban_reason
                   (update_data uid (with_ban_user_id user_id) w),
                 Ok AskBanReason)
       end.

Definition ban_user_reason (uid : Z) (text : string) (w : World)
  : World * Exc Reply :=
  match f_ban_user_id (get_form uid w) with
  | None => (w, Raise KeyError)
  | Some user_id => (clear uid (ban_user user_id text w), Ok UserBanned)
  end.

Definition unban_user_id (uid : Z) (text : string) (w : World)
  : World * Exc Reply :=
  let input_text := strip text in
  if decide (input_text = "") then (w, Ok EmptyInput)
  else match find_user input_text w with
       | inl r => (w, Ok r)
       | inr user_id =>
           if decide (user_id = 0) then (w, Ok UserNotFound)
           else (clear uid (unban_user user_id w), Ok UserUnbanned)
       end.

Definition admin_view_reports (uid : Z) (w : World) : World * Exc Reply :=
  if is_admin uid then
    match reports w with
    | [] => (w, Ok NoReports)
    | _ => (w, Ok ReportList)
    end
  else (w, Ok NoReply).

(** *** The router

    The handlers are tried in the order of their registration, and the
    first whose filters pass takes the update.  A handler without a
    state filter takes it in every state.  Among the message handlers,
    [start_command] and the menu handlers come first, then
    [enter_report_reason], then [admin_command], then the handlers of
    the other dialogue states. *)
Definition on_callback (uid : Z) (b : AdminButton) (w : World)
  : World * Exc Reply :=
  match b with
  | btn_add_question => admin_add_question uid w
  | btn_view_questions => admin_view_questions uid w
  | btn_stats => admin_stats uid w
  | btn_delete_question => admin_delete_question uid w
  | btn_edit_question => admin_edit_question uid w
  | btn_import_csv => admin_import_csv uid w
  | btn_ban_user => admin_ban_user uid w
  | btn_unban_user => admin_unban_user uid w
  | btn_view_reports => admin_view_reports uid w
  | btn_back_to_admin => back_to_admin uid w
  end.

Definition on_text (uid : Z) (text : string) (rowid : Z) (w : World)
  : World * Exc Reply :=
  match get_state uid w with
  | Some waiting_report_reason => enter_report_reason uid text w
  | Some waiting_question => admin_enter_question uid text w
  | Some waiting_options => admin_enter_options uid text w
  | Some waiting_correct => admin_enter_correct uid text rowid w
  | Some waiting_delete_id => delete_question_id uid text w
  | Some waiting_edit_id => edit_question_id uid text w
  | Some waiting_edit_text => edit_question_text uid text w
  | Some waiting_edit_options => edit_question_options uid text w
  | Some waiting_edit_correct => edit_question_correct uid text w
  | Some importing_csv => import_csv_content uid text rowid w
  | Some waiting_ban_user_id => ban_user_id uid text w
  | Some waiting_ban_reason => ban_user_reason uid text w
  | Some waiting_unban_user_id => unban_user_id uid text w
  | _ => (w, Ok Unhandled)
  end.

Definition handle (u : Update) (w : World) : World * Exc Reply :=
  match u with
  | QuizUpdate e => quiz e w
  | CommandStart uid username full_name => start_command uid username full_name w
  | CommandAdmin uid text =>
      match get_state uid w with
      | Some waiting_report_reason => enter_report_reason uid text w
      | _ => admin_command uid w
      end
  | Callback uid b => on_callback uid b w
  | AddLevel uid level =>
      match get_state uid w with
      | Some waiting_level => admin_select_level uid level w
      | _ => (w, Ok Unhandled)
      end
  | Report uid question_id => report_question_callback uid question_id w
  | Text uid text rowid => on_text uid text rowid w
  end.

Definition run (us : list Update) (w : World) : World :=
  foldl (fun w u => fst (handle u w)) w us.

Fixpoint replies (us : list Update) (w : World) : list (Exc Reply) :=
  match us with
  | [] => []
  | u :: us' => snd (handle u w) :: replies us' (fst (handle u w))
  end.

End handlers.

(** The bot as started on a database. *)
Definition boot (d : DB) (us : list UserRow) (bs : gmap Z string)
    (rs : list ReportRow) : World :=
  {| bot := Bot.boot d; admin_state := ∅; form := ∅;
     t_users := us; t_banned_users := bs; t_question_reports := rs |}.

End Router.

(** No user who is not an admin is in a state of the admin dialogues:
    the state of such a user, where there is one beside the quiz, is
    [waiting_report_reason]. *)
Definition guests_outside (w : Router.World) : Prop :=
  forall uid, Router.is_admin uid = false ->
    Router.admin_state w !! uid = None
    \/ Router.admin_state w !! uid = Some Router.waiting_report_reason.
(** A question whose correct index is the index of one of its options. *)
Definition answerable (q : Question) : Prop :=
  0 <= correct_answer q < len (options q).

Definition bank_ok (d : DB) : Prop :=
  Forall (fun q => 0 <= qr_correct_answer q < len (qr_options q)) (t_questions d).

(** The quiz part of an FSM record that [handle_answer] can work on:
    the state, where there is one, is [taking_quiz], with a question
    still to be answered and answerable questions. *)
Definition quiz_ready (c : Bot.Context) : Prop :=
  match Bot.state c with
  | None => True
  | Some s =>
      s = Bot.taking_quiz
      /\ match Bot.data c with
         | None => False
         | Some d =>
             0 <= Bot.current d < len (Bot.questions d)
             /\ Forall answerable (Bot.questions d)
             /\ Forall answerable (Bot.wrong_answers d)
         end
  end.

(** The key [level] of an FSM record, as [Router.get_level] reads it. *)
Definition level_key (c : Bot.Context) (f : Router.Form) : option string :=
  match Bot.data c with
  | Some d => Some (Bot.level d)
  | None => Router.f_level f
  end.

(** The keys that the handler of a dialogue state reads are there. *)
Definition form_ready (s : Router.AdminStates) (level : option string)
    (f : Router.Form) : Prop :=
  match s with
  | Router.waiting_report_reason => is_Some (Router.f_report_question_id f)
  | Router.waiting_question => is_Some level
  | Router.waiting_options => is_Some level /\ is_Some (Router.f_question f)
  | Router.waiting_correct =>
      is_Some level /\ is_Some (Router.f_question f)
      /\ is_Some (Router.f_options f)
  | Router.waiting_edit_text => is_Some (Router.f_edit_q_id f)
  | Router.waiting_edit_options =>
      is_Some (Router.f_edit_q_id f) /\ is_Some (Router.f_edit_q_text f)
  | Router.waiting_edit_correct =>
      is_Some (Router.f_edit_q_id f) /\ is_Some (Router.f_edit_q_text f)
      /\ is_Some (Router.f_edit_options f)
  | Router.waiting_ban_reason => is_Some (Router.f_ban_user_id f)
  | Router.importing_csv => False
  | _ => True
  end.

(** The FSM record of a user. *)
Definition view (uid : Z) (w : Router.World)
  : Bot.Context * option Router.AdminStates * Router.Form :=
  (Bot.get_context uid (Router.bot w), Router.admin_state w !! uid,
   Router.get_form uid w).

Definition view_ok (v : Bot.Context * option Router.AdminStates * Router.Form)
  : Prop :=
  quiz_ready (fst (fst v))
  /\ match snd (fst v) with
     | Some s => form_ready s (level_key (fst (fst v)) (snd v)) (snd v)
     | None => True
     end.

(** The questions can all be answered, and every FSM record holds what
    the handlers of its state read; nobody is about to import a CSV. *)
Definition router_inv (w : Router.World) : Prop :=
  bank_ok (Router.db w) /\ forall uid, view_ok (view uid w).

(** The button that opens the CSV import. *)
Definition imports (u : Router.Update) : bool :=
  match u with
  | Router.Callback _ Router.btn_import_csv => true
  | _ => false
  end.
(** Stand-ins for [int], [str.strip] and [csv.DictReader] on the texts
    of the examples below. *)
Definition sample_int (s : string) : option Z :=
  if decide (s = "1") then Some 1
  else if decide (s = "2") then Some 2
  else if decide (s = "42") then Some 42
  else None.

Definition sample_strip (s : string) : string := s.

Definition sample_reader (s : string) : option (list BotDb.CsvRow) := None.

(** An admin adds a question, a user starts a quiz, reports its first
    question and sends the reason. *)
Definition sample_updates : list Router.Update :=
  [ Router.Callback 7782143104 Router.btn_add_question;
    Router.AddLevel 7782143104 "A1";
    Router.Text 7782143104 "Where are you from?" 0;
    Router.Text 7782143104 "a,b" 0;
    Router.Text 7782143104 "2" 8;
    Router.QuizUpdate (Bot.StartQuiz 5 0 "A1");
    Router.Report 5 1;
    Router.QuizUpdate (Bot.Answer 5 1 0);
    Router.Text 5 "unclear" 0 ].

(** The bot started on the sample database, with nobody registered,
    banned or reported. *)
Definition sample_world : Router.World := Router.boot sample_db [] ∅ [].

(** ** app.py: the accounts and the admin API *)

Module Web.

(** A row of [web_users]; its [created_date] is read by no route. *)
Record WebUserRow := {
  wu_id : Z;
  wu_username : string;
  wu_password_hash : string;
  wu_full_name : option string;
  wu_email : option string;
  wu_is_admin : Z
}.

(** The session keys [username], [full_name] and [is_admin] of a
    client.  [login] sets the three and [register] the first two;
    [a_is_admin] is [None] while the key is missing. *)
Record Account := {
  a_username : string;
  a_full_name : option string;
  a_is_admin : option Z
}.

(** The database with the tables of the accounts, and the session of
    one client: the keys [user_id] and [current_quiz] are those of
    [App.Session]. *)
Record World := {
  app_world : App.World;
  account : option Account;
  t_web_users : list WebUserRow;
  t_users : list Router.UserRow;
  t_question_reports : list Router.ReportRow
}.

Definition db (w : World) : DB := App.db (app_world w).

Definition user_id (w : World) : option Z := App.user_id (App.session (app_world w)).

Definition set_app (a : App.World) (w : World) : World :=
  {| app_world := a; account := account w; t_web_users := t_web_users w;
     t_users := t_users w; t_question_reports := t_question_reports w |}.

Definition set_db (d : DB) (w : World) : World :=
  set_app (App.set_db d (app_world w)) w.

(** [session['user_id'] = ...] with the keys set beside it; the key
    [current_quiz] stays. *)
Definition set_session (uid : Z) (a : Account) (w : World) : World :=
  {| app_world := {| App.db := App.db (app_world w);
               App.session :=
                 {| App.user_id := Some uid;
                    App.current_quiz := App.current_quiz (App.session (app_world w)) |} |};
     account := Some a; t_web_users := t_web_users w;
     t_users := t_users w; t_question_reports := t_question_reports w |}.

(** [session.clear()] *)
Definition clear_session (w : World) : World :=
  {| app_world := {| App.db := App.db (app_world w);
               App.session := {| App.user_id := None; App.current_quiz := None |} |};
     account := None; t_web_users := t_web_users w;
     t_users := t_users w; t_question_reports := t_question_reports w |}.

Definition set_web_users (us : list WebUserRow) (w : World) : World :=
  {| app_world := app_world w; account := account w; t_web_users := us;
     t_users := t_users w; t_question_reports := t_question_reports w |}.

Definition set_users (us : list Router.UserRow) (w : World) : World :=
  {| app_world := app_world w; account := account w; t_web_users := t_web_users w;
     t_users := us; t_question_reports := t_question_reports w |}.

Inductive Response :=
| CredentialsRequired
| UsernameExists
| Registered (id : Z) (username : string) (full_name : option string)
| InvalidCredentials
| LoggedIn (id : Z) (username : string) (full_name : option string) (is_admin : Z)
| LoggedOut
| Authenticated (id : Z) (username : string) (full_name : option string)
    (is_admin : Z)
| NotAuthenticated
| AuthenticationRequired
| AdminRequired
| QuizResponse (r : App.Response)
| AdminStats (users web_users questions results reports : Z)
| AllQuestions (questions : list Question)
| Success
| Reports.

(** What a request ends in: a response, or an exception, which Flask
    turns into the status 500. *)
Inductive Result :=
| Sent (r : Response)
| Raised (e : PyError)
| RaisedTypeError.

(** A field of the JSON body that passes [if not ...]: a string that
    is not empty.  The fields are taken to be strings or missing. *)
Definition truthy (s : option string) : option string :=
  match s with
  | Some s => if decide (s = "") then None else Some s
  | None => None
  end.

(** [SELECT * FROM web_users WHERE username = ?] and [fetchone()] *)
Definition user_by_name (username : string) (w : World) : option WebUserRow :=
  head (filter (fun u => wu_username u = username) (t_web_users w)).

(** [SELECT is_admin FROM web_users WHERE id = ?] and [fetchone()] *)
Definition user_by_id (id : Z) (w : World) : option WebUserRow :=
  head (filter (fun u => wu_id u = id) (t_web_users w)).

(** [admin_required]: the response that refuses the request, [None]
    where the route is run. *)
Definition admin_required (w : World) : option Response :=
  match user_id w with
  | None => Some AuthenticationRequired
  | Some uid =>
      match user_by_id uid w with
      | Some user =>
          if decide (wu_is_admin user = 0) then Some AdminRequired else None
      | None => Some AdminRequired
      end
  end.

Section routes.

(** [hash_password]: the hexadecimal SHA-256 digest of the password. *)
Variable hash_password : string -> string.

(** [POST /api/register]; [rowid] is the [lastrowid] of the insert.
    The unique [username] makes the insert raise [IntegrityError] for a
    name that is taken.  The row of [users] is inserted with
    [INSERT OR IGNORE] under the id plus 10000. *)
Definition register (username password full_name email : option string)
    (rowid : Z) (w : World) : World * Result :=
  match truthy username, truthy password with
  | Some username, Some password =>
      if bool_decide (username ∈ wu_username <$> t_web_users w) then
        (w, Sent UsernameExists)
      else
        let w1 := set_web_users
                    (app (t_web_users w)
                       [{| wu_id := rowid; wu_username := username;
                           wu_password_hash := hash_password password;
                           wu_full_name := full_name; wu_email := email;
                           wu_is_admin := 0 |}]) w in
        let w2 :=
          if bool_decide (rowid + 10000 ∈ Router.u_user_id <$> t_users w1) then w1
          else set_users
                 (app (t_users w1)
                    [{| Router.u_user_id := rowid + 10000;
                        Router.u_username := Some username;
                        Router.u_full_name := full_name |}]) w1 in
        (set_session rowid
           {| a_username := username; a_full_name := full_name;
              a_is_admin := account w ≫= a_is_admin |} w2,
         Sent (Registered rowid username full_name))
  | _, _ => (w, Sent CredentialsRequired)
  end.

(** [POST /api/login] *)
Definition login (username password : option string) (w : World)
  : World * Result :=
  match truthy username, truthy password with
  | Some username, Some password =>
      match user_by_name username w with
      | Some user =>
          if decide (hash_password password = wu_password_hash user) then
            (set_session (wu_id user)
               {| a_username := wu_username user;
                  a_full_name := wu_full_name user;
                  a_is_admin := Some (wu_is_admin user) |} w,
             Sent (LoggedIn (wu_id user) (wu_username user) (wu_full_name user)
                     (wu_is_admin user)))
          else (w, Sent InvalidCredentials)
      | None => (w, Sent InvalidCredentials)
      end
  | _, _ => (w, Sent CredentialsRequired)
  end.

(** [POST /api/logout] *)
Definition logout (w : World) : World * Result :=
  (clear_session w, Sent LoggedOut).

(** [GET /api/session] *)
Definition check_session (w : World) : World * Result :=
  match user_id w with
  | Some uid =>
      match account w with
      | Some a =>
          (w, Sent (Authenticated uid (a_username a) (a_full_name a)
                      (default 0 (a_is_admin a))))
      | None => (w, Raised KeyError)
      end
  | None => (w, Sent NotAuthenticated)
  end.

(** The quiz routes, with [login_required] as their first check. *)
Definition quiz (e : App.Event) (w : World) : World * Result :=
  let r := App.handle e (app_world w) in
  (set_app (fst r) w,
   match snd r with
   | Ok x => Sent (QuizResponse x)
   | Raise e => Raised e
   end).

(** [GET /api/admin/stats] *)
Definition get_admin_stats (w : World) : World * Result :=
  match admin_required w with
  | Some r => (w, Sent r)
  | None =>
      (w, Sent (AdminStats (len (t_users w)) (len (t_web_users w))
                  (len (t_questions (db w))) (len (t_results (db w)))
                  (len (t_question_reports w))))
  end.

(** [GET /api/admin/questions]: the query of [get_questions()] in bot.py *)
Definition get_all_questions (w : World) : World * Result :=
  match admin_required w with
  | Some r => (w, Sent r)
  | None => (w, Sent (AllQuestions (Bot.get_questions None (db w))))
  end.

(** [POST /api/admin/questions].  [fetchone()['id']] raises [TypeError]
    for a level that is not in [english_levels]; nothing of the body is
    checked.  The body is taken to hold a text, a list of texts and an
    integer. *)
Definition add_question (level : option string) (question : string)
    (options : list string) (correct rowid : Z) (w : World) : World * Result :=
  match admin_required w with
  | Some r => (w, Sent r)
  | None =>
      match level ≫= fun lv => BotDb.level_id lv (db w) with
      | None => (w, RaisedTypeError)
      | Some level_id =>
          (set_db (BotDb.set_questions
                     (fun qs => app qs
                        [{| qr_id := rowid; qr_level_id := level_id;
                            qr_question_text := question; qr_options := options;
                            qr_correct_answer := correct |}]) (db w)) w,
           Sent Success)
      end
  end.

(** [PUT /api/admin/questions/<id>]: the statement of [update_question]
    in bot.py *)
Definition update_question (question_id : Z) (question : string)
    (options : list string) (correct : Z) (w : World) : World * Result :=
  match admin_required w with
  | Some r => (w, Sent r)
  | None =>
      (set_db (BotDb.update_question question_id question options correct (db w)) w,
       Sent Success)
  end.

(** [DELETE /api/admin/questions/<id>] *)
Definition delete_question (question_id : Z) (w : World) : World * Result :=
  match admin_required w with
  | Some r => (w, Sent r)
  | None => (set_db (BotDb.delete_question question_id (db w)) w, Sent Success)
  end.

(** [GET /api/admin/reports]; the rows of the response are not modelled. *)
Definition get_reports (w : World) : World * Result :=
  match admin_required w with
  | Some r => (w, Sent r)
  | None => (w, Sent Reports)
  end.

(** The requests of one client.  The routes of the pages, of the
    levels, of [get_user_results] and of the leaderboard, which read
    only, are not among them. *)
Inductive Request :=
| Register (username password full_name email : option string) (rowid : Z)
| Login (username password : option string)
| Logout
| CheckSession
| QuizRequest (e : App.Event)
| GetAdminStats
| GetAllQuestions
| AddQuestion (level : option string) (question : string)
    (options : list string) (correct rowid : Z)
| UpdateQuestion (question_id : Z) (question : string) (options : list string)
    (correct : Z)
| DeleteQuestion (question_id : Z)
| GetReports.

Definition handle (r : Request) (w : World) : World * Result :=
  match r with
  | Register username password full_name email rowid =>
      register username password full_name email rowid w
  | Login username password => login username password w
  | Logout => logout w
  | CheckSession => check_session w
  | QuizRequest e => quiz e w
  | GetAdminStats => get_admin_stats w
  | GetAllQuestions => get_all_questions w
  | AddQuestion level question options correct rowid =>
      add_question level question options correct rowid w
  | UpdateQuestion question_id question options correct =>
      update_question question_id question options correct w
  | DeleteQuestion question_id => delete_question question_id w
  | GetReports => get_reports w
  end.

Definition run (rs : list Request) (w : World) : World :=
  foldl (fun w r => fst (handle r w)) w rs.

Fixpoint replies (rs : list Request) (w : World) : list Result :=
  match rs with
  | [] => []
  | r :: rs' => snd (handle r w) :: replies rs' (fst (handle r w))
  end.

End routes.

(** Whether a request is one of the admin API. *)
Definition admin_api (r : Request) : bool :=
  match r with
  | GetAdminStats | GetAllQuestions | AddQuestion _ _ _ _ _
  | UpdateQuestion _ _ _ _ | DeleteQuestion _ | GetReports => true
  | _ => false
  end.

(** A client that has not logged in. *)
Definition visitor (d : DB) (web_users : list WebUserRow)
    (users : list Router.UserRow) (reports : list Router.ReportRow) : World :=
  {| app_world := {| App.db := d;
               App.session := {| App.user_id := None; App.current_quiz := None |} |};
     account := None; t_web_users := web_users; t_users := users;
     t_question_reports := reports |}.

End Web.
(** No account of [web_users] is an admin. *)
Definition no_admin (w : Web.World) : Prop :=
  Forall (fun u => Web.wu_is_admin u = 0) (Web.t_web_users w).

(** A response of the admin API that refuses the request. *)
Definition refused (r : Web.Result) : Prop :=
  r = Web.Sent Web.AuthenticationRequired \/ r = Web.Sent Web.AdminRequired.
(** A stand-in for [hash_password] in the examples below. *)
Definition sample_hash (s : string) : string := String.append "sha256:" s.

Definition sample_account : Web.WebUserRow :=
  {| Web.wu_id := 1; Web.wu_username := "ann";
     Web.wu_password_hash := sample_hash "pw"; Web.wu_full_name := None;
     Web.wu_email := None; Web.wu_is_admin := 0 |}.

(** A visitor of an installation with no account yet. *)
Definition sample_visitor : Web.World := Web.visitor sample_db [] [] [].

(** A client whose session holds the key [is_admin] of an admin login,
    with the admin account in the database. *)
Definition sample_admin_client : Web.World :=
  {| Web.app_world := App.logged_in 7 sample_db;
     Web.account := Some {| Web.a_username := "root"; Web.a_full_name := None;
                            Web.a_is_admin := Some 1 |};
     Web.t_web_users :=
       [ {| Web.wu_id := 7; Web.wu_username := "root";
            Web.wu_password_hash := sample_hash "toor";
            Web.wu_full_name := None; Web.wu_email := None;
            Web.wu_is_admin := 1 |} ];
     Web.t_users := []; Web.t_question_reports := [] |}.

(** A visitor registers and tries the admin API. *)
Definition sample_requests : list Web.Request :=
  [ Web.Register (Some "ann") (Some "pw") None None 1;
    Web.AddQuestion (Some "A1") "What is this?" ["a"; "b"] 5 8;
    Web.DeleteQuestion 1;
    Web.GetAdminStats ].

(** * Properties *)

(** ** [ORDER BY]: the sorted rows are the rows, in order *)

Section OrderBy.
Context {A : Type} (le : A -> A -> bool).
Hypothesis le_total : forall a b, le a b = false -> le b a = true.

Lemma insert_by_perm x l : Permutation (insert_by le x l) (x :: l).
Proof.
  induction l as [|y l IH]; simpl; [reflexivity|].
  destruct (le x y); [reflexivity|].
  rewrite IH. apply perm_swap.
Qed.

Lemma order_by_perm l : Permutation (order_by le l) l.
Proof.
  induction l as [|x l IH]; simpl; [reflexivity|].
  rewrite insert_by_perm. by constructor.
Qed.

Lemma insert_by_hd x y l :
  HdRel (fun a b => le a b = true) y l -> le x y = false ->
  HdRel (fun a b => le a b = true) y (insert_by le x l).
Proof.
  intros Hhd Hxy. destruct l as [|z l]; simpl.
  - constructor. by apply le_total.
  - inversion Hhd; subst. destruct (le x z); constructor; auto.
Qed.

Lemma insert_by_sorted x l :
  Sorted (fun a b => le a b = true) l ->
  Sorted (fun a b => le a b = true) (insert_by le x l).
Proof.
  induction 1 as [|y l Hs IH Hhd]; simpl.
  - repeat constructor.
  - destruct (le x y) eqn:Hxy.
    + constructor; [by constructor|]. by constructor.
    + constructor; [exact IH|]. by apply insert_by_hd.
Qed.

Lemma order_by_sorted l : Sorted (fun a b => le a b = true) (order_by le l).
Proof.
  induction l as [|x l IH]; simpl; [constructor|].
  by apply insert_by_sorted.
Qed.

(** A list already in order is left as it is. *)
Lemma order_by_of_sorted l :
  Sorted (fun a b => le a b = true) l -> order_by le l = l.
Proof.
  induction 1 as [|x l Hs IH Hhd]; simpl; [reflexivity|].
  rewrite IH. destruct Hhd as [|y l Hxy]; simpl; [reflexivity|].
  by rewrite Hxy.
Qed.
End OrderBy.

Lemma by_q_id_total a b : by_q_id a b = false -> by_q_id b a = true.
Proof. unfold by_q_id. lia. Qed.

Lemma by_l_id_q_id_total a b :
  by_l_id_q_id a b = false -> by_l_id_q_id b a = true.
Proof. unfold by_l_id_q_id. lia. Qed.

Lemma by_key_total {A} (a b : Z * A) : by_key a b = false -> by_key b a = true.
Proof. unfold by_key. lia. Qed.

Lemma Sorted_fmap {A B} (f : A -> B) (R : B -> B -> Prop) (l : list A) :
  Sorted (fun a b => R (f a) (f b)) l -> Sorted R (f <$> l).
Proof.
  induction 1 as [|x l Hs IH Hhd]; simpl; constructor; auto.
  destruct Hhd; simpl; by constructor.
Qed.

(** ** [ORDER BY RANDOM()]: every order of the rows can be drawn *)

Section RandomOrder.
Context {A : Type}.
Implicit Types (rows p : list A) (ks : list Z) (zs : list (Z * A)).

Lemma snd_imap_keys (f : nat -> Z) rows :
  snd <$> imap (fun i r => (f i, r)) rows = rows.
Proof.
  revert f. induction rows as [|r rows IH]; intros f; [reflexivity|].
  simpl. f_equal. apply (IH (f ∘ S)).
Qed.

Lemma order_by_random_perm (random : nat -> Z) rows :
  Permutation (order_by_random random rows) rows.
Proof.
  unfold order_by_random. rewrite order_by_perm. by rewrite snd_imap_keys.
Qed.

Lemma imap_nth_keys ks rows :
  length ks = length rows ->
  imap (fun i r => (nth i ks 0, r)) rows = zip ks rows.
Proof.
  revert ks. induction rows as [|r rows IH]; intros [|k ks] Hlen;
    simplify_eq/=; [reflexivity|].
  f_equal. by apply IH.
Qed.

(** Two insertions with different keys commute. *)
Lemma insert_by_key_comm (x y : Z * A) zs :
  fst x <> fst y ->
  insert_by by_key x (insert_by by_key y zs)
  = insert_by by_key y (insert_by by_key x zs).
Proof.
  intros Hne. induction zs as [|z zs IH]; simpl.
  - unfold by_key. destruct (fst x <=? fst y) eqn:E1, (fst y <=? fst x) eqn:E2;
      try reflexivity; lia.
  - unfold by_key in *.
    destruct (fst y <=? fst z) eqn:Eyz, (fst x <=? fst z) eqn:Exz; simpl;
      unfold by_key;
      destruct (fst x <=? fst y) eqn:Exy, (fst y <=? fst x) eqn:Eyx;
      rewrite ?Eyz, ?Exz; try reflexivity; try lia.
    all: by rewrite IH.
Qed.

(** With distinct keys the sorted list depends on the rows drawn with
    them only, not on the order they were listed in. *)
Lemma order_by_key_perm zs zs' :
  Permutation zs zs' -> NoDup (fst <$> zs) ->
  order_by by_key zs = order_by by_key zs'.
Proof.
  induction 1 as [|z zs zs' Hp IH|y x zs|zs zs' zs'' Hp1 IH1 Hp2 IH2];
    intros Hnd; simpl in *.
  - reflexivity.
  - apply NoDup_cons in Hnd as [_ Hnd]. by rewrite IH.
  - apply insert_by_key_comm. apply NoDup_cons in Hnd as [Hnin _].
    intros Heq. apply Hnin. rewrite Heq. by left.
  - rewrite IH1; [|done]. apply IH2.
    assert (Hfst : Permutation (fst <$> zs) (fst <$> zs'))
      by (by apply fmap_Permutation).
    by rewrite <- Hfst.
Qed.

(** A permutation of the rows carries the keys along. *)
Lemma zip_keys_perm p rows :
  Permutation p rows -> forall ks, length ks = length p ->
  exists ks', length ks' = length rows /\
              Permutation (zip ks p) (zip ks' rows).
Proof.
  induction 1 as [|x p rows Hp IH|y x p|p p' p'' Hp1 IH1 Hp2 IH2];
    intros ks Hlen.
  - exists []. by destruct ks.
  - destruct ks as [|k ks]; simplify_eq/=.
    destruct (IH ks Hlen) as (ks' & Hlen' & Hperm).
    exists (k :: ks'). simpl. split; [by rewrite Hlen'|by constructor].
  - destruct ks as [|k1 [|k2 ks]]; simplify_eq/=.
    exists (k2 :: k1 :: ks). simpl. split; [by rewrite Hlen|apply perm_swap].
  - destruct (IH1 ks Hlen) as (ks' & Hlen' & Hperm').
    destruct (IH2 ks' Hlen') as (ks'' & Hlen'' & Hperm'').
    exists ks''. split; [done|]. by rewrite Hperm'.
Qed.

Lemma zip_seq_sorted (s : nat) p :
  Sorted (fun a b : Z * A => by_key a b = true)
         (zip (Z.of_nat <$> seq s (length p)) p).
Proof.
  revert s. induction p as [|x p IH]; intros s; simpl; constructor.
  - apply IH.
  - destruct p; constructor. unfold by_key. cbn [fst].
    apply Z.leb_le. lia.
Qed.

Lemma order_by_random_any p rows :
  Permutation p rows -> exists random, order_by_random random rows = p.
Proof.
  intros Hperm.
  set (ks := Z.of_nat <$> seq 0 (length p)).
  assert (Hks : length ks = length p).
  { unfold ks. by rewrite length_fmap, length_seq. }
  destruct (zip_keys_perm p rows Hperm ks Hks) as (ks' & Hlen' & Hz).
  exists (fun i => nth i ks' 0). unfold order_by_random.
  rewrite imap_nth_keys; [|done].
  rewrite <- (order_by_key_perm _ _ Hz).
  - rewrite order_by_of_sorted; [|apply zip_seq_sorted].
    apply snd_zip. lia.
  - rewrite fst_zip; [|lia]. unfold ks.
    apply NoDup_fmap; [intros ?? ?; lia|apply NoDup_seq].
Qed.
End RandomOrder.

(** ** Python lists and the percentage *)

Lemma len_nonneg {A} (l : list A) : 0 <= len l.
Proof. unfold len. lia. Qed.

Lemma len_snoc {A} (l : list A) (x : A) : len (l ++ [x]) = len l + 1.
Proof. unfold len. rewrite length_app. simpl. lia. Qed.

Lemma getitem_in_range {A} (l : list A) (i : Z) :
  0 <= i < len l -> exists x, getitem l i = Ok x /\ l !! Z.to_nat i = Some x.
Proof.
  intros Hi. unfold getitem.
  destruct (i <? 0) eqn:Hneg; [lia|].
  destruct ((i <? 0) || (len l <=? i)) eqn:Hout; [lia|].
  destruct (l !! Z.to_nat i) as [x|] eqn:Hx; [by exists x|].
  apply lookup_ge_None in Hx. unfold len in Hi. lia.
Qed.

Lemma getitem_past_end {A} (l : list A) (i : Z) :
  len l <= i -> getitem l i = Raise IndexError.
Proof.
  intros Hi. unfold getitem. pose proof (len_nonneg l).
  destruct (i <? 0) eqn:Hneg; [lia|].
  destruct ((i <? 0) || (len l <=? i)) eqn:Hout; [done|lia].
Qed.

Lemma percentage_defined (score total : Z) :
  total <> 0 -> exists p, percentage score total = Ok p.
Proof.
  intros Ht. unfold percentage, truediv.
  destruct (total =? 0) eqn:E; [lia|]. simpl. eauto.
Qed.

Lemma determine_level_of_percentage (score total : Z) (p : float) :
  percentage score total = Ok p ->
  determine_level score total = Ok (level_of_percentage p).
Proof. intros Hp. unfold determine_level. by rewrite Hp. Qed.

(** ** The FSM storage *)

Lemma get_set_context uid c w :
  Bot.get_context uid (Bot.set_context uid c w) = c.
Proof. unfold Bot.get_context, Bot.set_context. simpl. by rewrite lookup_insert_eq. Qed.

Lemma get_set_context_ne uid uid' c w :
  uid <> uid' ->
  Bot.get_context uid' (Bot.set_context uid c w) = Bot.get_context uid' w.
Proof.
  intros Hne. unfold Bot.get_context, Bot.set_context. simpl.
  by rewrite lookup_insert_ne.
Qed.

Lemma session_set_db uid d w :
  Bot.session uid (Bot.set_db d w) = Bot.session uid w.
Proof. reflexivity. Qed.

Lemma session_update_data uid d w :
  Bot.session uid w <> None ->
  Bot.session uid (Bot.update_data uid d w) = Some d.
Proof.
  unfold Bot.session, Bot.update_data. rewrite get_set_context. simpl.
  by destruct (Bot.state (Bot.get_context uid w)) as [[]|].
Qed.

Lemma session_update_data_ne uid uid' d w :
  uid <> uid' ->
  Bot.session uid' (Bot.update_data uid d w) = Bot.session uid' w.
Proof.
  intros Hne. unfold Bot.session, Bot.update_data.
  by rewrite get_set_context_ne.
Qed.

Lemma session_clear uid w : Bot.session uid (Bot.clear uid w) = None.
Proof. unfold Bot.session, Bot.clear. by rewrite get_set_context. Qed.

Lemma session_clear_ne uid uid' w :
  uid <> uid' -> Bot.session uid' (Bot.clear uid w) = Bot.session uid' w.
Proof.
  intros Hne. unfold Bot.session, Bot.clear. by rewrite get_set_context_ne.
Qed.

Lemma session_started uid d w :
  Bot.session uid (Bot.set_state uid Bot.taking_quiz (Bot.update_data uid d w))
  = Some d.
Proof.
  unfold Bot.session, Bot.set_state, Bot.update_data.
  by rewrite !get_set_context.
Qed.

Lemma session_started_ne uid uid' d w :
  uid <> uid' ->
  Bot.session uid' (Bot.set_state uid Bot.taking_quiz (Bot.update_data uid d w))
  = Bot.session uid' w.
Proof.
  intros Hne. unfold Bot.session, Bot.set_state, Bot.update_data.
  by rewrite !get_set_context_ne.
Qed.

Lemma session_data uid w d :
  Bot.session uid w = Some d ->
  Bot.state (Bot.get_context uid w) = Some Bot.taking_quiz
  /\ Bot.data (Bot.get_context uid w) = Some d.
Proof.
  unfold Bot.session.
  by destruct (Bot.state (Bot.get_context uid w)) as [[]|].
Qed.

(** ** One answer in the bot *)

(** What [answer_step] writes, for a session that still has a question. *)
Lemma bot_answer_step d a :
  0 <= Bot.current d < len (Bot.questions d) ->
  exists q d',
    getitem (Bot.questions d) (Bot.current d) = Ok q
    /\ Bot.answer_step d a = Ok d'
    /\ Bot.questions d' = Bot.questions d
    /\ Bot.current d' = Bot.current d + 1
    /\ Bot.level d' = Bot.level d
    /\ Bot.start_time d' = Bot.start_time d
    /\ Bot.user_id d' = Bot.user_id d
    /\ ((a = correct_answer q /\ Bot.score d' = Bot.score d + 1
         /\ Bot.lives d' = Bot.lives d
         /\ Bot.wrong_answers d' = Bot.wrong_answers d)
        \/ (a <> correct_answer q /\ Bot.score d' = Bot.score d
            /\ Bot.lives d' = Bot.lives d - 1
            /\ Bot.wrong_answers d' = app (Bot.wrong_answers d) [q])).
Proof.
  intros Hcur. destruct (getitem_in_range _ _ Hcur) as (q & Hq & _).
  exists q. unfold Bot.answer_step. rewrite Hq. simpl.
  destruct (decide (a = correct_answer q)) as [Heq|Hne];
    eexists; (split; [done|]); (split; [done|]); simpl;
    repeat (split; [done|]); [left|right]; done.
Qed.

Lemma bot_update_data_data uid d' w :
  Bot.data (Bot.get_context uid (Bot.update_data uid d' w)) = Some d'.
Proof. unfold Bot.update_data. by rewrite get_set_context. Qed.

Lemma bot_finish_quiz_updated uid now d' p e w :
  percentage (Bot.score d') (len (Bot.questions d')) = Ok p ->
  Bot.finish_quiz uid now (Bot.score d') (len (Bot.questions d')) e
    (Bot.update_data uid d' w) = bot_finished uid now d' p e w.
Proof.
  intros Hp. unfold Bot.finish_quiz, bot_finished.
  by rewrite bot_update_data_data, Hp.
Qed.

(** The three ways [handle_answer] goes on after the update. *)
Lemma bot_handle_answer uid now a w d :
  Bot.session uid w = Some d ->
  0 <= Bot.current d < len (Bot.questions d) ->
  exists d', Bot.answer_step d a = Ok d' /\
    ((Bot.lives d' <= 0
      /\ exists p, percentage (Bot.score d') (len (Bot.questions d')) = Ok p
          /\ Bot.handle_answer uid now a w = bot_finished uid now d' p true w)
     \/ (0 < Bot.lives d' /\ len (Bot.questions d') <= Bot.current d'
         /\ exists p, percentage (Bot.score d') (len (Bot.questions d')) = Ok p
          /\ Bot.handle_answer uid now a w = bot_finished uid now d' p false w)
     \/ (0 < Bot.lives d' /\ Bot.current d' < len (Bot.questions d')
         /\ exists q', getitem (Bot.questions d') (Bot.current d') = Ok q'
          /\ Bot.handle_answer uid now a w
             = (Bot.update_data uid d' w,
                Ok (Bot.AskQuestion q' (Bot.current d' + 1)
                      (len (Bot.questions d')) (Bot.lives d')
                      (0 <? Bot.get_user_hints (Bot.user_id d') (Bot.db w)))))).
Proof.
  intros Hs Hcur. destruct (session_data _ _ _ Hs) as [Hst Hd].
  destruct (bot_answer_step d a Hcur)
    as (q & d' & Hq & Hstep & Hqs & Hc & _).
  exists d'. split; [done|].
  assert (Htot : len (Bot.questions d') <> 0) by (rewrite Hqs; lia).
  destruct (percentage_defined (Bot.score d') _ Htot) as [p Hp].
  unfold Bot.handle_answer. rewrite Hst, Hd, Hstep. cbn zeta.
  destruct (Bot.lives d' <=? 0) eqn:Hl.
  { left. split; [lia|]. exists p. by rewrite (bot_finish_quiz_updated _ _ _ p). }
  destruct (len (Bot.questions d') <=? Bot.current d') eqn:Hc'.
  { right; left. split; [lia|]. split; [lia|]. exists p.
    by rewrite (bot_finish_quiz_updated _ _ _ p). }
  right; right. split; [lia|]. split; [lia|].
  destruct (getitem_in_range (Bot.questions d') (Bot.current d'))
    as (q' & Hq' & _); [lia|].
  exists q'. split; [done|]. rewrite Hq'.
  unfold Bot.ask_question. by rewrite bot_update_data_data.
Qed.

(** With the cursor at the end of the questions the lookup of the
    current question raises and nothing is written. *)
Lemma bot_handle_answer_past_end uid now a w d :
  Bot.session uid w = Some d ->
  len (Bot.questions d) <= Bot.current d ->
  Bot.handle_answer uid now a w = (w, Raise IndexError).
Proof.
  intros Hs Hcur. destruct (session_data _ _ _ Hs) as [Hst Hd].
  unfold Bot.handle_answer, Bot.answer_step.
  by rewrite Hst, Hd, getitem_past_end.
Qed.

Lemma bot_handle_answer_idle uid now a w :
  Bot.session uid w = None -> fst (Bot.handle_answer uid now a w) = w.
Proof.
  unfold Bot.session, Bot.handle_answer.
  destruct (Bot.state (Bot.get_context uid w)) as [[]|]; try done.
  by intros ->.
Qed.

(** After [finish_quiz] the session of the user is gone, or, when the
    message could not be built, holds the updated data; the sessions
    of the other users are as before. *)
Lemma bot_finished_session uid uid' now d' p e w :
  Bot.session uid w <> None ->
  Bot.session uid' (fst (bot_finished uid now d' p e w))
  = if decide (uid = uid') then
      match Bot.wrong_answers_text (take 5 (Bot.wrong_answers d')) with
      | Ok _ => None
      | Raise _ => Some d'
      end
    else Bot.session uid' w.
Proof.
  intros Hs. unfold bot_finished. cbn zeta.
  destruct (Bot.wrong_answers_text _); simpl;
    destruct (decide (uid = uid')) as [<-|Hne].
  - apply session_clear.
  - by rewrite session_clear_ne, session_set_db, session_update_data_ne.
  - rewrite session_set_db. by apply session_update_data.
  - by rewrite session_set_db, session_update_data_ne.
Qed.

(** The updated data of a consistent session is again consistent. *)
Lemma bot_answer_step_inv d a d' :
  bot_session_inv d -> Bot.answer_step d a = Ok d' ->
  bot_session_inv d'
  /\ Bot.current d < len (Bot.questions d)
  /\ Bot.current d' = Bot.current d + 1
  /\ Bot.questions d' = Bot.questions d
  /\ len (Bot.wrong_answers d) <= len (Bot.wrong_answers d')
     <= len (Bot.wrong_answers d) + 1.
Proof.
  intros (Hs & Hsum & Hcur & Hl) Hstep.
  pose proof (len_nonneg (Bot.wrong_answers d)) as Hw.
  assert (Hlt : Bot.current d < len (Bot.questions d)).
  { destruct (decide (Bot.current d < len (Bot.questions d))) as [|Hge]; [done|].
    unfold Bot.answer_step in Hstep.
    by rewrite getitem_past_end in Hstep by lia. }
  destruct (bot_answer_step d a)
    as (q & d1 & _ & Hstep1 & Hqs & Hc & _ & _ & _ & Hcase); [lia|].
  rewrite Hstep in Hstep1. simplify_eq.
  unfold bot_session_inv.
  destruct Hcase as [(_ & Hsc & Hlv & Hwr)|(_ & Hsc & Hlv & Hwr)];
    rewrite Hsc, Hqs, Hc, Hlv, Hwr, ?len_snoc; repeat split; lia.
Qed.

Lemma bot_inv_start uid now lv w :
  bot_inv w -> bot_inv (fst (Bot.start_quiz uid now lv w)).
Proof.
  intros Hinv. unfold Bot.start_quiz.
  set (qs := if decide (lv = "full") then _ else _).
  destruct qs as [|q0 qs'] eqn:Hqs; [done|].
  set (d0 := Bot.Build_QuizData _ _ _ _ _ _ _ _).
  assert (Hfst : forall r : Bot.World * Exc Bot.Reply,
    (r = Bot.ask_question uid q0
           (Bot.set_state uid Bot.taking_quiz (Bot.update_data uid d0 w)))
    -> fst r = Bot.set_state uid Bot.taking_quiz (Bot.update_data uid d0 w)).
  { intros r ->. unfold Bot.ask_question. by destruct (Bot.data _). }
  replace (getitem (q0 :: qs') 0) with (Ok q0) by done.
  rewrite (Hfst _ eq_refl).
  intros uid' d Hd. destruct (decide (uid = uid')) as [<-|Hne].
  - rewrite session_started in Hd. injection Hd as <-.
    unfold bot_session_inv, d0, len. simpl. lia.
  - rewrite session_started_ne in Hd by done. by eapply Hinv.
Qed.

Lemma bot_inv_answer uid now a w :
  bot_inv w -> bot_inv (fst (Bot.handle_answer uid now a w)).
Proof.
  intros Hinv. destruct (Bot.session uid w) as [d|] eqn:Hs;
    [|by rewrite bot_handle_answer_idle].
  pose proof (Hinv _ _ Hs) as Hd.
  assert (H0 : 0 <= Bot.current d).
  { destruct Hd as (? & ? & ? & ?).
    pose proof (len_nonneg (Bot.wrong_answers d)). lia. }
  destruct (decide (Bot.current d < len (Bot.questions d))) as [Hlt|Hge];
    [|by rewrite (bot_handle_answer_past_end uid now a w d) by (done || lia)].
  destruct (bot_handle_answer uid now a w d Hs) as (d' & Hstep & Hcases);
    [lia|].
  destruct (bot_answer_step_inv d a d' Hd Hstep) as (Hd' & _).
  assert (Hsome : Bot.session uid w <> None) by (by rewrite Hs).
  destruct Hcases as [(_ & p & _ & ->)|[(_ & _ & p & _ & ->)|(_ & _ & q' & _ & ->)]];
    intros uid' d1 Hd1.
  - rewrite bot_finished_session in Hd1 by done.
    destruct (decide (uid = uid')); [|by eapply Hinv].
    destruct (Bot.wrong_answers_text _); by simplify_eq.
  - rewrite bot_finished_session in Hd1 by done.
    destruct (decide (uid = uid')); [|by eapply Hinv].
    destruct (Bot.wrong_answers_text _); by simplify_eq.
  - simpl in Hd1. destruct (decide (uid = uid')) as [<-|Hne].
    + rewrite session_update_data in Hd1 by done. by simplify_eq.
    + rewrite session_update_data_ne in Hd1 by done. by eapply Hinv.
Qed.

Lemma bot_storage_claim uid today w :
  Bot.storage (fst (Bot.claim_daily_bonus uid today w)) = Bot.storage w.
Proof.
  unfold Bot.claim_daily_bonus.
  destruct (Bot.get_daily_bonus today uid (Bot.db w)) as [db1 claimed].
  by destruct (decide (claimed = 0)).
Qed.

Lemma bot_storage_hint uid w :
  Bot.storage (fst (Bot.use_hint_callback uid w)) = Bot.storage w.
Proof.
  unfold Bot.use_hint_callback.
  by destruct (0 <? Bot.get_user_hints uid (Bot.db w)).
Qed.

Lemma session_same_storage uid w w' :
  Bot.storage w' = Bot.storage w -> Bot.session uid w' = Bot.session uid w.
Proof. intros H. unfold Bot.session, Bot.get_context. by rewrite H. Qed.

Lemma bot_inv_handle e w : bot_inv w -> bot_inv (fst (Bot.handle e w)).
Proof.
  intros Hinv. destruct e as [uid now lv|uid now a|uid today|uid]; simpl.
  - by apply bot_inv_start.
  - by apply bot_inv_answer.
  - intros uid' d Hd.
    rewrite (session_same_storage _ _ _ (bot_storage_claim uid today w)) in Hd.
    by eapply Hinv.
  - intros uid' d Hd.
    rewrite (session_same_storage _ _ _ (bot_storage_hint uid w)) in Hd.
    by eapply Hinv.
Qed.

Lemma bot_inv_run es w : bot_inv w -> bot_inv (Bot.run es w).
Proof.
  revert w. induction es as [|e es IH]; intros w Hinv; [done|].
  apply IH. by apply bot_inv_handle.
Qed.

Lemma bot_inv_boot d0 : bot_inv (Bot.boot d0).
Proof.
  intros uid d. unfold Bot.session, Bot.get_context, Bot.boot. simpl.
  by rewrite lookup_empty.
Qed.

(** Every session found after a run of the bot is consistent. *)
Lemma bot_reachable_inv d0 es uid d :
  Bot.session uid (Bot.run es (Bot.boot d0)) = Some d -> bot_session_inv d.
Proof. apply bot_inv_run, bot_inv_boot. Qed.

(** ** One answer in the web application *)

Lemma app_submit_answer now a w uid quiz :
  App.user_id (App.session w) = Some uid ->
  App.current_quiz (App.session w) = Some quiz ->
  0 <= App.current quiz < len (App.questions quiz) ->
  exists q quiz1,
    getitem (App.questions quiz) (App.current quiz) = Ok q
    /\ App.questions quiz1 = App.questions quiz
    /\ App.current quiz1 = App.current quiz + 1
    /\ App.level quiz1 = App.level quiz
    /\ App.start_time quiz1 = App.start_time quiz
    /\ ((a = Some (correct_answer q) /\ App.score quiz1 = App.score quiz + 1
         /\ App.wrong_answers quiz1 = App.wrong_answers quiz)
        \/ (a <> Some (correct_answer q) /\ App.score quiz1 = App.score quiz
            /\ App.wrong_answers quiz1 = app (App.wrong_answers quiz) [q_id q]))
    /\ App.current_quiz (App.session (fst (App.submit_answer now a w)))
       = Some quiz1
    /\ ((len (App.questions quiz1) <= App.current quiz1
         /\ exists p,
             percentage (App.score quiz1) (len (App.questions quiz1)) = Ok p
             /\ App.submit_answer now a w
                = (App.set_db
                     (set_results
                        (fun rs => app rs
                           [{| r_user_id := uid + 10000;
                               r_level := level_of_percentage p;
                               r_score := App.score quiz1;
                               r_total_questions := len (App.questions quiz1);
                               r_wrong_answers := WIds (App.wrong_answers quiz1);
                               r_time_taken := now - App.start_time quiz1 |}])
                        (App.db w))
                     (App.set_current_quiz quiz1 w),
                   Ok (App.Done (bool_decide (a = Some (correct_answer q)))
                         {| o_score := App.score quiz1;
                            o_total := len (App.questions quiz1);
                            o_percentage := p;
                            o_level := level_of_percentage p;
                            o_time_taken := now - App.start_time quiz1 |})))
        \/ (App.current quiz1 < len (App.questions quiz1)
            /\ exists next_q,
                getitem (App.questions quiz1) (App.current quiz1) = Ok next_q
                /\ App.submit_answer now a w
                   = (App.set_current_quiz quiz1 w,
                      Ok (App.Next (bool_decide (a = Some (correct_answer q)))
                            next_q (App.current quiz1 + 1)
                            (len (App.questions quiz1)) (App.score quiz1))))).
Proof.
  intros Hu Hq Hcur. destruct (getitem_in_range _ _ Hcur) as (q & Hget & _).
  exists q. unfold App.submit_answer. rewrite Hu, Hq, Hget. cbn zeta.
  set (quiz1 := if bool_decide (a = Some (correct_answer q)) then _ else _).
  exists quiz1.
  assert (Hqs : App.questions quiz1 = App.questions quiz)
    by (unfold quiz1; by case_bool_decide).
  assert (Hc : App.current quiz1 = App.current quiz + 1)
    by (unfold quiz1; by case_bool_decide).
  split; [done|]. split; [done|]. split; [done|].
  split; [unfold quiz1; by case_bool_decide|].
  split; [unfold quiz1; by case_bool_decide|].
  split; [unfold quiz1; case_bool_decide; [left|right]; done|].
  assert (Htot : len (App.questions quiz1) <> 0) by (rewrite Hqs; lia).
  destruct (percentage_defined (App.score quiz1) _ Htot) as [p Hp].
  destruct (len (App.questions quiz1) <=? App.current quiz1) eqn:Hfin.
  - rewrite Hp. split; [done|]. left. split; [lia|]. by exists p.
  - destruct (getitem_in_range (App.questions quiz1) (App.current quiz1))
      as (next_q & Hnext & _); [lia|].
    rewrite Hnext. split; [done|]. right. split; [lia|]. by exists next_q.
Qed.

(** After the last answer, or on an empty quiz, the lookup of the
    current question raises and nothing is written. *)
Lemma app_submit_answer_past_end now a w uid quiz :
  App.user_id (App.session w) = Some uid ->
  App.current_quiz (App.session w) = Some quiz ->
  len (App.questions quiz) <= App.current quiz ->
  App.submit_answer now a w = (w, Raise IndexError).
Proof.
  intros Hu Hq Hcur. unfold App.submit_answer.
  by rewrite Hu, Hq, getitem_past_end.
Qed.

Lemma app_submit_answer_no_quiz now a w :
  App.current_quiz (App.session w) = None ->
  fst (App.submit_answer now a w) = w.
Proof.
  intros Hq. unfold App.submit_answer. rewrite Hq.
  by destruct (App.user_id (App.session w)).
Qed.

Lemma app_inv_submit now a w : app_inv w -> app_inv (fst (App.submit_answer now a w)).
Proof.
  intros Hinv.
  destruct (App.current_quiz (App.session w)) as [quiz|] eqn:Hq;
    [|by rewrite app_submit_answer_no_quiz].
  destruct (App.user_id (App.session w)) as [uid|] eqn:Hu;
    [|unfold App.submit_answer; by rewrite Hu].
  destruct (Hinv _ Hq) as (H0 & Hsum & Hle).
  pose proof (len_nonneg (App.wrong_answers quiz)) as Hw.
  destruct (decide (App.current quiz < len (App.questions quiz))) as [Hlt|Hge].
  - destruct (app_submit_answer now a w uid quiz Hu Hq)
      as (q & quiz1 & _ & Hqs & Hc & _ & _ & Hcase & Hstored & _); [lia|].
    intros q' Hq'. rewrite Hstored in Hq'. injection Hq' as <-.
    destruct Hcase as [(_ & Hsc & Hwr)|(_ & Hsc & Hwr)];
      unfold app_quiz_inv; rewrite Hsc, Hqs, Hc, Hwr, ?len_snoc; lia.
  - rewrite (app_submit_answer_past_end now a w uid quiz) by (done || lia).
    done.
Qed.

Lemma app_inv_start now random lv w :
  app_inv w -> app_inv (fst (App.start_quiz now random lv w)).
Proof.
  intros Hinv. unfold App.start_quiz. destruct (App.user_id (App.session w)) as [uid|] eqn:Hu.
  - set (quiz := App.Build_Quiz _ _ _ _ _ _).
    assert (Hfst : fst (match getitem (App.questions quiz) 0 with
                        | Ok q => (App.set_current_quiz quiz w,
                                   Ok (App.Started (len (App.questions quiz)) q 1))
                        | Raise e => (App.set_current_quiz quiz w, Raise e)
                        end) = App.set_current_quiz quiz w)
      by (by destruct (getitem _ _)).
    simpl in Hfst. rewrite Hfst. intros q Hq. simpl in Hq. injection Hq as <-.
    unfold app_quiz_inv, quiz. simpl. pose proof (len_nonneg (App.fetch_questions random lv (App.db w))).
    unfold len at 1. simpl. lia.
  - done.
Qed.

Lemma app_inv_handle e w : app_inv w -> app_inv (fst (App.handle e w)).
Proof.
  intros Hinv. destruct e as [now random lv|now a]; simpl.
  - by apply app_inv_start.
  - by apply app_inv_submit.
Qed.

Lemma app_inv_run es w : app_inv w -> app_inv (App.run es w).
Proof.
  revert w. induction es as [|e es IH]; intros w Hinv; [done|].
  apply IH. by apply app_inv_handle.
Qed.

Lemma app_user_handle e w :
  App.user_id (App.session (fst (App.handle e w))) = App.user_id (App.session w).
Proof.
  destruct e as [now random lv|now a]; simpl.
  - unfold App.start_quiz. destruct (App.user_id (App.session w)) eqn:Hu;
      [|done]. by destruct (getitem _ _).
  - unfold App.submit_answer. destruct (App.user_id (App.session w)) eqn:Hu;
      [|done].
    destruct (App.current_quiz (App.session w)); [|done].
    destruct (getitem _ _); [|done]. cbn zeta.
    destruct (_ <=? _).
    + by destruct (percentage _ _).
    + by destruct (getitem _ _).
Qed.

Lemma app_user_run es w :
  App.user_id (App.session (App.run es w)) = App.user_id (App.session w).
Proof.
  revert w. induction es as [|e es IH]; intros w; [done|].
  simpl. by rewrite IH, app_user_handle.
Qed.

(** Every quiz found after a run of a logged-in client is consistent. *)
Lemma app_reachable_inv d0 uid es quiz :
  App.current_quiz (App.session (App.run es (App.logged_in uid d0))) = Some quiz ->
  app_quiz_inv quiz.
Proof. apply app_inv_run. by intros q. Qed.

(** ** The outcome of a finished session *)

(** [finish_quiz] reports the level of the percentage of the score and
    total it was called with, whatever the stored data. *)
Lemma bot_finish_quiz_outcome uid now score total early w w' o l e :
  Bot.finish_quiz uid now score total early w = (w', Ok (Bot.Finished o l e)) ->
  o_score o = score /\ o_total o = total /\ e = early
  /\ percentage score total = Ok (o_percentage o)
  /\ o_level o = level_of_percentage (o_percentage o).
Proof.
  unfold Bot.finish_quiz. destruct (percentage score total) as [p|err]; [|done].
  cbn zeta. destruct (Bot.wrong_answers_text _); [|done].
  intros H. by simplify_eq.
Qed.

Lemma bot_ask_question_reply uid q w w' o l e :
  Bot.ask_question uid q w <> (w', Ok (Bot.Finished o l e)).
Proof. unfold Bot.ask_question. by destruct (Bot.data _). Qed.

(** A finished bot session: the stored data, the updated values and
    the call of [finish_quiz] that produced the reply. *)
Lemma bot_finished_inv uid now a w w' o l e :
  Bot.handle_answer uid now a w = (w', Ok (Bot.Finished o l e)) ->
  exists d d',
    Bot.session uid w = Some d
    /\ Bot.answer_step d a = Ok d'
    /\ Bot.finish_quiz uid now (Bot.score d') (len (Bot.questions d')) e
         (Bot.update_data uid d' w) = (w', Ok (Bot.Finished o l e))
    /\ (if e then Bot.lives d' <= 0
        else 0 < Bot.lives d' /\ len (Bot.questions d') <= Bot.current d').
Proof.
  unfold Bot.handle_answer, Bot.session.
  destruct (Bot.state (Bot.get_context uid w)) as [[]|]; try done.
  destruct (Bot.data (Bot.get_context uid w)) as [d|]; [|done].
  destruct (Bot.answer_step d a) as [d'|err] eqn:Hstep; [|done]. cbn zeta.
  intros H. exists d, d'. split; [done|]. split; [done|].
  destruct (Bot.lives d' <=? 0) eqn:Hl.
  { destruct (bot_finish_quiz_outcome _ _ _ _ _ _ _ _ _ _ H) as (_ & _ & -> & _).
    split; [done|lia]. }
  destruct (len (Bot.questions d') <=? Bot.current d') eqn:Hc.
  { destruct (bot_finish_quiz_outcome _ _ _ _ _ _ _ _ _ _ H) as (_ & _ & -> & _).
    split; [done|lia]. }
  destruct (getitem _ _); [|done]. by apply bot_ask_question_reply in H.
Qed.

Lemma bot_finished_outcome uid now a w w' o l e :
  Bot.handle_answer uid now a w = (w', Ok (Bot.Finished o l e)) ->
  percentage (o_score o) (o_total o) = Ok (o_percentage o)
  /\ o_level o = level_of_percentage (o_percentage o).
Proof.
  intros H. destruct (bot_finished_inv _ _ _ _ _ _ _ _ H) as (d & d' & _ & _ & Hfin & _).
  destruct (bot_finish_quiz_outcome _ _ _ _ _ _ _ _ _ _ Hfin) as (-> & -> & _ & Hp & Hl).
  done.
Qed.

Lemma app_done_outcome now a w w' c o :
  App.submit_answer now a w = (w', Ok (App.Done c o)) ->
  percentage (o_score o) (o_total o) = Ok (o_percentage o)
  /\ o_level o = level_of_percentage (o_percentage o).
Proof.
  unfold App.submit_answer.
  destruct (App.user_id (App.session w)); [|done].
  destruct (App.current_quiz (App.session w)); [|done].
  destruct (getitem _ _); [|done]. cbn zeta.
  destruct (_ <=? _).
  - destruct (percentage _ _) as [p|] eqn:Hp; [|done].
    intros H. simplify_eq. simpl. by rewrite Hp.
  - by destruct (getitem _ _).
Qed.

Lemma completed_outcome filter o row :
  completed filter o row ->
  percentage (o_score o) (o_total o) = Ok (o_percentage o)
  /\ o_level o = level_of_percentage (o_percentage o).
Proof.
  destruct 1 as [uid now a w w' d o l e row _ H _|now a w w' q c o row _ H _].
  - by eapply bot_finished_outcome.
  - by eapply app_done_outcome.
Qed.

(** ** The row recorded for a finished session *)

Lemma wrong_count_save (wrong : list Question) :
  wrong_count (match wrong with [] => WNull | _ => WRows wrong end) = len wrong.
Proof. by destruct wrong. Qed.

Lemma bot_finished_row uid now a w w' o l e :
  Bot.handle_answer uid now a w = (w', Ok (Bot.Finished o l e)) ->
  exists d d' row,
    Bot.session uid w = Some d
    /\ Bot.answer_step d a = Ok d'
    /\ (if e then Bot.lives d' <= 0
        else 0 < Bot.lives d' /\ len (Bot.questions d') <= Bot.current d')
    /\ o_score o = Bot.score d'
    /\ o_total o = len (Bot.questions d')
    /\ l = Bot.lives d'
    /\ Bot.session uid w' = None
    /\ t_results (Bot.db w') = app (t_results (Bot.db w)) [row]
    /\ r_user_id row = uid
    /\ r_level row = o_level o
    /\ r_score row = o_score o
    /\ r_total_questions row = o_total o
    /\ wrong_count (r_wrong_answers row) = len (Bot.wrong_answers d').
Proof.
  intros H.
  destruct (bot_finished_inv _ _ _ _ _ _ _ _ H) as (d & d' & Hs & Hstep & Hfin & He).
  exists d, d'. revert Hfin. unfold Bot.finish_quiz.
  rewrite bot_update_data_data. destruct (percentage _ _) as [p|]; [|done].
  cbn zeta. destruct (Bot.wrong_answers_text _); [|done].
  intros Hfin. simplify_eq. eexists.
  split; [done|]. split; [done|]. split; [done|].
  split; [done|]. split; [done|]. split; [done|].
  split; [apply session_clear|].
  split; [reflexivity|]. simpl.
  split; [done|]. split; [done|]. split; [done|]. split; [done|].
  apply wrong_count_save.
Qed.

Lemma app_done_row now a w w' c o :
  App.submit_answer now a w = (w', Ok (App.Done c o)) ->
  exists uid quiz quiz1 row,
    App.user_id (App.session w) = Some uid
    /\ App.current_quiz (App.session w) = Some quiz
    /\ App.current_quiz (App.session w') = Some quiz1
    /\ App.questions quiz1 = App.questions quiz
    /\ App.current quiz1 = App.current quiz + 1
    /\ len (App.questions quiz1) <= App.current quiz1
    /\ o_score o = App.score quiz1
    /\ o_total o = len (App.questions quiz1)
    /\ t_results (App.db w') = app (t_results (App.db w)) [row]
    /\ r_user_id row = uid + 10000
    /\ r_level row = o_level o
    /\ r_score row = o_score o
    /\ r_total_questions row = o_total o
    /\ r_wrong_answers row = WIds (App.wrong_answers quiz1).
Proof.
  unfold App.submit_answer.
  destruct (App.user_id (App.session w)) as [uid|]; [|done].
  destruct (App.current_quiz (App.session w)) as [quiz|]; [|done].
  destruct (getitem _ _) as [q|]; [|done]. cbn zeta.
  set (quiz1 := if bool_decide (a = Some (correct_answer q)) then _ else _).
  assert (Hqs : App.questions quiz1 = App.questions quiz)
    by (unfold quiz1; by case_bool_decide).
  assert (Hc : App.current quiz1 = App.current quiz + 1)
    by (unfold quiz1; by case_bool_decide).
  destruct (_ <=? _) eqn:Hfin.
  - destruct (percentage _ _) as [p|] eqn:Hp; [|done].
    intros H. simplify_eq.
    exists uid, quiz, quiz1. eexists.
    split; [done|]. split; [done|]. split; [done|]. split; [done|].
    split; [done|]. split; [lia|]. split; [done|]. split; [done|].
    split; [reflexivity|]. done.
  - by destruct (getitem _ _).
Qed.

(** A finished session leaves exactly one row; so [completed] asks
    for nothing that a finished session does not give. *)
Lemma finished_bot_completed uid now a w w' o l e :
  Bot.handle_answer uid now a w = (w', Ok (Bot.Finished o l e)) ->
  exists filter row, completed filter o row.
Proof.
  intros H. destruct (bot_finished_row _ _ _ _ _ _ _ _ H)
    as (d & d' & row & Hs & _ & _ & _ & _ & _ & _ & Hrow & _).
  exists (Some (Bot.level d)), row. by eapply completed_bot.
Qed.

Lemma finished_app_completed now a w w' c o :
  App.submit_answer now a w = (w', Ok (App.Done c o)) ->
  exists filter row, completed filter o row.
Proof.
  intros H. destruct (app_done_row _ _ _ _ _ _ H)
    as (uid & quiz & quiz1 & row & _ & Hq & _ & _ & _ & _ & _ & _ & Hrow & _).
  exists (App.level quiz), row. by eapply completed_app.
Qed.

Lemma completed_row filter o row :
  completed filter o row ->
  r_level row = o_level o /\ r_score row = o_score o
  /\ r_total_questions row = o_total o.
Proof.
  destruct 1 as [uid now a w w' d o l e row _ H Hr|now a w w' q c o row _ H Hr].
  - destruct (bot_finished_row _ _ _ _ _ _ _ _ H)
      as (_ & _ & row' & _ & _ & _ & _ & _ & _ & _ & Hr' & _ & ? & ? & ? & _).
    rewrite Hr in Hr'. apply app_inj_tail in Hr' as [_ <-]. done.
  - destruct (app_done_row _ _ _ _ _ _ H)
      as (_ & _ & _ & row' & _ & _ & _ & _ & _ & _ & _ & _ & Hr' & _ & ? & ? & ? & _).
    rewrite Hr in Hr'. apply app_inj_tail in Hr' as [_ <-]. done.
Qed.

(** * The level rule *)

(** The binary64 rule and the rule on exact integers give the same
    level for every score on every quiz of up to 200 questions. *)
Lemma level_rule_exact_small : agrees_upto 200 = true.
Proof. vm_compute. reflexivity. Qed.

(** C1: the level determined for a completed session is a function of
    the accuracy percentage (score / total) * 100 alone, by the
    thresholds tried highest first with inclusive lower bounds: at
    least 90 gives C1, at least 80 gives B2, at least 70 gives B1, at
    least 60 gives A2, anything else A1.  In particular 9, 8, 7, 6 and
    5 out of 10 give C1, B2, B1, A2 and A1; 6 out of 10 is exactly 60
    and goes to the higher band. *)
Theorem determined_level_rule :
  (forall filter o row, completed filter o row ->
     percentage (o_score o) (o_total o) = Ok (o_percentage o)
     /\ determine_level (o_score o) (o_total o) = Ok (o_level o)
     /\ r_level row = o_level o)
  /\ (forall score total p, percentage score total = Ok p ->
        determine_level score total = Ok (level_of_percentage p))
  /\ (forall p,
        (ge p 90 = true -> level_of_percentage p = "C1")
        /\ (ge p 90 = false -> ge p 80 = true -> level_of_percentage p = "B2")
        /\ (ge p 90 = false -> ge p 80 = false -> ge p 70 = true ->
            level_of_percentage p = "B1")
        /\ (ge p 90 = false -> ge p 80 = false -> ge p 70 = false ->
            ge p 60 = true -> level_of_percentage p = "A2")
        /\ (ge p 90 = false -> ge p 80 = false -> ge p 70 = false ->
            ge p 60 = false -> level_of_percentage p = "A1"))
  /\ determine_level 9 10 = Ok "C1"
  /\ determine_level 8 10 = Ok "B2"
  /\ determine_level 7 10 = Ok "B1"
  /\ determine_level 6 10 = Ok "A2"
  /\ determine_level 5 10 = Ok "A1"
  /\ percentage 6 10 = Ok 60%float.
Proof.
  split; [|split; [|split]].
  - intros filter o row Hc.
    destruct (completed_outcome _ _ _ Hc) as [Hp Hl].
    destruct (completed_row _ _ _ Hc) as (Hr & _).
    split; [done|]. split; [|done].
    rewrite Hl. by apply determine_level_of_percentage.
  - apply determine_level_of_percentage.
  - intros p. unfold level_of_percentage.
    repeat split; intros; repeat match goal with H : ge _ _ = _ |- _ => rewrite H; clear H end; reflexivity.
  - repeat split; vm_compute; reflexivity.
Qed.

Lemma bot_b1_completed :
  completed (Some "B1")
    {| o_score := 2; o_total := 2; o_percentage := 100%float; o_level := "C1";
       o_time_taken := 5 |}
    {| r_user_id := 7; r_level := "C1"; r_score := 2; r_total_questions := 2;
       r_wrong_answers := WNull; r_time_taken := 5 |}.
Proof.
  apply (completed_bot 7 105 0 bot_b1_last
           (fst (Bot.handle_answer 7 105 0 bot_b1_last)) bot_b1_data _ 3 false).
  - vm_compute. reflexivity.
  - vm_compute. reflexivity.
  - vm_compute. reflexivity.
Defined.

Lemma determined_level_rule_witness :
  determine_level 2 2 = Ok "C1"
  /\ determine_level 9 10 = Ok (level_of_percentage 90%float)
  /\ level_of_percentage 95%float = "C1"
  /\ level_of_percentage 59.5%float = "A1".
Proof.
  split; [|split; [|split]].
  - exact (proj1 (proj2 (proj1 determined_level_rule _ _ _ bot_b1_completed))).
  - apply (proj1 (proj2 determined_level_rule) 9 10 90%float).
    vm_compute. reflexivity.
  - apply (proj1 (proj1 (proj2 (proj2 determined_level_rule)) 95%float)).
    vm_compute. reflexivity.
  - apply (proj2 (proj2 (proj2 (proj2
             (proj1 (proj2 (proj2 determined_level_rule)) 59.5%float)))));
      vm_compute; reflexivity.
Defined.

(** * The level filter has no influence *)

Lemma app_a2_completed :
  completed (Some "A2")
    {| o_score := 2; o_total := 2; o_percentage := 100%float; o_level := "C1";
       o_time_taken := 10 |}
    {| r_user_id := 10001; r_level := "C1"; r_score := 2; r_total_questions := 2;
       r_wrong_answers := WIds []; r_time_taken := 10 |}.
Proof.
  apply (completed_app 60 (Some 0) app_a2_last
           (fst (App.submit_answer 60 (Some 0) app_a2_last)) app_a2_quiz true).
  - vm_compute. reflexivity.
  - vm_compute. reflexivity.
  - vm_compute. reflexivity.
Defined.

Lemma bot_b1x20_completed :
  completed (Some "B1")
    {| o_score := 19; o_total := 20; o_percentage := 95%float; o_level := "C1";
       o_time_taken := 3 |}
    {| r_user_id := 7; r_level := "C1"; r_score := 19; r_total_questions := 20;
       r_wrong_answers := WRows (take 1 (Bot.get_questions (Some "B1") b1_db));
       r_time_taken := 3 |}.
Proof.
  apply (completed_bot 7 103 0 bot_b1x20_last
           (fst (Bot.handle_answer 7 103 0 bot_b1x20_last)) bot_b1x20_data _ 2 false).
  - vm_compute. reflexivity.
  - vm_compute. reflexivity.
  - vm_compute. reflexivity.
Defined.

(** C7: two completed sessions with the same score and the same total
    have the same determined level, reported and recorded, whatever
    level filters they were started with; a B1-only quiz with 19 of 20
    right (95%) is recorded as C1. *)
Theorem level_independent_of_filter :
  (forall filter1 filter2 o1 o2 row1 row2,
     completed filter1 o1 row1 -> completed filter2 o2 row2 ->
     o_score o1 = o_score o2 -> o_total o1 = o_total o2 ->
     o_level o1 = o_level o2 /\ r_level row1 = r_level row2)
  /\ (forall o row,
        completed (Some "B1") o row -> o_score o = 19 -> o_total o = 20 ->
        o_level o = "C1" /\ r_level row = "C1").
Proof.
  assert (Hlevel : forall filter o row, completed filter o row ->
            determine_level (o_score o) (o_total o) = Ok (o_level o)
            /\ r_level row = o_level o).
  { intros filter o row Hc.
    destruct (completed_outcome _ _ _ Hc) as [Hp Hl].
    destruct (completed_row _ _ _ Hc) as (Hr & _).
    split; [|done]. rewrite Hl. by apply determine_level_of_percentage. }
  split.
  - intros filter1 filter2 o1 o2 row1 row2 Hc1 Hc2 Hs Ht.
    destruct (Hlevel _ _ _ Hc1) as [Hl1 Hr1].
    destruct (Hlevel _ _ _ Hc2) as [Hl2 Hr2].
    rewrite Hs, Ht, Hl2 in Hl1. injection Hl1 as Hl1.
    split; congruence.
  - intros o row Hc Hs Ht. destruct (Hlevel _ _ _ Hc) as [Hl Hr].
    rewrite Hs, Ht in Hl.
    replace (determine_level 19 20) with (Ok (A := string) "C1") in Hl
      by (vm_compute; reflexivity).
    injection Hl as Hl. split; congruence.
Qed.

Lemma level_independent_of_filter_witness :
  (o_level {| o_score := 2; o_total := 2; o_percentage := 100%float;
              o_level := "C1"; o_time_taken := 5 |}
   = o_level {| o_score := 2; o_total := 2; o_percentage := 100%float;
                o_level := "C1"; o_time_taken := 10 |}
   /\ r_level {| r_user_id := 7; r_level := "C1"; r_score := 2;
                 r_total_questions := 2; r_wrong_answers := WNull;
                 r_time_taken := 5 |}
      = r_level {| r_user_id := 10001; r_level := "C1"; r_score := 2;
                   r_total_questions := 2; r_wrong_answers := WIds [];
                   r_time_taken := 10 |})
  /\ (o_level {| o_score := 19; o_total := 20; o_percentage := 95%float;
                 o_level := "C1"; o_time_taken := 3 |} = "C1"
      /\ r_level {| r_user_id := 7; r_level := "C1"; r_score := 19;
                    r_total_questions := 20;
                    r_wrong_answers :=
                      WRows (take 1 (Bot.get_questions (Some "B1") b1_db));
                    r_time_taken := 3 |} = "C1").
Proof.
  split.
  - exact (proj1 level_independent_of_filter _ _ _ _ _ _
             bot_b1_completed app_a2_completed eq_refl eq_refl).
  - exact (proj2 level_independent_of_filter _ _
             bot_b1x20_completed eq_refl eq_refl).
Defined.

(** * Session invariants *)

(** What one answer does to a session found after a run of the bot. *)
Lemma bot_reachable_answer d0 es uid d now a :
  Bot.session uid (Bot.run es (Bot.boot d0)) = Some d ->
  (Bot.current d < len (Bot.questions d)
   /\ exists d',
       Bot.answer_step d a = Ok d'
       /\ Bot.current d' = Bot.current d + 1
       /\ Bot.questions d' = Bot.questions d
       /\ bot_session_inv d'
       /\ (Bot.session uid
             (fst (Bot.handle_answer uid now a (Bot.run es (Bot.boot d0))))
           = Some d'
           \/ (Bot.session uid
                 (fst (Bot.handle_answer uid now a (Bot.run es (Bot.boot d0))))
               = None
               /\ exists o l e,
                   snd (Bot.handle_answer uid now a (Bot.run es (Bot.boot d0)))
                   = Ok (Bot.Finished o l e)
                   /\ o_score o = Bot.score d')))
  \/ (Bot.current d = len (Bot.questions d)
      /\ Bot.handle_answer uid now a (Bot.run es (Bot.boot d0))
         = (Bot.run es (Bot.boot d0), Raise IndexError)).
Proof.
  intros Hs. pose proof (bot_reachable_inv _ _ _ _ Hs) as Hd.
  assert (Hcur : 0 <= Bot.current d <= len (Bot.questions d)).
  { destruct Hd as (? & ? & ? & ?).
    pose proof (len_nonneg (Bot.wrong_answers d)). lia. }
  destruct (decide (Bot.current d < len (Bot.questions d))) as [Hlt|Hge];
    [left|right; split; [lia|apply (bot_handle_answer_past_end _ _ _ _ d); [done|lia]]].
  split; [done|].
  destruct (bot_handle_answer uid now a _ d Hs) as (d' & Hstep & Hcases); [lia|].
  destruct (bot_answer_step_inv d a d' Hd Hstep) as (Hd' & _ & Hc & Hqs & _).
  exists d'. repeat (split; [done|]).
  assert (Hsome : Bot.session uid (Bot.run es (Bot.boot d0)) <> None)
    by (by rewrite Hs).
  assert (Hfin : forall p e,
    Bot.session uid (fst (bot_finished uid now d' p e (Bot.run es (Bot.boot d0))))
    = Some d'
    \/ Bot.session uid (fst (bot_finished uid now d' p e (Bot.run es (Bot.boot d0))))
       = None
       /\ exists o l e',
           snd (bot_finished uid now d' p e (Bot.run es (Bot.boot d0)))
           = Ok (Bot.Finished o l e') /\ o_score o = Bot.score d').
  { intros p e. rewrite bot_finished_session by done.
    rewrite decide_True by done. unfold bot_finished. cbn zeta.
    destruct (Bot.wrong_answers_text _); [right|by left].
    split; [done|]. by eexists _, _, _. }
  destruct Hcases as [(_ & p & _ & ->)|[(_ & _ & p & _ & ->)|(_ & _ & q' & _ & ->)]].
  - apply Hfin.
  - apply Hfin.
  - left. simpl. by apply session_update_data.
Qed.

(** What one answer does to a quiz found after a run of a web client. *)
Lemma app_reachable_answer d0 uid es quiz now a :
  App.current_quiz (App.session (App.run es (App.logged_in uid d0))) = Some quiz ->
  (App.current quiz < len (App.questions quiz)
   /\ exists quiz',
       App.current_quiz
         (App.session (fst (App.submit_answer now a
                              (App.run es (App.logged_in uid d0))))) = Some quiz'
       /\ App.current quiz' = App.current quiz + 1
       /\ App.questions quiz' = App.questions quiz
       /\ 0 <= App.score quiz'
       /\ App.score quiz' + len (App.wrong_answers quiz') = App.current quiz'
       /\ App.current quiz' <= len (App.questions quiz'))
  \/ (App.current quiz = len (App.questions quiz)
      /\ App.submit_answer now a (App.run es (App.logged_in uid d0))
         = (App.run es (App.logged_in uid d0), Raise IndexError)).
Proof.
  intros Hq. destruct (app_reachable_inv _ _ _ _ Hq) as (H0 & Hsum & Hle).
  pose proof (len_nonneg (App.wrong_answers quiz)) as Hw.
  assert (Hu : App.user_id (App.session (App.run es (App.logged_in uid d0)))
               = Some uid) by (by rewrite app_user_run).
  destruct (decide (App.current quiz < len (App.questions quiz))) as [Hlt|Hge].
  - left. split; [done|].
    destruct (app_submit_answer now a _ uid quiz Hu Hq)
      as (q & quiz1 & _ & Hqs & Hc & _ & _ & Hcase & Hstored & _); [lia|].
    exists quiz1. split; [done|]. split; [done|]. split; [done|].
    destruct Hcase as [(_ & Hsc & Hwr)|(_ & Hsc & Hwr)];
      rewrite Hsc, Hqs, Hc, Hwr, ?len_snoc; lia.
  - right. split; [lia|]. eapply app_submit_answer_past_end; eauto. lia.
Qed.

(** C4: in both front-ends, a session found after any sequence of
    calls has score <= cursor <= number of questions.  While the
    cursor is before the end, every answer is processed, right or
    wrong: it moves the cursor by exactly 1 and keeps the bounds, and
    the session is stored with the values written, unless, in the
    bot, the answer ended the quiz and the session was cleared.  An
    answer is not processed only when the cursor is at the end: in the
    web front-end the quiz stays stored after its last answer, in the
    bot the session stays when the closing message could not be built;
    the lookup of the question then raises [IndexError] and nothing is
    written. *)
Theorem cursor_invariant :
  (forall d0 es uid d now a,
     Bot.session uid (Bot.run es (Bot.boot d0)) = Some d ->
     Bot.score d <= Bot.current d <= len (Bot.questions d)
     /\ (Bot.current d < len (Bot.questions d) ->
         exists d',
           Bot.answer_step d a = Ok d'
           /\ Bot.current d' = Bot.current d + 1
           /\ Bot.questions d' = Bot.questions d
           /\ Bot.score d' <= Bot.current d' <= len (Bot.questions d')
           /\ (Bot.session uid
                 (fst (Bot.handle_answer uid now a (Bot.run es (Bot.boot d0))))
               = Some d'
               \/ (Bot.session uid
                     (fst (Bot.handle_answer uid now a
                             (Bot.run es (Bot.boot d0))))
                   = None
                   /\ exists o l e,
                       snd (Bot.handle_answer uid now a
                              (Bot.run es (Bot.boot d0)))
                       = Ok (Bot.Finished o l e)
                       /\ o_score o = Bot.score d')))
     /\ (Bot.current d = len (Bot.questions d) ->
         Bot.handle_answer uid now a (Bot.run es (Bot.boot d0))
         = (Bot.run es (Bot.boot d0), Raise IndexError)))
  /\ (forall d0 uid es quiz now a,
        App.current_quiz (App.session (App.run es (App.logged_in uid d0)))
        = Some quiz ->
        App.score quiz <= App.current quiz <= len (App.questions quiz)
        /\ (App.current quiz < len (App.questions quiz) ->
            exists quiz',
              App.current_quiz
                (App.session (fst (App.submit_answer now a
                                     (App.run es (App.logged_in uid d0)))))
              = Some quiz'
              /\ App.current quiz' = App.current quiz + 1
              /\ App.questions quiz' = App.questions quiz
              /\ App.score quiz' <= App.current quiz'
                 <= len (App.questions quiz'))
        /\ (App.current quiz = len (App.questions quiz) ->
            App.submit_answer now a (App.run es (App.logged_in uid d0))
            = (App.run es (App.logged_in uid d0), Raise IndexError))).
Proof.
  split.
  - intros d0 es uid d now a Hs.
    destruct (bot_reachable_inv _ _ _ _ Hs) as (H0 & Hsum & Hle & _).
    pose proof (len_nonneg (Bot.wrong_answers d)) as Hw.
    split; [lia|].
    destruct (bot_reachable_answer d0 es uid d now a Hs)
      as [(Hlt & d' & Hstep & Hc & Hqs & (H0' & Hsum' & Hle' & _) & Hafter)
         |[Heq Hraise]].
    + split; [|lia]. intros _.
      pose proof (len_nonneg (Bot.wrong_answers d')) as Hw'.
      exists d'. split; [done|]. split; [done|]. split; [done|].
      split; [lia|done].
    + split; [lia|done].
  - intros d0 uid es quiz now a Hq.
    destruct (app_reachable_inv _ _ _ _ Hq) as (H0 & Hsum & Hle).
    pose proof (len_nonneg (App.wrong_answers quiz)) as Hw.
    split; [lia|].
    destruct (app_reachable_answer d0 uid es quiz now a Hq)
      as [(Hlt & quiz' & Hst & Hc & Hqs & H0' & Hsum' & Hle')|[Heq Hraise]].
    + split; [|lia]. intros _.
      pose proof (len_nonneg (App.wrong_answers quiz')) as Hw'.
      exists quiz'. split; [done|]. split; [done|]. split; [done|]. lia.
    + split; [lia|done].
Qed.

Lemma cursor_invariant_witness :
  (Bot.score bot_b1_data <= Bot.current bot_b1_data
     <= len (Bot.questions bot_b1_data))
  /\ (exists d',
        Bot.answer_step bot_b1_data 1 = Ok d'
        /\ Bot.current d' = Bot.current bot_b1_data + 1)
  /\ (App.score app_a2_quiz <= App.current app_a2_quiz
        <= len (App.questions app_a2_quiz))
  /\ (exists quiz',
        App.current_quiz
          (App.session
             (fst (App.submit_answer 60 (Some 2)
                     (App.run [App.StartQuiz 50 (fun _ => 0) (Some "A2");
                               App.SubmitAnswer 51 (Some 0)]
                        (App.logged_in 1 sample_db))))) = Some quiz'
        /\ App.current quiz' = App.current app_a2_quiz + 1).
Proof.
  assert (Hbot : Bot.session 7
                   (Bot.run [Bot.StartQuiz 7 100 "B1"; Bot.Answer 7 101 1]
                      (Bot.boot sample_db)) = Some bot_b1_data)
    by (vm_compute; reflexivity).
  assert (Happ : App.current_quiz
                   (App.session
                      (App.run [App.StartQuiz 50 (fun _ => 0) (Some "A2");
                                App.SubmitAnswer 51 (Some 0)]
                         (App.logged_in 1 sample_db))) = Some app_a2_quiz)
    by (vm_compute; reflexivity).
  destruct (proj1 cursor_invariant sample_db
              [Bot.StartQuiz 7 100 "B1"; Bot.Answer 7 101 1] 7
              bot_b1_data 105 1 Hbot) as (Hb & Hstep & _).
  destruct (proj2 cursor_invariant sample_db 1
              [App.StartQuiz 50 (fun _ => 0) (Some "A2");
               App.SubmitAnswer 51 (Some 0)]
              app_a2_quiz 60 (Some 2) Happ) as (Ha & Hstep' & _).
  split; [exact Hb|]. split.
  - destruct Hstep as (d' & Hd' & Hc & _); [vm_compute; reflexivity|].
    exists d'. by split.
  - split; [exact Ha|].
    destruct Hstep' as (quiz' & Hq' & Hc & _); [vm_compute; reflexivity|].
    exists quiz'. by split.
Defined.

(** The claim of C9 as stated fails in the bot: after three wrong
    answers on a pool of seven questions the recorded row lists three
    wrong answers, while total - score is 7. *)
Lemma early_end_wrong_list_not_total_minus_score :
  exists row,
    last (t_results (Bot.db (Bot.run three_wrong (Bot.boot sample_db)))) = Some row
    /\ wrong_count (r_wrong_answers row) = 3
    /\ r_total_questions row - r_score row = 7
    /\ wrong_count (r_wrong_answers row) <> r_total_questions row - r_score row.
Proof. eexists. split; [vm_compute; reflexivity|]. by vm_compute. Qed.

(** C9, amended: in both front-ends, after any sequence of calls and
    after each further answer that is processed, score + number of
    wrong answers = cursor.  The wrong-answer list of the recorded row
    therefore has cursor - score entries: total - score in the web
    front-end and on a normal completion in the bot; on an early end
    in the bot the recorded total is the pool size, which the cursor
    need not have reached. *)
Theorem answers_counted_once :
  (forall d0 es uid d now a,
     Bot.session uid (Bot.run es (Bot.boot d0)) = Some d ->
     Bot.score d + len (Bot.wrong_answers d) = Bot.current d
     /\ ((exists d',
            Bot.answer_step d a = Ok d'
            /\ Bot.score d' + len (Bot.wrong_answers d') = Bot.current d'
            /\ (Bot.session uid
                  (fst (Bot.handle_answer uid now a (Bot.run es (Bot.boot d0))))
                = Some d'
                \/ exists o l e,
                    snd (Bot.handle_answer uid now a (Bot.run es (Bot.boot d0)))
                    = Ok (Bot.Finished o l e)
                    /\ o_score o = Bot.score d'))
         \/ Bot.handle_answer uid now a (Bot.run es (Bot.boot d0))
            = (Bot.run es (Bot.boot d0), Raise IndexError)))
  /\ (forall d0 uid es quiz now a,
        App.current_quiz (App.session (App.run es (App.logged_in uid d0)))
        = Some quiz ->
        App.score quiz + len (App.wrong_answers quiz) = App.current quiz
        /\ ((exists quiz',
               App.current_quiz
                 (App.session (fst (App.submit_answer now a
                                      (App.run es (App.logged_in uid d0)))))
               = Some quiz'
               /\ App.score quiz' + len (App.wrong_answers quiz')
                  = App.current quiz')
            \/ App.submit_answer now a (App.run es (App.logged_in uid d0))
               = (App.run es (App.logged_in uid d0), Raise IndexError)))
  /\ (forall d0 uid es now a w' c o,
        App.submit_answer now a (App.run es (App.logged_in uid d0))
        = (w', Ok (App.Done c o)) ->
        exists row,
          t_results (App.db w')
          = app (t_results (App.db (App.run es (App.logged_in uid d0)))) [row]
          /\ wrong_count (r_wrong_answers row)
             = r_total_questions row - r_score row)
  /\ (forall d0 es uid now a w' o l e,
        Bot.handle_answer uid now a (Bot.run es (Bot.boot d0))
        = (w', Ok (Bot.Finished o l e)) ->
        exists d row,
          Bot.session uid (Bot.run es (Bot.boot d0)) = Some d
          /\ t_results (Bot.db w')
             = app (t_results (Bot.db (Bot.run es (Bot.boot d0)))) [row]
          /\ wrong_count (r_wrong_answers row)
             = (Bot.current d + 1) - r_score row
          /\ Bot.current d + 1 <= r_total_questions row
          /\ (if e then r_total_questions row = len (Bot.questions d)
              else wrong_count (r_wrong_answers row)
                   = r_total_questions row - r_score row)).
Proof.
  split; [|split; [|split]].
  - intros d0 es uid d now a Hs.
    destruct (bot_reachable_inv _ _ _ _ Hs) as (_ & Hsum & _).
    split; [done|].
    destruct (bot_reachable_answer d0 es uid d now a Hs)
      as [(_ & d' & Hstep & _ & _ & (_ & Hsum' & _) & Hafter)|[_ Hraise]];
      [left|by right].
    exists d'. split; [done|]. split; [done|].
    destruct Hafter as [?|[_ ?]]; [by left|by right].
  - intros d0 uid es quiz now a Hq.
    destruct (app_reachable_inv _ _ _ _ Hq) as (_ & Hsum & _).
    split; [done|].
    destruct (app_reachable_answer d0 uid es quiz now a Hq)
      as [(_ & quiz' & Hst & _ & _ & _ & Hsum' & _)|[_ Hraise]];
      [left|by right].
    by exists quiz'.
  - intros d0 uid es now a w' c o H.
    destruct (app_done_row _ _ _ _ _ _ H)
      as (uid' & quiz & quiz1 & row & _ & Hq & Hq1 & _ & _ & Hfin & Hsc & Htot
          & Hrow & _ & _ & Hrs & Hrt & Hrw).
    exists row. split; [done|].
    assert (Hinv : app_quiz_inv quiz1).
    { assert (Hw' : w' = fst (App.submit_answer now a
                                (App.run es (App.logged_in uid d0))))
        by (by rewrite H).
      rewrite Hw' in Hq1. revert Hq1.
      apply app_inv_submit, app_inv_run. by intros q. }
    destruct Hinv as (_ & Hsum & Hle).
    rewrite Hrw, Hrs, Hrt, Hsc, Htot. simpl. lia.
  - intros d0 es uid now a w' o l e H.
    destruct (bot_finished_row _ _ _ _ _ _ _ _ H)
      as (d & d' & row & Hs & Hstep & He & Hsc & Htot & _ & _ & Hrow & _ & _
          & Hrs & Hrt & Hrw).
    exists d, row. split; [done|]. split; [done|].
    pose proof (bot_reachable_inv _ _ _ _ Hs) as Hd.
    destruct (bot_answer_step_inv d a d' Hd Hstep)
      as ((H0 & Hsum & Hle & Hl) & Hlt & Hc & Hqs & _).
    rewrite Hrw, Hrs, Hrt, Hsc, Htot.
    split; [lia|]. split; [lia|].
    destruct e; [by rewrite Hqs|lia].
Qed.

Lemma answers_counted_once_witness :
  Bot.score bot_b1_data + len (Bot.wrong_answers bot_b1_data)
  = Bot.current bot_b1_data
  /\ App.score app_a2_quiz + len (App.wrong_answers app_a2_quiz)
     = App.current app_a2_quiz
  /\ (exists row,
        last (t_results (App.db (fst (App.submit_answer 60 (Some 0) app_a2_last))))
        = Some row
        /\ wrong_count (r_wrong_answers row)
           = r_total_questions row - r_score row)
  /\ (exists row,
        last (t_results (Bot.db (Bot.run three_wrong (Bot.boot sample_db))))
        = Some row
        /\ wrong_count (r_wrong_answers row) = (2 + 1) - r_score row
        /\ r_total_questions row = 7).
Proof.
  split; [|split; [|split]].
  - refine (proj1 (proj1 answers_counted_once sample_db
                     [Bot.StartQuiz 7 100 "B1"; Bot.Answer 7 101 1] 7
                     bot_b1_data 105 0 _)).
    vm_compute. reflexivity.
  - refine (proj1 (proj1 (proj2 answers_counted_once) sample_db 1
                     [App.StartQuiz 50 (fun _ => 0) (Some "A2");
                      App.SubmitAnswer 51 (Some 0)]
                     app_a2_quiz 60 (Some 0) _)).
    vm_compute. reflexivity.
  - destruct (proj1 (proj2 (proj2 answers_counted_once)) sample_db 1
                [App.StartQuiz 50 (fun _ => 0) (Some "A2");
                 App.SubmitAnswer 51 (Some 0)] 60 (Some 0)
                (fst (App.submit_answer 60 (Some 0) app_a2_last)) true
                {| o_score := 2; o_total := 2; o_percentage := 100%float;
                   o_level := "C1"; o_time_taken := 10 |})
      as (row & Hrow & Hcount).
    + vm_compute. reflexivity.
    + exists row. split; [|exact Hcount].
      rewrite Hrow. apply last_snoc.
  - destruct (proj2 (proj2 (proj2 answers_counted_once)) sample_db
                (take 3 three_wrong) 7 103 3
                (fst (Bot.handle_answer 7 103 3
                        (Bot.run (take 3 three_wrong) (Bot.boot sample_db))))
                {| o_score := 0; o_total := 7; o_percentage := 0%float;
                   o_level := "A1"; o_time_taken := 3 |} 0 true)
      as (d & row & Hs & Hrow & Hcount & _ & Htot).
    + vm_compute. reflexivity.
    + exists row. split.
      { change (Bot.run three_wrong (Bot.boot sample_db))
          with (fst (Bot.handle_answer 7 103 3
                       (Bot.run (take 3 three_wrong) (Bot.boot sample_db)))).
        rewrite Hrow. apply last_snoc. }
      assert (Hd : Bot.current d = 2).
      { vm_compute in Hs. injection Hs as <-. reflexivity. }
      rewrite Hd in Hcount. split; [exact Hcount|].
      rewrite Htot. vm_compute in Hs. injection Hs as <-. reflexivity.
Defined.

(** * Early end *)

(** The claim of C2 as stated fails: after three wrong answers on a
    pool of seven questions the bot ends the session early and reports
    a total of 7, not the 3 questions presented. *)
Lemma early_end_total_not_presented :
  exists o,
    last (Bot.replies three_wrong (Bot.boot sample_db))
    = Some (Ok (Bot.Finished o 0 true))
    /\ o_score o = 0
    /\ o_total o = 7
    /\ o_total o <> 3.
Proof. eexists. split; [vm_compute; reflexivity|]. by vm_compute. Qed.

Lemma bot_answer_step_wrong d a q :
  0 <= Bot.current d ->
  Bot.questions d !! Z.to_nat (Bot.current d) = Some q ->
  a <> correct_answer q ->
  Bot.answer_step d a
  = Ok {| Bot.questions := Bot.questions d; Bot.current := Bot.current d + 1;
          Bot.score := Bot.score d; Bot.level := Bot.level d;
          Bot.lives := Bot.lives d - 1;
          Bot.wrong_answers := app (Bot.wrong_answers d) [q];
          Bot.start_time := Bot.start_time d; Bot.user_id := Bot.user_id d |}.
Proof.
  intros H0 Hq Hne. pose proof (lookup_lt_Some _ _ _ Hq) as Hlt.
  destruct (getitem_in_range (Bot.questions d) (Bot.current d))
    as (q' & Hget & Hq'); [unfold len; lia|].
  rewrite Hq in Hq'. injection Hq' as <-.
  unfold Bot.answer_step. rewrite Hget. simpl.
  by destruct (decide (a = correct_answer q)).
Qed.

(** A wrong answer with more than one life and a further question
    left: the next question is asked. *)
Lemma bot_wrong_answer_goes_on uid now a w d q q' :
  Bot.session uid w = Some d ->
  0 <= Bot.current d ->
  Bot.questions d !! Z.to_nat (Bot.current d) = Some q ->
  Bot.questions d !! Z.to_nat (Bot.current d + 1) = Some q' ->
  a <> correct_answer q ->
  1 < Bot.lives d ->
  exists d' h,
    Bot.handle_answer uid now a w
    = (Bot.update_data uid d' w,
       Ok (Bot.AskQuestion q' (Bot.current d + 2) (len (Bot.questions d))
             (Bot.lives d - 1) h))
    /\ Bot.session uid (Bot.update_data uid d' w) = Some d'
    /\ Bot.questions d' = Bot.questions d
    /\ Bot.current d' = Bot.current d + 1
    /\ Bot.score d' = Bot.score d
    /\ Bot.lives d' = Bot.lives d - 1
    /\ Bot.start_time d' = Bot.start_time d
    /\ Bot.wrong_answers d' = app (Bot.wrong_answers d) [q].
Proof.
  intros Hs H0 Hq Hq' Hne Hl.
  pose proof (lookup_lt_Some _ _ _ Hq) as Hlt.
  pose proof (lookup_lt_Some _ _ _ Hq') as Hlt'.
  pose proof (bot_answer_step_wrong d a q H0 Hq Hne) as Hstep.
  destruct (bot_handle_answer uid now a w d Hs) as (d' & Hstep' & Hcases);
    [unfold len; lia|].
  rewrite Hstep in Hstep'. injection Hstep' as <-. simpl in Hcases.
  destruct Hcases as [(Hc & _)|[(_ & Hc & _)|(_ & _ & q1 & Hget & ->)]];
    [lia|unfold len in Hc; lia|].
  destruct (getitem_in_range (Bot.questions d) (Bot.current d + 1))
    as (q2 & Hget2 & Hq2); [unfold len; lia|].
  rewrite Hget in Hget2. rewrite Hq' in Hq2. simplify_eq.
  eexists _, _. split.
  - replace (Bot.current d + 2) with (Bot.current d + 1 + 1) by lia. reflexivity.
  - split; [apply session_update_data; by rewrite Hs|]. done.
Qed.

(** A wrong answer on the last life, the closing message being
    buildable: the session ends early with the pool size as total. *)
Lemma bot_wrong_answer_last_life uid now a w d q lines :
  Bot.session uid w = Some d ->
  0 <= Bot.current d ->
  Bot.questions d !! Z.to_nat (Bot.current d) = Some q ->
  a <> correct_answer q ->
  Bot.lives d = 1 ->
  Bot.wrong_answers_text (take 5 (app (Bot.wrong_answers d) [q])) = Ok lines ->
  exists w' p,
    percentage (Bot.score d) (len (Bot.questions d)) = Ok p
    /\ Bot.handle_answer uid now a w
       = (w', Ok (Bot.Finished
                    {| o_score := Bot.score d; o_total := len (Bot.questions d);
                       o_percentage := p; o_level := level_of_percentage p;
                       o_time_taken := now - Bot.start_time d |} 0 true)).
Proof.
  intros Hs H0 Hq Hne Hl Htext.
  pose proof (lookup_lt_Some _ _ _ Hq) as Hlt.
  pose proof (bot_answer_step_wrong d a q H0 Hq Hne) as Hstep.
  destruct (bot_handle_answer uid now a w d Hs) as (d' & Hstep' & Hcases);
    [unfold len; lia|].
  rewrite Hstep in Hstep'. injection Hstep' as <-. simpl in Hcases.
  destruct Hcases as [(_ & p & Hp & ->)|[(Hc & _)|(Hc & _)]]; [|lia|lia].
  eexists _, p. split; [done|]. unfold bot_finished. simpl. rewrite Htext.
  replace (Bot.lives d - 1) with 0 by lia. reflexivity.
Qed.

Lemma bot_start_quiz_nonempty uid now lv w q qs :
  bot_selected lv (Bot.db w) = q :: qs ->
  exists h,
    Bot.start_quiz uid now lv w
    = (Bot.set_state uid Bot.taking_quiz
         (Bot.update_data uid (bot_fresh uid now lv (q :: qs)) w),
       Ok (Bot.AskQuestion q 1 (len (q :: qs)) 3 h)).
Proof.
  unfold bot_selected. intros Hsel. unfold Bot.start_quiz. rewrite Hsel.
  replace (getitem (q :: qs) 0) with (Ok q) by done.
  fold (bot_fresh uid now lv (q :: qs)).
  unfold Bot.ask_question, Bot.set_state, Bot.update_data.
  rewrite !get_set_context. simpl. by eexists.
Qed.

Lemma bot_start_quiz_empty uid now lv w :
  bot_selected lv (Bot.db w) = [] ->
  Bot.start_quiz uid now lv w = (w, Ok Bot.NoQuestionsAlert).
Proof.
  unfold bot_selected. intros Hsel. unfold Bot.start_quiz. by rewrite Hsel.
Qed.

(** C2, amended: when the bot ends a session early because the lives
    are used up, the total of the outcome, and the total recorded in
    the result row, is the size of the question pool, not the number
    of questions presented, which may be smaller.  In particular,
    after a start with three lives, three consecutive wrong answers
    (to questions whose correct option exists, so that the closing
    message can list it) end the session on the third answer, whatever
    the number of questions left, with score 0 and the pool size as
    total. *)
Theorem early_end_total_is_pool_size :
  (forall d0 es uid now a w' o l,
     Bot.handle_answer uid now a (Bot.run es (Bot.boot d0))
     = (w', Ok (Bot.Finished o l true)) ->
     exists d row,
       Bot.session uid (Bot.run es (Bot.boot d0)) = Some d
       /\ o_total o = len (Bot.questions d)
       /\ t_results (Bot.db w')
          = app (t_results (Bot.db (Bot.run es (Bot.boot d0)))) [row]
       /\ r_total_questions row = len (Bot.questions d)
       /\ Bot.current d + 1 <= len (Bot.questions d)
       /\ l <= 0)
  /\ (forall w uid t0 t1 t2 t3 lv q1 q2 q3 rest a1 a2 a3 c1 c2 c3,
        bot_selected lv (Bot.db w) = q1 :: q2 :: q3 :: rest ->
        a1 <> correct_answer q1 -> a2 <> correct_answer q2 ->
        a3 <> correct_answer q3 ->
        Bot.correct_option q1 = Ok c1 -> Bot.correct_option q2 = Ok c2 ->
        Bot.correct_option q3 = Ok c3 ->
        exists h1 h2 h3 p,
          Bot.replies [Bot.StartQuiz uid t0 lv; Bot.Answer uid t1 a1;
                       Bot.Answer uid t2 a2; Bot.Answer uid t3 a3] w
          = [Ok (Bot.AskQuestion q1 1 (3 + len rest) 3 h1);
             Ok (Bot.AskQuestion q2 2 (3 + len rest) 2 h2);
             Ok (Bot.AskQuestion q3 3 (3 + len rest) 1 h3);
             Ok (Bot.Finished
                   {| o_score := 0; o_total := 3 + len rest;
                      o_percentage := p; o_level := level_of_percentage p;
                      o_time_taken := t3 - t0 |} 0 true)]).
Proof.
  split.
  - intros d0 es uid now a w' o l H.
    destruct (bot_finished_row _ _ _ _ _ _ _ _ H)
      as (d & d' & row & Hs & Hstep & He & Hsc & Htot & Hlives & _ & Hrow & _ & _
          & Hrs & Hrt & Hrw).
    exists d, row.
    pose proof (bot_reachable_inv _ _ _ _ Hs) as Hd.
    destruct (bot_answer_step_inv d a d' Hd Hstep)
      as (_ & Hlt & Hc & Hqs & _).
    rewrite Hrt, Htot, Hqs, Hlives.
    repeat (split; [done || lia|]). done.
  - intros w uid t0 t1 t2 t3 lv q1 q2 q3 rest a1 a2 a3 c1 c2 c3
      Hsel Ha1 Ha2 Ha3 Hc1' Hc2' Hc3'.
    assert (Hlen : len (q1 :: q2 :: q3 :: rest) = 3 + len rest)
      by (unfold len; simpl length; lia).
    destruct (bot_start_quiz_nonempty uid t0 lv w _ _ Hsel) as (h1 & Hstart).
    set (d0 := bot_fresh uid t0 lv (q1 :: q2 :: q3 :: rest)) in *.
    set (w0 := Bot.set_state uid Bot.taking_quiz (Bot.update_data uid d0 w)) in *.
    assert (Hs0 : Bot.session uid w0 = Some d0) by apply session_started.
    destruct (bot_wrong_answer_goes_on uid t1 a1 w0 d0 q1 q2 Hs0)
      as (d1 & h2 & Hans1 & Hs1 & Hqs1 & Hc1 & Hsc1 & Hl1 & Hst1 & Hwr1);
      [done|done|done|done|simpl; lia|].
    set (w1 := Bot.update_data uid d1 w0) in *.
    destruct (bot_wrong_answer_goes_on uid t2 a2 w1 d1 q2 q3 Hs1)
      as (d2 & h3 & Hans2 & Hs2 & Hqs2 & Hc2 & Hsc2 & Hl2 & Hst2 & Hwr2);
      [rewrite Hc1; simpl; lia|by rewrite Hqs1, Hc1|by rewrite Hqs1, Hc1|done
      |rewrite Hl1; simpl; lia|].
    set (w2 := Bot.update_data uid d2 w1) in *.
    destruct (bot_wrong_answer_last_life uid t3 a3 w2 d2 q3 [c1; c2; c3] Hs2)
      as (w3 & p & Hp & Hans3);
      [rewrite Hc2, Hc1; simpl; lia|by rewrite Hqs2, Hqs1, Hc2, Hc1|done
      |rewrite Hl2, Hl1; simpl; lia
      |rewrite Hwr2, Hwr1; simpl; by rewrite Hc1', Hc2', Hc3'|].
    exists h1, h2, h3, p. unfold Bot.replies, Bot.handle.
    rewrite Hstart. cbn [fst snd]. rewrite Hans1. cbn [fst snd].
    rewrite Hans2. cbn [fst snd]. rewrite Hans3. cbn [fst snd].
    rewrite Hqs2, Hqs1, Hsc2, Hsc1, Hst2, Hst1, Hl1, Hc1. simpl Bot.questions.
    rewrite Hlen. reflexivity.
Qed.

Lemma early_end_total_is_pool_size_witness :
  (exists d,
     Bot.session 7 (Bot.run (take 3 three_wrong) (Bot.boot sample_db)) = Some d
     /\ 7 = len (Bot.questions d) /\ Bot.current d + 1 <= len (Bot.questions d))
  /\ (exists o l,
        last (Bot.replies three_wrong (Bot.boot sample_db))
        = Some (Ok (Bot.Finished o l true))
        /\ o_score o = 0 /\ o_total o = 3 + 4).
Proof.
  split.
  - destruct (proj1 early_end_total_is_pool_size sample_db (take 3 three_wrong)
                7 103 3
                (fst (Bot.handle_answer 7 103 3
                        (Bot.run (take 3 three_wrong) (Bot.boot sample_db))))
                {| o_score := 0; o_total := 7; o_percentage := 0%float;
                   o_level := "A1"; o_time_taken := 3 |} 0)
      as (d & row & Hs & Htot & _ & _ & Hk & _).
    + vm_compute. reflexivity.
    + exists d. split; [exact Hs|]. split; [exact Htot|exact Hk].
  - edestruct (proj2 early_end_total_is_pool_size (Bot.boot sample_db)
                 7 100 101 102 103 "full") as (h1 & h2 & h3 & p & Hr).
    + reflexivity.
    + instantiate (1 := 3). simpl. lia.
    + instantiate (1 := 3). simpl. lia.
    + instantiate (1 := 3). simpl. lia.
    + reflexivity.
    + reflexivity.
    + reflexivity.
    + eexists _, _. unfold three_wrong. rewrite Hr. simpl.
      split; [reflexivity|]. split; reflexivity.
Defined.

(** * An empty pool *)

(** The bot: an empty selection is answered with an alert and nothing
    is stored; a user without a session still has none, and an answer
    of theirs is taken by no handler. *)
Lemma bot_start_quiz_empty_pool uid now lv w now' a :
  bot_selected lv (Bot.db w) = [] ->
  Bot.state (Bot.get_context uid w) = None ->
  Bot.start_quiz uid now lv w = (w, Ok Bot.NoQuestionsAlert)
  /\ Bot.handle_answer uid now' a w = (w, Ok Bot.Unhandled).
Proof.
  intros Hsel Hst. split; [by apply bot_start_quiz_empty|].
  unfold Bot.handle_answer. by rewrite Hst.
Qed.

(** C3 (a start whose level filter matches no question fails with an
    empty-pool error and creates no session, so that a following
    answer fails for want of an active session) does not hold in the
    web front-end: with an empty selection [start_quiz] of app.py
    returns no empty-pool error; it writes a quiz without questions to
    the session and then raises [IndexError] at [quiz_data[0]].  What
    the client is left with depends on how Flask serves the failed
    request.  With [debug=True], as app.py starts the application, the
    write is lost with the request: no quiz is created, and a client
    without a quiz is then told that none is active, as the claim
    has it.  Without [debug] the quiz without questions is the
    client's quiz, and the next [submit_answer] raises [IndexError]
    too. *)
Theorem app_start_quiz_empty_pool debug uid w now random lv now' a :
  App.user_id (App.session w) = Some uid ->
  App.fetch_questions random lv (App.db w) = [] ->
  snd (Flask.serve debug (App.StartQuiz now random lv) w) = Raise IndexError
  /\ (debug = true ->
      fst (Flask.serve debug (App.StartQuiz now random lv) w) = w
      /\ (App.current_quiz (App.session w) = None ->
          Flask.serve debug (App.SubmitAnswer now' a) w
          = (w, Ok App.NoActiveQuiz)))
  /\ (debug = false ->
      App.current_quiz
        (App.session (fst (Flask.serve debug (App.StartQuiz now random lv) w)))
      = Some {| App.questions := []; App.current := 0; App.score := 0;
                App.wrong_answers := []; App.start_time := now;
                App.level := lv |}
      /\ Flask.serve debug (App.SubmitAnswer now' a)
           (fst (Flask.serve debug (App.StartQuiz now random lv) w))
         = (fst (Flask.serve debug (App.StartQuiz now random lv) w),
            Raise IndexError)).
Proof.
  intros Hu Hfetch.
  assert (Hstart : App.handle (App.StartQuiz now random lv) w
                   = (App.set_current_quiz
                        {| App.questions := []; App.current := 0; App.score := 0;
                           App.wrong_answers := []; App.start_time := now;
                           App.level := lv |} w, Raise IndexError)).
  { simpl. unfold App.start_quiz. by rewrite Hu, Hfetch. }
  assert (Hserve : Flask.serve debug (App.StartQuiz now random lv) w
                   = if debug then (w, Raise IndexError)
                     else (App.set_current_quiz
                             {| App.questions := []; App.current := 0;
                                App.score := 0; App.wrong_answers := [];
                                App.start_time := now; App.level := lv |} w,
                           Raise IndexError)).
  { unfold Flask.serve. rewrite Hstart. cbn [fst snd].
    destruct debug; [|done]. by destruct w. }
  rewrite Hserve. split; [by destruct debug|]. split.
  - intros ->. cbn [fst]. split; [done|]. intros Hq.
    unfold Flask.serve. simpl. unfold App.submit_answer. by rewrite Hu, Hq.
  - intros ->. cbn [fst]. split; [done|].
    unfold Flask.serve. simpl. unfold App.submit_answer. simpl. by rewrite Hu.
Qed.

Lemma app_start_quiz_empty_pool_witness :
  snd (Flask.serve true (App.StartQuiz 50 (fun _ => 0) (Some "C1"))
         (App.logged_in 1 sample_db)) = Raise IndexError
  /\ Flask.serve true (App.SubmitAnswer 51 (Some 0))
       (fst (Flask.serve true (App.StartQuiz 50 (fun _ => 0) (Some "C1"))
               (App.logged_in 1 sample_db)))
     = (App.logged_in 1 sample_db, Ok App.NoActiveQuiz)
  /\ Flask.serve false (App.SubmitAnswer 51 (Some 0))
       (fst (Flask.serve false (App.StartQuiz 50 (fun _ => 0) (Some "C1"))
               (App.logged_in 1 sample_db)))
     = (fst (Flask.serve false (App.StartQuiz 50 (fun _ => 0) (Some "C1"))
               (App.logged_in 1 sample_db)),
        Raise IndexError).
Proof.
  assert (Hu : App.user_id (App.session (App.logged_in 1 sample_db)) = Some 1)
    by reflexivity.
  assert (Hfetch : App.fetch_questions (fun _ => 0) (Some "C1")
                     (App.db (App.logged_in 1 sample_db)) = [])
    by (vm_compute; reflexivity).
  destruct (app_start_quiz_empty_pool true 1 (App.logged_in 1 sample_db) 50
              (fun _ => 0) (Some "C1") 51 (Some 0) Hu Hfetch)
    as (Hcrash & Hdebug & _).
  destruct (app_start_quiz_empty_pool false 1 (App.logged_in 1 sample_db) 50
              (fun _ => 0) (Some "C1") 51 (Some 0) Hu Hfetch)
    as (_ & _ & Hplain).
  destruct (Hdebug eq_refl) as [Hsame Hnone].
  split; [exact Hcrash|]. split.
  - rewrite Hsame. by apply Hnone.
  - by apply Hplain.
Defined.

(** * The hint economy *)

(** The quiz handlers write to [results] only. *)
Lemma bot_finish_quiz_tables uid now score total early w :
  t_user_hints (Bot.db (fst (Bot.finish_quiz uid now score total early w)))
  = t_user_hints (Bot.db w)
  /\ t_daily_bonus (Bot.db (fst (Bot.finish_quiz uid now score total early w)))
     = t_daily_bonus (Bot.db w).
Proof.
  unfold Bot.finish_quiz. destruct (percentage score total); [|done].
  cbn zeta. by destruct (Bot.wrong_answers_text _).
Qed.

Lemma bot_ask_question_world uid q w : fst (Bot.ask_question uid q w) = w.
Proof. unfold Bot.ask_question. by destruct (Bot.data _). Qed.

Lemma bot_handle_tables_quiz e w :
  match e with Bot.StartQuiz _ _ _ | Bot.Answer _ _ _ => True | _ => False end ->
  t_user_hints (Bot.db (fst (Bot.handle e w))) = t_user_hints (Bot.db w)
  /\ t_daily_bonus (Bot.db (fst (Bot.handle e w))) = t_daily_bonus (Bot.db w).
Proof.
  destruct e as [uid now lv|uid now a|uid today|uid]; try done; intros _; simpl.
  - unfold Bot.start_quiz. destruct (if decide (lv = "full") then _ else _); [done|].
    destruct (getitem _ _); [|done]. by rewrite bot_ask_question_world.
  - unfold Bot.handle_answer.
    destruct (Bot.state (Bot.get_context uid w)) as [[]|]; try done.
    destruct (Bot.data (Bot.get_context uid w)) as [d|]; [|done].
    destruct (Bot.answer_step d a) as [d'|]; [|done]. cbn zeta.
    destruct (_ <=? _);
      [exact (bot_finish_quiz_tables _ _ _ _ _ (Bot.update_data uid d' w))|].
    destruct (_ <=? _);
      [exact (bot_finish_quiz_tables _ _ _ _ _ (Bot.update_data uid d' w))|].
    destruct (getitem _ _); [|done]. by rewrite bot_ask_question_world.
Qed.

Lemma get_user_hints_nonneg uid d : hints_nonneg d -> 0 <= Bot.get_user_hints uid d.
Proof.
  intros Hn. unfold Bot.get_user_hints.
  destruct (t_user_hints d !! uid) as [n|] eqn:E; [by eapply Hn|done].
Qed.

(** [use_hint] takes one hint from a positive balance and leaves any
    other balance alone. *)
Lemma use_hint_balance uid uid' d :
  Bot.get_user_hints uid' (Bot.use_hint uid d)
  = if decide (uid' = uid) then
      if 0 <? Bot.get_user_hints uid d then Bot.get_user_hints uid d - 1
      else Bot.get_user_hints uid d
    else Bot.get_user_hints uid' d.
Proof.
  unfold Bot.use_hint, Bot.get_user_hints.
  destruct (t_user_hints d !! uid) as [n|] eqn:E.
  - destruct (0 <? n) eqn:Hn; simpl.
    + destruct (decide (uid' = uid)) as [->|Hne].
      * by rewrite lookup_insert_eq.
      * by rewrite lookup_insert_ne.
    + destruct (decide (uid' = uid)) as [->|Hne]; [by rewrite E|done].
  - destruct (decide (uid' = uid)) as [->|Hne]; [by rewrite E|done].
Qed.

Lemma hints_nonneg_use_hint uid d : hints_nonneg d -> hints_nonneg (Bot.use_hint uid d).
Proof.
  intros Hn u n. unfold Bot.use_hint.
  destruct (t_user_hints d !! uid) as [m|] eqn:E; [|apply Hn].
  destruct (0 <? m) eqn:Hm; [|apply Hn]. simpl.
  destruct (decide (uid = u)) as [->|Hne].
  - rewrite lookup_insert_eq. intros [= <-]. lia.
  - rewrite lookup_insert_ne by done. apply Hn.
Qed.

Lemma hints_nonneg_daily_bonus today uid d :
  hints_nonneg d -> hints_nonneg (fst (Bot.get_daily_bonus today uid d)).
Proof.
  intros Hn u n. unfold Bot.get_daily_bonus.
  destruct (t_daily_bonus d !! (uid, today)); [apply Hn|]. simpl.
  destruct (decide (uid = u)) as [->|Hne].
  - rewrite lookup_insert_eq. intros [= <-].
    destruct (t_user_hints d !! u) as [m|] eqn:E; [|lia].
    pose proof (Hn _ _ E). lia.
  - rewrite lookup_insert_ne by done. apply Hn.
Qed.

Lemma hints_nonneg_handle e w :
  hints_nonneg (Bot.db w) -> hints_nonneg (Bot.db (fst (Bot.handle e w))).
Proof.
  intros Hn. destruct e as [uid now lv|uid now a|uid today|uid].
  - unfold hints_nonneg.
    by rewrite (proj1 (bot_handle_tables_quiz (Bot.StartQuiz uid now lv) w I)).
  - unfold hints_nonneg.
    by rewrite (proj1 (bot_handle_tables_quiz (Bot.Answer uid now a) w I)).
  - simpl. unfold Bot.claim_daily_bonus.
    pose proof (hints_nonneg_daily_bonus today uid _ Hn) as Hn'.
    destruct (Bot.get_daily_bonus today uid (Bot.db w)) as [db1 claimed].
    by destruct (decide (claimed = 0)).
  - simpl. unfold Bot.use_hint_callback.
    destruct (0 <? _); [|done]. simpl. by apply hints_nonneg_use_hint.
Qed.

Lemma hints_nonneg_run es w :
  hints_nonneg (Bot.db w) -> hints_nonneg (Bot.db (Bot.run es w)).
Proof.
  revert w. induction es as [|e es IH]; intros w Hn; [done|].
  apply IH. by apply hints_nonneg_handle.
Qed.

(** C5: [use_hint] takes one hint only from a strictly positive
    balance; on a zero balance the callback reports that there is no
    hint and changes nothing.  So, from a database without negative
    balances, no balance is negative after any sequence of calls. *)
Theorem use_hint_never_negative d0 es uid :
  hints_nonneg d0 ->
  0 <= Bot.get_user_hints uid (Bot.db (Bot.run es (Bot.boot d0)))
  /\ 0 <= Bot.get_user_hints uid
            (Bot.db (fst (Bot.use_hint_callback uid (Bot.run es (Bot.boot d0)))))
  /\ (if 0 <? Bot.get_user_hints uid (Bot.db (Bot.run es (Bot.boot d0))) then
        snd (Bot.use_hint_callback uid (Bot.run es (Bot.boot d0))) = Ok Bot.HintUsed
        /\ Bot.get_user_hints uid
             (Bot.db (fst (Bot.use_hint_callback uid (Bot.run es (Bot.boot d0)))))
           = Bot.get_user_hints uid (Bot.db (Bot.run es (Bot.boot d0))) - 1
      else
        Bot.use_hint_callback uid (Bot.run es (Bot.boot d0))
        = (Bot.run es (Bot.boot d0), Ok Bot.NoHint)
        /\ Bot.use_hint uid (Bot.db (Bot.run es (Bot.boot d0)))
           = Bot.db (Bot.run es (Bot.boot d0))).
Proof.
  intros Hn0. set (w := Bot.run es (Bot.boot d0)).
  assert (Hn : hints_nonneg (Bot.db w)) by (by apply hints_nonneg_run).
  split; [by apply get_user_hints_nonneg|].
  split.
  { apply get_user_hints_nonneg.
    change (hints_nonneg (Bot.db (fst (Bot.handle (Bot.UseHint uid) w)))).
    by apply hints_nonneg_handle. }
  unfold Bot.use_hint_callback.
  destruct (0 <? Bot.get_user_hints uid (Bot.db w)) eqn:Hpos; simpl.
  - split; [done|]. rewrite use_hint_balance.
    rewrite decide_True by done. by rewrite Hpos.
  - split; [done|]. unfold Bot.use_hint, Bot.get_user_hints in *.
    destruct (t_user_hints (Bot.db w) !! uid) as [n|]; [|done].
    by rewrite Hpos.
Qed.

Lemma use_hint_never_negative_witness :
  0 <= Bot.get_user_hints 7
         (Bot.db (Bot.run [Bot.ClaimBonus 7 "2024-05-01"; Bot.UseHint 7; Bot.UseHint 7]
                          (Bot.boot sample_db))).
Proof.
  refine (proj1 (use_hint_never_negative sample_db
                   [Bot.ClaimBonus 7 "2024-05-01"; Bot.UseHint 7; Bot.UseHint 7] 7 _)).
  intros u n Hu. vm_compute in Hu. discriminate Hu.
Defined.

(** ** The daily bonus *)

Lemma get_daily_bonus_fresh today uid d :
  t_daily_bonus d !! (uid, today) = None ->
  snd (Bot.get_daily_bonus today uid d) = 1
  /\ Bot.get_user_hints uid (fst (Bot.get_daily_bonus today uid d))
     = Bot.get_user_hints uid d + 1
  /\ t_daily_bonus (fst (Bot.get_daily_bonus today uid d)) !! (uid, today)
     = Some 1.
Proof.
  intros Hnone. unfold Bot.get_daily_bonus. rewrite Hnone. simpl.
  split; [done|]. split; [|by rewrite lookup_insert_eq].
  unfold Bot.get_user_hints. simpl. rewrite lookup_insert_eq.
  by destruct (t_user_hints d !! uid).
Qed.

Lemma get_daily_bonus_claimed today uid d c :
  t_daily_bonus d !! (uid, today) = Some c ->
  Bot.get_daily_bonus today uid d = (d, c).
Proof. intros Hc. unfold Bot.get_daily_bonus. by rewrite Hc. Qed.

Lemma claim_daily_bonus_db uid today w :
  Bot.db (fst (Bot.claim_daily_bonus uid today w))
  = fst (Bot.get_daily_bonus today uid (Bot.db w)).
Proof.
  unfold Bot.claim_daily_bonus.
  destruct (Bot.get_daily_bonus today uid (Bot.db w)) as [db1 claimed].
  by destruct (decide (claimed = 0)).
Qed.

Lemma claim_daily_bonus_reply uid today w :
  snd (Bot.claim_daily_bonus uid today w)
  = if decide (snd (Bot.get_daily_bonus today uid (Bot.db w)) = 0)
    then Ok Bot.BonusGranted
    else Ok (Bot.AlreadyClaimed
               (Bot.get_user_hints uid
                  (fst (Bot.get_daily_bonus today uid (Bot.db w))))).
Proof.
  unfold Bot.claim_daily_bonus.
  destruct (Bot.get_daily_bonus today uid (Bot.db w)) as [db1 claimed].
  simpl. by destruct (decide (claimed = 0)).
Qed.

Lemma set_db_same w : Bot.set_db (Bot.db w) w = w.
Proof. by destruct w. Qed.

(** C6: for a user who has not yet claimed on a date, two claims on
    that date raise the hint balance by exactly 1 in total: the first
    adds 1, the second changes nothing and reports the bonus as
    already claimed. *)
Theorem daily_bonus_once_per_day w uid today :
  t_daily_bonus (Bot.db w) !! (uid, today) = None ->
  Bot.get_user_hints uid (Bot.db (fst (Bot.claim_daily_bonus uid today w)))
  = Bot.get_user_hints uid (Bot.db w) + 1
  /\ fst (Bot.claim_daily_bonus uid today (fst (Bot.claim_daily_bonus uid today w)))
     = fst (Bot.claim_daily_bonus uid today w)
  /\ Bot.get_user_hints uid
       (Bot.db (Bot.run [Bot.ClaimBonus uid today; Bot.ClaimBonus uid today] w))
     = Bot.get_user_hints uid (Bot.db w) + 1
  /\ snd (Bot.claim_daily_bonus uid today (fst (Bot.claim_daily_bonus uid today w)))
     = Ok (Bot.AlreadyClaimed (Bot.get_user_hints uid (Bot.db w) + 1)).
Proof.
  intros Hnone.
  destruct (get_daily_bonus_fresh today uid (Bot.db w) Hnone) as (_ & Hb & Hrow).
  set (w1 := fst (Bot.claim_daily_bonus uid today w)).
  assert (Hdb1 : Bot.db w1 = fst (Bot.get_daily_bonus today uid (Bot.db w)))
    by apply claim_daily_bonus_db.
  rewrite <- Hdb1 in Hb, Hrow.
  pose proof (get_daily_bonus_claimed today uid (Bot.db w1) 1 Hrow) as Hsecond.
  assert (Hw2 : fst (Bot.claim_daily_bonus uid today w1) = w1).
  { unfold Bot.claim_daily_bonus. rewrite Hsecond. simpl. apply set_db_same. }
  split; [done|]. split; [done|]. split.
  - simpl. fold w1. by rewrite Hw2.
  - rewrite claim_daily_bonus_reply, Hsecond. simpl. by rewrite Hb.
Qed.

Lemma daily_bonus_once_per_day_witness :
  Bot.get_user_hints 7
    (Bot.db (Bot.run [Bot.ClaimBonus 7 "2024-05-01"; Bot.ClaimBonus 7 "2024-05-01"]
                     (Bot.boot sample_db)))
  = Bot.get_user_hints 7 (Bot.db (Bot.boot sample_db)) + 1.
Proof.
  refine (proj1 (proj2 (proj2 (daily_bonus_once_per_day (Bot.boot sample_db) 7
                                 "2024-05-01" _)))).
  vm_compute. reflexivity.
Defined.

Lemma bonus_rows_claimed_daily_bonus today uid d :
  bonus_rows_claimed d ->
  bonus_rows_claimed (fst (Bot.get_daily_bonus today uid d)).
Proof.
  intros Hc k v. unfold Bot.get_daily_bonus.
  destruct (t_daily_bonus d !! (uid, today)); [apply Hc|]. simpl.
  destruct (decide ((uid, today) = k)) as [<-|Hne].
  - rewrite lookup_insert_eq. by intros [= <-].
  - rewrite lookup_insert_ne by done. apply Hc.
Qed.

Lemma bonus_rows_claimed_handle e w :
  bonus_rows_claimed (Bot.db w) ->
  bonus_rows_claimed (Bot.db (fst (Bot.handle e w))).
Proof.
  intros Hc. destruct e as [uid now lv|uid now a|uid today|uid].
  - unfold bonus_rows_claimed.
    by rewrite (proj2 (bot_handle_tables_quiz (Bot.StartQuiz uid now lv) w I)).
  - unfold bonus_rows_claimed.
    by rewrite (proj2 (bot_handle_tables_quiz (Bot.Answer uid now a) w I)).
  - simpl. rewrite claim_daily_bonus_db. by apply bonus_rows_claimed_daily_bonus.
  - simpl. unfold Bot.use_hint_callback.
    destruct (0 <? _); [|done]. simpl. unfold Bot.use_hint.
    destruct (t_user_hints (Bot.db w) !! uid) as [n|]; [|done].
    by destruct (0 <? n).
Qed.

Lemma bonus_rows_claimed_run es w :
  bonus_rows_claimed (Bot.db w) -> bonus_rows_claimed (Bot.db (Bot.run es w)).
Proof.
  revert w. induction es as [|e es IH]; intros w Hc; [done|].
  apply IH. by apply bonus_rows_claimed_handle.
Qed.

(** C10: [get_daily_bonus] returns 1 both when it has just granted the
    bonus and when the bonus had been claimed before, so
    [claim_daily_bonus] always takes the already-claimed branch, also
    on the first claim of the day, which does add a hint. *)
Theorem daily_bonus_always_reports_claimed d0 es uid today :
  bonus_rows_claimed d0 ->
  snd (Bot.get_daily_bonus today uid (Bot.db (Bot.run es (Bot.boot d0)))) = 1
  /\ snd (Bot.claim_daily_bonus uid today (Bot.run es (Bot.boot d0)))
     = Ok (Bot.AlreadyClaimed
             (Bot.get_user_hints uid
                (Bot.db (fst (Bot.claim_daily_bonus uid today
                                (Bot.run es (Bot.boot d0)))))))
  /\ match t_daily_bonus (Bot.db (Bot.run es (Bot.boot d0))) !! (uid, today) with
     | None =>
         Bot.get_user_hints uid
           (Bot.db (fst (Bot.claim_daily_bonus uid today (Bot.run es (Bot.boot d0)))))
         = Bot.get_user_hints uid (Bot.db (Bot.run es (Bot.boot d0))) + 1
     | Some _ =>
         fst (Bot.claim_daily_bonus uid today (Bot.run es (Bot.boot d0)))
         = Bot.run es (Bot.boot d0)
     end.
Proof.
  intros Hc0. set (w := Bot.run es (Bot.boot d0)).
  assert (Hc : bonus_rows_claimed (Bot.db w)) by (by apply bonus_rows_claimed_run).
  assert (Hret : snd (Bot.get_daily_bonus today uid (Bot.db w)) = 1).
  { destruct (t_daily_bonus (Bot.db w) !! (uid, today)) as [c|] eqn:Hrow.
    - rewrite (get_daily_bonus_claimed _ _ _ _ Hrow). simpl. by eapply Hc.
    - by apply get_daily_bonus_fresh. }
  split; [done|]. split.
  - rewrite claim_daily_bonus_reply, Hret, claim_daily_bonus_db. done.
  - destruct (t_daily_bonus (Bot.db w) !! (uid, today)) as [c|] eqn:Hrow.
    + unfold Bot.claim_daily_bonus.
      rewrite (get_daily_bonus_claimed _ _ _ _ Hrow).
      destruct (decide (c = 0)); simpl; apply set_db_same.
    + rewrite claim_daily_bonus_db. by apply get_daily_bonus_fresh.
Qed.

Lemma daily_bonus_always_reports_claimed_witness :
  snd (Bot.claim_daily_bonus 7 "2024-05-01" (Bot.boot sample_db))
  = Ok (Bot.AlreadyClaimed 1)
  /\ snd (Bot.claim_daily_bonus 7 "2024-05-01"
            (Bot.run [Bot.ClaimBonus 7 "2024-05-01"] (Bot.boot sample_db)))
     = Ok (Bot.AlreadyClaimed 1).
Proof.
  split.
  - refine (proj1 (proj2 (daily_bonus_always_reports_claimed sample_db []
                            7 "2024-05-01" _))).
    intros k v Hk. vm_compute in Hk. discriminate Hk.
  - refine (proj1 (proj2 (daily_bonus_always_reports_claimed sample_db
                            [Bot.ClaimBonus 7 "2024-05-01"] 7 "2024-05-01" _))).
    intros k v Hk. vm_compute in Hk. discriminate Hk.
Defined.

(** * The order of the questions *)

Lemma Sorted_weaken {A} (R R' : A -> A -> Prop) (l : list A) :
  (forall a b, R a b -> R' a b) -> Sorted R l -> Sorted R' l.
Proof.
  intros HR. induction 1 as [|x l Hs IH Hhd]; constructor; [done|].
  destruct Hhd; constructor. by apply HR.
Qed.

Lemma bot_get_questions_level d lv :
  lv <> "" ->
  Permutation (Bot.get_questions (Some lv) d) (pool d (Some lv))
  /\ Sorted (fun a b => q_id a <= q_id b) (Bot.get_questions (Some lv) d).
Proof.
  intros Hlv. unfold Bot.get_questions, pool. rewrite decide_False by done.
  split.
  - apply fmap_Permutation, order_by_perm.
  - apply Sorted_fmap.
    eapply Sorted_weaken; [|apply order_by_sorted, by_q_id_total].
    intros a b. unfold by_q_id. simpl. lia.
Qed.

Lemma bot_get_questions_full d :
  Permutation (Bot.get_questions None d) (pool d None)
  /\ exists rows,
       Bot.get_questions None d = snd <$> rows
       /\ Permutation rows (joined d)
       /\ Sorted (fun a b => l_id (fst a) < l_id (fst b)
                             \/ (l_id (fst a) = l_id (fst b)
                                 /\ q_id (snd a) <= q_id (snd b))) rows.
Proof.
  unfold Bot.get_questions, pool. split; [apply fmap_Permutation, order_by_perm|].
  exists (order_by by_l_id_q_id (joined d)).
  split; [done|]. split; [apply order_by_perm|].
  eapply Sorted_weaken; [|apply order_by_sorted, by_l_id_q_id_total].
  intros a b. unfold by_l_id_q_id. lia.
Qed.

Lemma app_fetch_questions_level random d lv :
  one_level lv ->
  App.fetch_questions random (Some lv) d
  = order_by_random random (pool d (Some lv)).
Proof.
  intros [Hne Hnf]. unfold App.fetch_questions, pool.
  by rewrite !decide_False by done.
Qed.

Lemma app_fetch_questions_full random d :
  App.fetch_questions random None d = order_by_random random (pool d None).
Proof. reflexivity. Qed.

Lemma app_randomized : randomized app_fetches.
Proof.
  intros d lv p Hlv Hperm.
  destruct (order_by_random_any p (pool d (Some lv)) Hperm) as [random Hr].
  exists random. by rewrite app_fetch_questions_level.
Qed.

(** The claim of C8 as stated fails for the bot: [get_questions] has
    one result per database, in ascending question id, whatever the
    storage order; the three A1 questions of [sample_db] come as 1, 2,
    3 and never in another order. *)
Lemma bot_order_not_randomized :
  q_id <$> Bot.get_questions (Some "A1") sample_db = [1; 2; 3]
  /\ ~ randomized bot_fetches.
Proof.
  split; [vm_compute; reflexivity|].
  intros Hr.
  specialize (Hr sample_db "A1" (pool sample_db (Some "A1"))).
  unfold bot_fetches in Hr.
  assert (Hq : q_id <$> pool sample_db (Some "A1")
               = q_id <$> Bot.get_questions (Some "A1") sample_db).
  { f_equal. apply Hr; [by split|reflexivity]. }
  vm_compute in Hq. discriminate Hq.
Qed.

Lemma app_start_quiz_stored uid w now random lv :
  App.user_id (App.session w) = Some uid ->
  App.current_quiz (App.session (fst (App.start_quiz now random lv w)))
  = Some {| App.questions := App.fetch_questions random lv (App.db w);
            App.current := 0; App.score := 0; App.wrong_answers := [];
            App.start_time := now; App.level := lv |}.
Proof.
  intros Hu. unfold App.start_quiz. rewrite Hu. by destruct (getitem _ _).
Qed.

Lemma bot_start_quiz_stored uid w now lv q qs :
  bot_selected lv (Bot.db w) = q :: qs ->
  Bot.session uid (fst (Bot.start_quiz uid now lv w))
  = Some (bot_fresh uid now lv (bot_selected lv (Bot.db w))).
Proof.
  intros Hsel. destruct (bot_start_quiz_nonempty uid now lv w q qs Hsel) as (h & ->).
  rewrite Hsel. apply session_started.
Qed.

Lemma app_fetch_questions_pool random d level :
  App.fetch_questions random level d = order_by_random random (app_pool d level).
Proof.
  unfold App.fetch_questions, app_pool, pool. destruct level as [lv|]; [|done].
  destruct (decide (lv = "")); [done|]. by destruct (decide (lv = "full")).
Qed.

Lemma app_fetches_any d level p :
  Permutation p (app_pool d level) -> app_fetches d level p.
Proof.
  intros Hperm. destruct (order_by_random_any p _ Hperm) as [random Hr].
  exists random. by rewrite app_fetch_questions_pool.
Qed.

Lemma bot_selected_pool d level :
  Permutation (bot_selected level d) (bot_pool d level).
Proof.
  unfold bot_selected, bot_pool.
  destruct (decide (level = "full")); [apply bot_get_questions_full|].
  destruct (decide (level = "")) as [->|Hne]; [apply bot_get_questions_full|].
  by apply bot_get_questions_level.
Qed.

Lemma app_start_quiz_started uid w now random lv :
  App.user_id (App.session w) = Some uid ->
  App.fetch_questions random lv (App.db w) <> [] ->
  exists q,
    App.start_quiz now random lv w
    = (App.set_current_quiz
         {| App.questions := App.fetch_questions random lv (App.db w);
            App.current := 0; App.score := 0; App.wrong_answers := [];
            App.start_time := now; App.level := lv |} w,
       Ok (App.Started (len (App.fetch_questions random lv (App.db w))) q 1)).
Proof.
  intros Hu Hne. unfold App.start_quiz. rewrite Hu.
  destruct (App.fetch_questions random lv (App.db w)) as [|q qs]; [done|].
  by exists q.
Qed.

(** C8, amended: the questions selected at a start are the full pool
    matching the level filter in both front-ends; a missing level, the
    empty level and ['full'] select every question.  The web front-end
    takes them in the random order drawn by the database, and any order
    of the pool can be drawn, whatever the filter; the bot takes them
    in ascending question id (level id, then question id, for the full
    test), the same at every start.  In both, a start on a pool that is
    not empty stores the sequence fetched, and answering never changes
    it. *)
Theorem question_order_by_front_end :
  (forall random d level,
     Permutation (App.fetch_questions random level d) (app_pool d level))
  /\ (forall d level p,
        Permutation p (app_pool d level) -> app_fetches d level p)
  /\ (forall random d lv, one_level lv ->
        Permutation (App.fetch_questions random (Some lv) d) (pool d (Some lv)))
  /\ (forall random d,
        Permutation (App.fetch_questions random None d) (pool d None))
  /\ randomized app_fetches
  /\ (forall d level, Permutation (bot_selected level d) (bot_pool d level))
  /\ (forall d lv, lv <> "" ->
        Permutation (Bot.get_questions (Some lv) d) (pool d (Some lv))
        /\ Sorted (fun a b => q_id a <= q_id b) (Bot.get_questions (Some lv) d))
  /\ (forall d,
        bot_selected "full" d = Bot.get_questions None d
        /\ Bot.get_questions (Some "") d = Bot.get_questions None d
        /\ Permutation (Bot.get_questions None d) (pool d None)
        /\ exists rows,
             Bot.get_questions None d = snd <$> rows
             /\ Permutation rows (joined d)
             /\ Sorted (fun a b => l_id (fst a) < l_id (fst b)
                                   \/ (l_id (fst a) = l_id (fst b)
                                       /\ q_id (snd a) <= q_id (snd b))) rows)
  /\ (forall uid w now random lv,
        App.user_id (App.session w) = Some uid ->
        App.fetch_questions random lv (App.db w) <> [] ->
        exists q quiz,
          App.start_quiz now random lv w
          = (App.set_current_quiz quiz w,
             Ok (App.Started (len (App.questions quiz)) q 1))
          /\ App.questions quiz = App.fetch_questions random lv (App.db w)
          /\ App.current quiz = 0)
  /\ (forall uid w now lv q qs,
        bot_selected lv (Bot.db w) = q :: qs ->
        exists d,
          Bot.session uid (fst (Bot.start_quiz uid now lv w)) = Some d
          /\ Bot.questions d = bot_selected lv (Bot.db w))
  /\ (forall d0 uid es quiz now a quiz',
        App.current_quiz (App.session (App.run es (App.logged_in uid d0)))
        = Some quiz ->
        App.current_quiz
          (App.session (fst (App.submit_answer now a
                               (App.run es (App.logged_in uid d0)))))
        = Some quiz' ->
        App.questions quiz' = App.questions quiz)
  /\ (forall d0 es uid d now a d',
        Bot.session uid (Bot.run es (Bot.boot d0)) = Some d ->
        Bot.session uid (fst (Bot.handle_answer uid now a (Bot.run es (Bot.boot d0))))
        = Some d' ->
        Bot.questions d' = Bot.questions d).
Proof.
  repeat apply conj.
  - intros random d level. rewrite app_fetch_questions_pool.
    apply order_by_random_perm.
  - apply app_fetches_any.
  - intros random d lv Hlv. rewrite app_fetch_questions_level by done.
    apply order_by_random_perm.
  - intros random d. rewrite app_fetch_questions_full.
    apply order_by_random_perm.
  - apply app_randomized.
  - apply bot_selected_pool.
  - apply bot_get_questions_level.
  - intros d. split; [done|]. split; [done|]. apply bot_get_questions_full.
  - intros uid w now random lv Hu Hne.
    destruct (app_start_quiz_started uid w now random lv Hu Hne) as [q Hq].
    exists q. eexists. split; [exact Hq|]. by split.
  - intros uid w now lv q qs Hsel. eexists.
    split; [by eapply bot_start_quiz_stored|done].
  - intros d0 uid es quiz now a quiz' Hq Hq'.
    destruct (app_reachable_answer d0 uid es quiz now a Hq)
      as [(_ & quiz1 & Hst & _ & Hqs & _)|[_ Hraise]].
    + rewrite Hst in Hq'. by injection Hq' as <-.
    + rewrite Hraise in Hq'. simpl in Hq'. rewrite Hq in Hq'.
      by injection Hq' as <-.
  - intros d0 es uid d now a d' Hs Hs'.
    destruct (bot_reachable_answer d0 es uid d now a Hs)
      as [(_ & d1 & _ & _ & Hqs & _ & [Hst|[Hst _]])|[_ Hraise]].
    + rewrite Hst in Hs'. by injection Hs' as <-.
    + by rewrite Hst in Hs'.
    + rewrite Hraise in Hs'. simpl in Hs'. rewrite Hs in Hs'.
      by injection Hs' as <-.
Qed.

Lemma question_order_by_front_end_witness :
  Permutation
    (App.fetch_questions (fun i => - Z.of_nat i) (Some "full") sample_db)
    (app_pool sample_db (Some "full"))
  /\ app_fetches sample_db (Some "full")
       (reverse (app_pool sample_db (Some "full")))
  /\ Sorted (fun a b => q_id a <= q_id b) (Bot.get_questions (Some "A1") sample_db)
  /\ app_fetches sample_db (Some "A1") (reverse (pool sample_db (Some "A1")))
  /\ (exists q quiz,
        App.start_quiz 50 (fun _ => 0) (Some "A2") (App.logged_in 1 sample_db)
        = (App.set_current_quiz quiz (App.logged_in 1 sample_db),
           Ok (App.Started (len (App.questions quiz)) q 1))
        /\ App.questions quiz
           = App.fetch_questions (fun _ => 0) (Some "A2")
               (App.db (App.logged_in 1 sample_db))
        /\ App.current quiz = 0)
  /\ (exists d,
        Bot.session 7 (fst (Bot.start_quiz 7 100 "B1" (Bot.boot sample_db)))
        = Some d
        /\ Bot.questions d = bot_selected "B1" sample_db)
  /\ App.questions app_a2_quiz
     = App.fetch_questions (fun _ => 0) (Some "A2") sample_db
  /\ Bot.questions bot_b1_data = bot_selected "B1" sample_db.
Proof.
  pose proof question_order_by_front_end
    as (Hperm & Hany & _ & _ & Hrand & _ & Hbot & _ & Hstart & Hbstart
        & Hfixed & Hbfixed).
  split; [apply Hperm|]. split; [apply Hany, reverse_Permutation|].
  split; [by apply Hbot|].
  split; [apply Hrand; [by split|apply reverse_Permutation]|].
  split; [apply (Hstart 1); [reflexivity|by vm_compute]|].
  split; [eapply Hbstart; reflexivity|]. split.
  - refine (Hfixed sample_db 1 [App.StartQuiz 50 (fun _ => 0) (Some "A2")]
              {| App.questions :=
                   App.fetch_questions (fun _ => 0) (Some "A2") sample_db;
                 App.current := 0; App.score := 0; App.wrong_answers := [];
                 App.start_time := 50; App.level := Some "A2" |}
              51 (Some 0) app_a2_quiz _ _); vm_compute; reflexivity.
  - refine (Hbfixed sample_db [Bot.StartQuiz 7 100 "B1"] 7
              (bot_fresh 7 100 "B1" (bot_selected "B1" sample_db))
              101 1 bot_b1_data _ _); vm_compute; reflexivity.
Defined.

(** * Further properties of the code *)

(** ** Levels and percentages on exact integers *)

Lemma small_quizzes_all_spec (P : Z -> Z -> bool) (n : nat) :
  small_quizzes_all P n = true ->
  forall score total,
    0 < total <= Z.of_nat n -> 0 <= score <= total -> P score total = true.
Proof.
  intros Hall score total Ht Hs. unfold small_quizzes_all in Hall.
  rewrite List.forallb_forall in Hall.
  specialize (Hall (Z.to_nat total - 1)%nat).
  rewrite List.forallb_forall in Hall.
  specialize (Hall ltac:(apply List.in_seq; lia) (Z.to_nat score)
                   ltac:(apply List.in_seq; lia)).
  replace (Z.of_nat (S (Z.to_nat total - 1))) with total in Hall by lia.
  by replace (Z.of_nat (Z.to_nat score)) with score in Hall by lia.
Qed.

(** On every quiz of up to 200 questions the level determined from the
    binary64 percentage is the level of the exact thresholds
    [100 * score >= 90 * total], and so on: no score is put in a wrong
    band by rounding. *)
Theorem determined_level_exact (score total : Z) :
  0 < total <= 200 -> 0 <= score <= total ->
  determine_level score total = Ok (level_exact score total).
Proof.
  intros Ht Hs.
  pose proof (small_quizzes_all_spec
                (fun s t => match determine_level s t with
                            | Ok l => String.eqb l (level_exact s t)
                            | Raise _ => false
                            end) 200 level_rule_exact_small score total
                ltac:(lia) Hs) as H.
  simpl in H. destruct (determine_level score total) as [l|]; [|done].
  apply String.eqb_eq in H. by subst.
Qed.

Lemma determined_level_exact_witness :
  determine_level 45 75 = Ok (level_exact 45 75).
Proof. apply determined_level_exact; lia. Defined.

Lemma percentages_close_small : small_quizzes_all percentages_close 200 = true.
Proof. vm_compute. reflexivity. Qed.

(** On every quiz of up to 200 questions the certificate and the
    leaderboard show the exact percentage rounded down, while the
    closing message and the list of results, which multiply after
    dividing, show that or one less; for 29 of 50 they show 57 where
    certificate and leaderboard show 58. *)
Theorem displayed_percentages (score total : Z) :
  0 < total <= 200 -> 0 <= score <= total ->
  certificate_percentage score total = Some (100 * score / total)
  /\ leaderboard_percentage score total = Some (100 * score / total)
  /\ (shown_percentage score total = Some (100 * score / total)
      \/ shown_percentage score total = Some (100 * score / total - 1))
  /\ shown_percentage 29 50 = Some 57
  /\ certificate_percentage 29 50 = Some 58.
Proof.
  intros Ht Hs.
  pose proof (small_quizzes_all_spec percentages_close 200
                percentages_close_small score total ltac:(lia) Hs) as H.
  unfold percentages_close in H. cbn zeta in H.
  apply andb_prop in H as [H Hshown]. apply andb_prop in H as [Hcert Hlead].
  apply bool_decide_eq_true in Hcert, Hlead.
  apply orb_prop in Hshown.
  split; [done|]. split; [done|]. split.
  - destruct Hshown as [H|H]; apply bool_decide_eq_true in H; [by left|by right].
  - split; vm_compute; reflexivity.
Qed.

Lemma displayed_percentages_witness :
  certificate_percentage 7 15 = Some (100 * 7 / 15).
Proof. apply (displayed_percentages 7 15); lia. Defined.


(** ** The answer keyboard *)

Lemma answer_rows_indices (k : nat) (opts : list string) :
  (row ← imap (fun i option => [AnswerButton option (Z.of_nat (k + i))]) opts;
   b ← row; match b with AnswerButton _ i => [i] | _ => [] end)
  = Z.of_nat <$> seq k (length opts).
Proof.
  revert k. induction opts as [|o opts IH]; intros k; [reflexivity|].
  cbn [length seq]. rewrite fmap_cons, <- (IH (S k)), imap_cons.
  rewrite bind_cons. simpl. rewrite Nat.add_0_r. f_equal.
  f_equal. apply imap_ext. intros i x _. simpl. do 2 f_equal. lia.
Qed.

Lemma answers_offered_indices q has_hint :
  answers_offered q has_hint = Z.of_nat <$> seq 0 (length (options q)).
Proof.
  unfold answers_offered, get_answer_keyboard. rewrite bind_app.
  rewrite (answer_rows_indices 0). simpl.
  destruct has_hint; simpl; by rewrite app_nil_r.
Qed.

Lemma answers_offered_range q has_hint i :
  i ∈ answers_offered q has_hint <-> 0 <= i < len (options q).
Proof.
  rewrite answers_offered_indices, list_elem_of_fmap. unfold len. split.
  - intros (n & -> & Hn). apply elem_of_seq in Hn. lia.
  - intros Hi. exists (Z.to_nat i). split; [lia|]. apply elem_of_seq. lia.
Qed.

Lemma getitem_minus_one {A} (l : list A) (x : A) :
  last l = Some x -> getitem l (-1) = Ok x.
Proof.
  intros Hlast. rewrite last_lookup in Hlast.
  pose proof (lookup_lt_Some _ _ _ Hlast) as Hlt.
  unfold getitem. simpl. unfold len.
  destruct (-1 + Z.of_nat (length l) <? 0) eqn:E1; [lia|].
  destruct (Z.of_nat (length l) <=? -1 + Z.of_nat (length l)) eqn:E2; [lia|].
  simpl. replace (Z.to_nat (-1 + Z.of_nat (length l))) with (pred (length l)) by lia.
  by rewrite Hlast.
Qed.

(** The keyboard of a question offers an answer that is counted as
    right exactly when the stored correct index lies within the
    options.  With the index -1, which [import_questions_from_csv]
    stores for a [correct] column of 0, every button costs a life,
    while the closing message names the last option as the correct
    one. *)
Theorem keyboard_offers_right_answer d q has_hint :
  getitem (Bot.questions d) (Bot.current d) = Ok q ->
  ((exists i d', i ∈ answers_offered q has_hint
                 /\ Bot.answer_step d i = Ok d'
                 /\ Bot.score d' = Bot.score d + 1)
   <-> 0 <= correct_answer q < len (options q))
  /\ (forall i, i ∈ answers_offered q has_hint ->
        i <> correct_answer q ->
        exists d', Bot.answer_step d i = Ok d'
                   /\ Bot.score d' = Bot.score d
                   /\ Bot.lives d' = Bot.lives d - 1)
  /\ (correct_answer q = -1 ->
      (forall i, i ∈ answers_offered q has_hint -> i <> correct_answer q)
      /\ forall o, last (options q) = Some o -> Bot.correct_option q = Ok o).
Proof.
  intros Hq. split; [|split].
  - split.
    + intros (i & d' & Hi & Hstep & Hsc). apply answers_offered_range in Hi.
      unfold Bot.answer_step in Hstep. rewrite Hq in Hstep. simpl in Hstep.
      destruct (decide (i = correct_answer q)) as [<-|Hne]; [done|].
      simplify_eq. simpl in Hsc. lia.
    + intros Hc. exists (correct_answer q). eexists.
      split; [by apply answers_offered_range|].
      unfold Bot.answer_step. rewrite Hq. simpl.
      rewrite decide_True by done. by split.
  - intros i _ Hne. eexists. unfold Bot.answer_step. rewrite Hq. simpl.
    rewrite decide_False by done. by split.
  - intros Hc. split.
    + intros i Hi. apply answers_offered_range in Hi. lia.
    + intros o Hlast. unfold Bot.correct_option. rewrite Hc.
      by apply getitem_minus_one.
Qed.

Lemma keyboard_offers_right_answer_witness :
  (exists i d', i ∈ answers_offered
                      {| q_id := 9; question_text := "Q"; options := ["a"; "b"];
                         correct_answer := 1; q_level := "A1" |} true
                 /\ Bot.answer_step
                      (bot_fresh 7 100 "A1"
                         [{| q_id := 9; question_text := "Q"; options := ["a"; "b"];
                             correct_answer := 1; q_level := "A1" |}]) i = Ok d'
                 /\ Bot.score d' = 0 + 1)
  /\ Bot.correct_option {| q_id := 9; question_text := "Q"; options := ["a"; "b"];
                           correct_answer := -1; q_level := "A1" |} = Ok "b".
Proof.
  split.
  - apply (proj1 (keyboard_offers_right_answer
                    (bot_fresh 7 100 "A1"
                       [{| q_id := 9; question_text := "Q"; options := ["a"; "b"];
                           correct_answer := 1; q_level := "A1" |}])
                    _ true eq_refl)).
    unfold len. simpl. lia.
  - apply (proj2 (proj2 (proj2 (keyboard_offers_right_answer
                    (bot_fresh 7 100 "A1"
                       [{| q_id := 9; question_text := "Q"; options := ["a"; "b"];
                           correct_answer := -1; q_level := "A1" |}])
                    _ true eq_refl)) eq_refl)).
    reflexivity.
Defined.


(** ** The results table *)

Lemma bot_finished_results uid now d' p e w :
  t_results (Bot.db (fst (bot_finished uid now d' p e w)))
  = app (t_results (Bot.db w))
        [{| r_user_id := uid; r_level := level_of_percentage p;
            r_score := Bot.score d';
            r_total_questions := len (Bot.questions d');
            r_wrong_answers :=
              match Bot.wrong_answers d' with
              | [] => WNull
              | _ => WRows (Bot.wrong_answers d')
              end;
            r_time_taken := now - Bot.start_time d' |}].
Proof. unfold bot_finished. cbn zeta. by destruct (Bot.wrong_answers_text _). Qed.

Lemma bot_results_claim uid today w :
  t_results (Bot.db (fst (Bot.claim_daily_bonus uid today w)))
  = t_results (Bot.db w).
Proof.
  rewrite claim_daily_bonus_db. unfold Bot.get_daily_bonus.
  by destruct (t_daily_bonus (Bot.db w) !! (uid, today)).
Qed.

Lemma bot_results_hint uid w :
  t_results (Bot.db (fst (Bot.use_hint_callback uid w))) = t_results (Bot.db w).
Proof.
  unfold Bot.use_hint_callback. destruct (0 <? _); [|done]. simpl.
  unfold Bot.use_hint. destruct (t_user_hints (Bot.db w) !! uid) as [n|]; [|done].
  by destruct (0 <? n).
Qed.

Lemma bot_results_start uid now lv w :
  Bot.db (fst (Bot.start_quiz uid now lv w)) = Bot.db w.
Proof.
  unfold Bot.start_quiz. destruct (if decide (lv = "full") then _ else _); [done|].
  destruct (getitem _ _); [|done]. by rewrite bot_ask_question_world.
Qed.

Ltac no_new_row :=
  exists []; rewrite ?app_nil_r;
  split; [done|split; [constructor|simpl; lia]].

(** One event of the bot appends at most one row, and a displayable one. *)
Lemma bot_results_handle e w :
  bot_inv w ->
  exists new,
    t_results (Bot.db (fst (Bot.handle e w))) = app (t_results (Bot.db w)) new
    /\ Forall row_ok new /\ (length new <= 1)%nat.
Proof.
  intros Hinv. destruct e as [uid now lv|uid now a|uid today|uid]; simpl.
  - rewrite bot_results_start. no_new_row.
  - destruct (Bot.session uid w) as [d|] eqn:Hs;
      [|rewrite bot_handle_answer_idle by done; no_new_row].
    pose proof (Hinv _ _ Hs) as Hd.
    assert (H0 : 0 <= Bot.current d).
    { destruct Hd as (? & ? & ? & ?).
      pose proof (len_nonneg (Bot.wrong_answers d)). lia. }
    destruct (decide (Bot.current d < len (Bot.questions d))) as [Hlt|Hge];
      [|rewrite (bot_handle_answer_past_end uid now a w d) by (done || lia);
        no_new_row].
    destruct (bot_handle_answer uid now a w d Hs) as (d' & Hstep & Hcases); [lia|].
    destruct (bot_answer_step_inv d a d' Hd Hstep)
      as ((Hs0 & Hsum & Hle & _) & _ & Hc & Hqs & _).
    pose proof (len_nonneg (Bot.wrong_answers d')) as Hw.
    assert (Hrow : forall r, r_score r = Bot.score d' ->
                             r_total_questions r = len (Bot.questions d') ->
                             row_ok r).
    { intros r Hr1 Hr2. unfold row_ok. rewrite Hr1, Hr2. lia. }
    destruct Hcases as [(_ & p & _ & ->)|[(_ & _ & p & _ & ->)|(_ & _ & q' & _ & ->)]].
    + eexists. split; [apply bot_finished_results|].
      split; [|simpl; lia]. constructor; [by apply Hrow|constructor].
    + eexists. split; [apply bot_finished_results|].
      split; [|simpl; lia]. constructor; [by apply Hrow|constructor].
    + no_new_row.
  - rewrite bot_results_claim. no_new_row.
  - rewrite bot_results_hint. no_new_row.
Qed.

Lemma app_results_handle e w :
  app_inv w ->
  exists new,
    t_results (App.db (fst (App.handle e w))) = app (t_results (App.db w)) new
    /\ Forall row_ok new /\ (length new <= 1)%nat.
Proof.
  intros Hinv. destruct e as [now random lv|now a]; simpl.
  - assert (Hdb : App.db (fst (App.start_quiz now random lv w)) = App.db w).
    { unfold App.start_quiz.
      destruct (App.user_id (App.session w)); [|done]. by destruct (getitem _ _). }
    rewrite Hdb. no_new_row.
  - destruct (App.current_quiz (App.session w)) as [quiz|] eqn:Hq;
      [|rewrite app_submit_answer_no_quiz by done; no_new_row].
    destruct (App.user_id (App.session w)) as [uid|] eqn:Hu;
      [|unfold App.submit_answer; rewrite Hu; no_new_row].
    destruct (Hinv _ Hq) as (H0 & Hsum & Hle).
    pose proof (len_nonneg (App.wrong_answers quiz)) as Hw.
    destruct (decide (App.current quiz < len (App.questions quiz))) as [Hlt|Hge];
      [|rewrite (app_submit_answer_past_end now a w uid quiz) by (done || lia);
        no_new_row].
    destruct (app_submit_answer now a w uid quiz Hu Hq)
      as (q & quiz1 & _ & Hqs & Hc & _ & _ & Hcase & _ & Hres); [lia|].
    assert (Hsc : 0 <= App.score quiz1 <= len (App.questions quiz1)
                  /\ 1 <= len (App.questions quiz1)).
    { pose proof (len_nonneg (App.wrong_answers quiz1)).
      destruct Hcase as [(_ & Hsc & Hwr)|(_ & Hsc & Hwr)];
        rewrite Hsc, Hqs; rewrite ?Hwr, ?len_snoc in *; lia. }
    destruct Hres as [(_ & p & _ & ->)|(_ & next_q & _ & ->)].
    + eexists. split; [reflexivity|]. split; [|simpl; lia].
      constructor; [|constructor]. unfold row_ok. simpl. lia.
    + no_new_row.
Qed.

(** In both front-ends the results table only grows, whatever the
    calls, and every row written can be displayed: its total is at
    least 1 and its score between 0 and the total, so that the
    divisions of [show_results] and of the leaderboards are defined on
    it. *)
Theorem results_append_only :
  (forall d0 es,
     exists new,
       t_results (Bot.db (Bot.run es (Bot.boot d0))) = app (t_results d0) new
       /\ Forall row_ok new)
  /\ (forall d0 uid es,
        exists new,
          t_results (App.db (App.run es (App.logged_in uid d0)))
          = app (t_results d0) new
          /\ Forall row_ok new).
Proof.
  split.
  - intros d0 es.
    assert (H : forall w, bot_inv w ->
              exists new, t_results (Bot.db (Bot.run es w))
                          = app (t_results (Bot.db w)) new /\ Forall row_ok new).
    { induction es as [|e es IH]; intros w Hinv.
      - exists []. by rewrite app_nil_r.
      - destruct (bot_results_handle e w Hinv) as (new1 & Hr1 & Hok1 & _).
        destruct (IH _ (bot_inv_handle e w Hinv)) as (new2 & Hr2 & Hok2).
        exists (app new1 new2). simpl. rewrite Hr2, Hr1, app_assoc.
        split; [done|]. by apply Forall_app. }
    apply (H (Bot.boot d0)), bot_inv_boot.
  - intros d0 uid es.
    assert (H : forall w, app_inv w ->
              exists new, t_results (App.db (App.run es w))
                          = app (t_results (App.db w)) new /\ Forall row_ok new).
    { induction es as [|e es IH]; intros w Hinv.
      - exists []. by rewrite app_nil_r.
      - destruct (app_results_handle e w Hinv) as (new1 & Hr1 & Hok1 & _).
        destruct (IH _ (app_inv_handle e w Hinv)) as (new2 & Hr2 & Hok2).
        exists (app new1 new2). simpl. rewrite Hr2, Hr1, app_assoc.
        split; [done|]. by apply Forall_app. }
    apply (H (App.logged_in uid d0)). by intros q.
Qed.


Lemma app_pending_handle e w :
  app_inv w ->
  (length (t_results (App.db (fst (App.handle e w))))
   + app_pending (fst (App.handle e w))
   <= length (t_results (App.db w)) + app_pending w + app_starts [e])%nat.
Proof.
  intros Hinv. destruct e as [now random lv|now a]; simpl.
  - assert (Hdb : App.db (fst (App.start_quiz now random lv w)) = App.db w).
    { unfold App.start_quiz.
      destruct (App.user_id (App.session w)); [|done]. by destruct (getitem _ _). }
    rewrite Hdb. unfold app_pending at 1.
    destruct (App.current_quiz _) as [q|]; [|lia]. destruct (_ <? _); lia.
  - destruct (App.current_quiz (App.session w)) as [quiz|] eqn:Hq;
      [|rewrite app_submit_answer_no_quiz by done; lia].
    destruct (App.user_id (App.session w)) as [uid|] eqn:Hu;
      [|unfold App.submit_answer; rewrite Hu; simpl; lia].
    destruct (Hinv _ Hq) as (H0 & Hsum & Hle).
    pose proof (len_nonneg (App.wrong_answers quiz)) as Hw.
    destruct (decide (App.current quiz < len (App.questions quiz))) as [Hlt|Hge];
      [|rewrite (app_submit_answer_past_end now a w uid quiz) by (done || lia);
        simpl; lia].
    destruct (app_submit_answer now a w uid quiz Hu Hq)
      as (q & quiz1 & _ & Hqs & Hc & _ & _ & _ & Hstored & Hres); [lia|].
    unfold app_pending. rewrite Hstored, Hq.
    destruct (App.current quiz <? len (App.questions quiz)) eqn:E; [|lia].
    destruct Hres as [(Hfin & p & _ & Heq)|(Hnot & next_q & _ & Heq)].
    + rewrite Heq. simpl. rewrite length_app. simpl.
      destruct (App.current quiz1 <? len (App.questions quiz1)) eqn:E1; lia.
    + rewrite Heq. simpl.
      destruct (App.current quiz1 <? len (App.questions quiz1)) eqn:E1; lia.
Qed.

Lemma app_handle_raise_db e w err :
  snd (App.handle e w) = Raise err ->
  App.db (fst (App.handle e w)) = App.db w.
Proof.
  destruct e as [now random lv|now a]; simpl.
  - unfold App.start_quiz. destruct (App.user_id (App.session w)); [|done].
    by destruct (getitem _ _).
  - unfold App.submit_answer. destruct (App.user_id (App.session w)); [|done].
    destruct (App.current_quiz (App.session w)); [|done].
    destruct (getitem _ _); [|done]. cbn zeta.
    destruct (_ <=? _).
    + by destruct (percentage _ _).
    + by destruct (getitem _ _).
Qed.

(** A request that raises under [debug=True] leaves the client and the
    database as they were. *)
Lemma flask_serve_debug_raise e w err :
  snd (App.handle e w) = Raise err ->
  Flask.serve true e w = (w, Raise err).
Proof.
  intros Hr. unfold Flask.serve. rewrite Hr.
  rewrite (app_handle_raise_db e w err Hr). by destruct w.
Qed.

Lemma flask_serve_plain e w : Flask.serve false e w = App.handle e w.
Proof.
  unfold Flask.serve. destruct (App.handle e w) as [w' [r|err]]; done.
Qed.

Lemma flask_serve_cases debug e w :
  Flask.serve debug e w = App.handle e w
  \/ (exists err, snd (App.handle e w) = Raise err
                  /\ Flask.serve debug e w = (w, Raise err)).
Proof.
  destruct debug; [|left; apply flask_serve_plain].
  destruct (snd (App.handle e w)) as [r|err] eqn:Hr.
  - left. unfold Flask.serve. by rewrite Hr.
  - right. exists err. split; [done|]. by apply flask_serve_debug_raise.
Qed.

Lemma app_inv_serve debug e w : app_inv w -> app_inv (fst (Flask.serve debug e w)).
Proof.
  intros Hinv. destruct (flask_serve_cases debug e w) as [->|(err & _ & ->)];
    [by apply app_inv_handle|done].
Qed.

Lemma app_pending_le w : (app_pending w <= 1)%nat.
Proof.
  unfold app_pending. destruct (App.current_quiz _); [|lia].
  destruct (_ <? _); lia.
Qed.

Lemma app_pending_serve debug e w :
  app_inv w ->
  (length (t_results (App.db (fst (Flask.serve debug e w))))
   + app_pending (fst (Flask.serve debug e w))
   + app_abandoned debug [e] w
   <= length (t_results (App.db w)) + app_pending w + app_starts [e])%nat.
Proof.
  intros Hinv. cbn [app_abandoned]. rewrite Nat.add_0_r.
  destruct (flask_serve_cases debug e w) as [Hs|(err & _ & Hs)]; rewrite !Hs;
    [|destruct e; simpl; lia].
  pose proof (app_pending_handle e w Hinv) as Hstep.
  destruct (snd (App.handle e w)) as [[]|] eqn:Hr; try lia.
  destruct e as [now random lv|now a]; simpl in *.
  - assert (Hdb : App.db (fst (App.start_quiz now random lv w)) = App.db w).
    { unfold App.start_quiz.
      destruct (App.user_id (App.session w)); [|done]. by destruct (getitem _ _). }
    rewrite Hdb.
    pose proof (app_pending_le (fst (App.start_quiz now random lv w))).
    pose proof (app_pending_le w). lia.
  - exfalso. revert Hr. unfold App.submit_answer.
    destruct (App.user_id (App.session w)); [|done].
    destruct (App.current_quiz (App.session w)); [|done].
    destruct (getitem _ _); [|done]. cbn zeta.
    destruct (_ <=? _).
    + by destruct (percentage _ _).
    + by destruct (getitem _ _).
Qed.

(** A web client that sends each request with the session of the
    response before it gets at most one result row per quiz it starts,
    however Flask serves failed requests: answers posted after the
    last question of a quiz, or without a quiz, record nothing, and a
    quiz started over a running one takes the place of the one given
    up, which never gets a row.  Nothing on the server enforces this:
    the session is held by the client, and the last answer of a quiz,
    sent once more with the session as it was before it, writes a
    second row for the same quiz. *)
Theorem web_one_result_per_start :
  (forall debug d0 uid es,
     (length (t_results (App.db (Flask.run debug es (App.logged_in uid d0))))
      + app_pending (Flask.run debug es (App.logged_in uid d0))
      + app_abandoned debug es (App.logged_in uid d0)
      <= length (t_results d0) + app_starts es)%nat)
  /\ (forall w now a w1 c o now',
        App.submit_answer now a w = (w1, Ok (App.Done c o)) ->
        exists w2 o',
          App.submit_answer now' a
            {| App.db := App.db w1; App.session := App.session w |}
          = (w2, Ok (App.Done c o'))
          /\ length (t_results (App.db w2))
             = (length (t_results (App.db w)) + 2)%nat).
Proof.
  split.
  - intros debug d0 uid es.
    assert (H : forall w, app_inv w ->
              (length (t_results (App.db (Flask.run debug es w)))
               + app_pending (Flask.run debug es w) + app_abandoned debug es w
               <= length (t_results (App.db w)) + app_pending w
                  + app_starts es)%nat).
    { induction es as [|e es IH]; intros w Hinv; [simpl; lia|].
      pose proof (app_pending_serve debug e w Hinv) as Hstep.
      pose proof (IH _ (app_inv_serve debug e w Hinv)) as Hrest.
      change (Flask.run debug (e :: es) w)
        with (Flask.run debug es (fst (Flask.serve debug e w))).
      assert (Hstarts : app_starts (e :: es)
                        = (app_starts [e] + app_starts es)%nat)
        by (by destruct e).
      cbn [app_abandoned] in *. lia. }
    specialize (H (App.logged_in uid d0) ltac:(by intros q)).
    unfold app_pending at 2 in H. simpl in H. lia.
  - intros w now a w1 c o now' Hdone.
    unfold App.submit_answer in Hdone |- *. simpl.
    destruct (App.user_id (App.session w)) as [uid|]; [|done].
    destruct (App.current_quiz (App.session w)) as [quiz|]; [|done].
    destruct (getitem (App.questions quiz) (App.current quiz))
      as [q|]; [|done].
    cbn zeta in Hdone |- *. simpl in Hdone |- *.
    destruct (bool_decide (a = Some (correct_answer q))); simpl in Hdone |- *.
    + destruct (len (App.questions quiz) <=? App.current quiz + 1); simpl in *.
      * destruct (percentage _ _) as [p|]; [|done].
        injection Hdone as <- <-. eexists _, _. split; [reflexivity|].
        simpl. rewrite !length_app. simpl. lia.
      * by destruct (getitem _ _).
    + destruct (len (App.questions quiz) <=? App.current quiz + 1); simpl in *.
      * destruct (percentage _ _) as [p|]; [|done].
        injection Hdone as <- <-. eexists _, _. split; [reflexivity|].
        simpl. rewrite !length_app. simpl. lia.
      * by destruct (getitem _ _).
Qed.

Lemma web_one_result_per_start_witness :
  exists w2 o',
    App.submit_answer 70 (Some 0)
      {| App.db := App.db (fst (App.submit_answer 60 (Some 0) app_a2_last));
         App.session := App.session app_a2_last |}
    = (w2, Ok (App.Done true o'))
    /\ length (t_results (App.db w2))
       = (length (t_results (App.db app_a2_last)) + 2)%nat.
Proof.
  refine (proj2 web_one_result_per_start app_a2_last 60 (Some 0)
            (fst (App.submit_answer 60 (Some 0) app_a2_last)) true
            {| o_score := 2; o_total := 2;
               o_percentage := 100%float; o_level := "C1";
               o_time_taken := 10 |} 70 _).
  vm_compute. reflexivity.
Defined.

(** ** A closing message that cannot be built *)

(** When an answer ends a quiz of the bot and the closing message
    cannot be built, because a question answered wrongly has its
    correct index outside its options, the result row is written all
    the same, the handler ends in the exception, and the session stays
    in the storage with its updated data. *)
Theorem result_saved_when_closing_message_fails d0 es uid d now a d' e :
  Bot.session uid (Bot.run es (Bot.boot d0)) = Some d ->
  Bot.answer_step d a = Ok d' ->
  Bot.lives d' <= 0 \/ len (Bot.questions d') <= Bot.current d' ->
  Bot.wrong_answers_text (take 5 (Bot.wrong_answers d')) = Raise e ->
  exists w' row,
    Bot.handle_answer uid now a (Bot.run es (Bot.boot d0)) = (w', Raise e)
    /\ t_results (Bot.db w')
       = app (t_results (Bot.db (Bot.run es (Bot.boot d0)))) [row]
    /\ r_user_id row = uid
    /\ r_score row = Bot.score d'
    /\ r_total_questions row = len (Bot.questions d')
    /\ Bot.session uid w' = Some d'.
Proof.
  intros Hs Hstep Hend Htext.
  pose proof (bot_reachable_inv _ _ _ _ Hs) as Hd.
  destruct (bot_answer_step_inv d a d' Hd Hstep) as (Hd' & Hlt & Hc & Hqs & _).
  assert (H0 : 0 <= Bot.current d).
  { destruct Hd as (? & ? & ? & ?).
    pose proof (len_nonneg (Bot.wrong_answers d)). lia. }
  destruct (bot_handle_answer uid now a _ d Hs) as (d1 & Hstep1 & Hcases); [lia|].
  rewrite Hstep in Hstep1. injection Hstep1 as <-.
  assert (Hsome : Bot.session uid (Bot.run es (Bot.boot d0)) <> None)
    by (by rewrite Hs).
  assert (Hfin : forall p early,
    exists w' row,
      bot_finished uid now d' p early (Bot.run es (Bot.boot d0)) = (w', Raise e)
      /\ t_results (Bot.db w')
         = app (t_results (Bot.db (Bot.run es (Bot.boot d0)))) [row]
      /\ r_user_id row = uid
      /\ r_score row = Bot.score d'
      /\ r_total_questions row = len (Bot.questions d')
      /\ Bot.session uid w' = Some d').
  { intros p early.
    pose proof (bot_finished_results uid now d' p early (Bot.run es (Bot.boot d0)))
      as Hres.
    pose proof (bot_finished_session uid uid now d' p early _ Hsome) as Hses.
    rewrite decide_True in Hses by done. rewrite Htext in Hses.
    unfold bot_finished in *. cbn zeta in *. rewrite Htext in *.
    eexists _, _. split; [reflexivity|]. split; [exact Hres|]. done. }
  destruct Hcases as [(_ & p & _ & ->)|[(_ & _ & p & _ & ->)|(Hl & Hcur & _)]];
    [apply Hfin|apply Hfin|lia].
Qed.

Lemma result_saved_when_closing_message_fails_witness :
  exists w' row,
    Bot.handle_answer 7 101 0 (Bot.run [Bot.StartQuiz 7 100 "A1"] (Bot.boot broken_db))
    = (w', Raise IndexError)
    /\ t_results (Bot.db w') = [row]
    /\ r_score row = 0.
Proof.
  destruct (result_saved_when_closing_message_fails broken_db
              [Bot.StartQuiz 7 100 "A1"] 7
              (bot_fresh 7 100 "A1" (bot_selected "A1" broken_db)) 101 0
              {| Bot.questions := bot_selected "A1" broken_db; Bot.current := 1;
                 Bot.score := 0; Bot.level := "A1"; Bot.lives := 2;
                 Bot.wrong_answers := bot_selected "A1" broken_db;
                 Bot.start_time := 100; Bot.user_id := 7 |} IndexError)
    as (w' & row & Hh & Hres & _ & Hsc & _).
  - vm_compute. reflexivity.
  - vm_compute. reflexivity.
  - right. vm_compute. discriminate.
  - vm_compute. reflexivity.
  - exists w', row. split; [exact Hh|]. split; [exact Hres|exact Hsc].
Defined.


(** ** Hints over several days *)

#[local] Set Warnings "-clear-no-such-hyp".

Lemma get_daily_bonus_fresh_table today uid d :
  t_daily_bonus d !! (uid, today) = None ->
  t_daily_bonus (fst (Bot.get_daily_bonus today uid d))
  = <[(uid, today) := 1]> (t_daily_bonus d).
Proof. intros Hnone. unfold Bot.get_daily_bonus. by rewrite Hnone. Qed.

Lemma daily_bonus_dates_seen uid dates : forall (w : Bot.World) (seen : gset string),
  (forall d, is_Some (t_daily_bonus (Bot.db w) !! (uid, d)) <-> d ∈ seen) ->
  Bot.get_user_hints uid (Bot.db (Bot.run (Bot.ClaimBonus uid <$> dates) w))
  = Bot.get_user_hints uid (Bot.db w)
    + Z.of_nat (size (list_to_set dates ∖ seen : gset string)).
Proof.
  induction dates as [|d dates IH]; intros w seen Hseen.
  - simpl. replace (∅ ∖ seen) with (∅ : gset string) by set_solver.
    rewrite size_empty. lia.
  - change (Bot.run (Bot.ClaimBonus uid <$> d :: dates) w)
      with (Bot.run (Bot.ClaimBonus uid <$> dates)
                    (fst (Bot.claim_daily_bonus uid d w))).
    destruct (t_daily_bonus (Bot.db w) !! (uid, d)) as [c|] eqn:Hrow.
    + assert (Hin : d ∈ seen) by (apply Hseen; by rewrite Hrow).
      assert (Hw : fst (Bot.claim_daily_bonus uid d w) = w).
      { unfold Bot.claim_daily_bonus.
        rewrite (get_daily_bonus_claimed _ _ _ _ Hrow).
        destruct (decide (c = 0)); simpl; apply set_db_same. }
      rewrite Hw, (IH w seen Hseen). do 3 f_equal.
      rewrite list_to_set_cons. set_solver.
    + assert (Hnin : d ∉ seen).
      { intros Hin. apply Hseen in Hin. rewrite Hrow in Hin. by destruct Hin. }
      destruct (get_daily_bonus_fresh d uid (Bot.db w) Hrow) as (_ & Hb & _).
      rewrite (IH _ ({[d]} ∪ seen)).
      * rewrite claim_daily_bonus_db, Hb.
        rewrite list_to_set_cons.
        assert (Hsize : size (({[d]} ∪ list_to_set dates) ∖ seen : gset string)
                        = S (size (list_to_set dates ∖ ({[d]} ∪ seen) : gset string))).
        { replace (({[d]} ∪ list_to_set dates) ∖ seen : gset string)
            with ({[d]} ∪ (list_to_set dates ∖ ({[d]} ∪ seen)) : gset string).
          - rewrite size_union; [|set_solver]. by rewrite size_singleton.
          - apply set_eq. intros x. destruct (decide (x = d)); set_solver. }
        rewrite Hsize. lia.
      * intros d'. rewrite claim_daily_bonus_db, get_daily_bonus_fresh_table by done.
        destruct (decide (d = d')) as [<-|Hne].
        -- rewrite lookup_insert_eq. split; [set_solver|by eexists].
        -- rewrite lookup_insert_ne by congruence. rewrite Hseen. set_solver.
Qed.

(** A user who has claimed no bonus yet and then claims on a list of
    dates, in any order and with any repetitions, ends with as many
    more hints as there are distinct dates in the list. *)
Theorem daily_bonus_per_date w uid dates :
  (forall d, t_daily_bonus (Bot.db w) !! (uid, d) = None) ->
  Bot.get_user_hints uid (Bot.db (Bot.run (Bot.ClaimBonus uid <$> dates) w))
  = Bot.get_user_hints uid (Bot.db w)
    + Z.of_nat (size (list_to_set dates : gset string)).
Proof.
  intros Hnone. rewrite (daily_bonus_dates_seen uid dates w ∅).
  - do 3 f_equal. set_solver.
  - intros d. rewrite Hnone. split; [by intros []|set_solver].
Qed.

Lemma daily_bonus_per_date_witness :
  Bot.get_user_hints 7
    (Bot.db (Bot.run (Bot.ClaimBonus 7 <$> ["2024-05-01"; "2024-05-02"; "2024-05-01"])
                     (Bot.boot sample_db)))
  = Bot.get_user_hints 7 (Bot.db (Bot.boot sample_db))
    + Z.of_nat (size (list_to_set ["2024-05-01"; "2024-05-02"; "2024-05-01"]
                      : gset string)).
Proof.
  apply daily_bonus_per_date. intros d. reflexivity.
Defined.

Lemma use_hint_callback_balance uid w :
  Bot.get_user_hints uid (Bot.db (fst (Bot.use_hint_callback uid w)))
  = if 0 <? Bot.get_user_hints uid (Bot.db w)
    then Bot.get_user_hints uid (Bot.db w) - 1
    else Bot.get_user_hints uid (Bot.db w).
Proof.
  unfold Bot.use_hint_callback.
  destruct (0 <? Bot.get_user_hints uid (Bot.db w)) eqn:Hpos; [|done].
  simpl. rewrite use_hint_balance, decide_True by done. by rewrite Hpos.
Qed.

(** Pressing the hint button [n] times takes [min n balance] hints:
    from a balance that is not negative, the balance left is
    [max 0 (balance - n)], and exactly the first [min n balance]
    presses are answered with a hint. *)
Theorem use_hint_repeated (n : nat) w uid :
  0 <= Bot.get_user_hints uid (Bot.db w) ->
  Bot.get_user_hints uid (Bot.db (Bot.run (replicate n (Bot.UseHint uid)) w))
  = Z.max 0 (Bot.get_user_hints uid (Bot.db w) - Z.of_nat n)
  /\ Bot.replies (replicate n (Bot.UseHint uid)) w
     = app (replicate (Nat.min n (Z.to_nat (Bot.get_user_hints uid (Bot.db w))))
                      (Ok Bot.HintUsed))
           (replicate (n - Z.to_nat (Bot.get_user_hints uid (Bot.db w)))
                      (Ok Bot.NoHint)).
Proof.
  revert w. induction n as [|n IH]; intros w Hb; [simpl; split; [lia|done]|].
  change (Bot.run (replicate (S n) (Bot.UseHint uid)) w)
    with (Bot.run (replicate n (Bot.UseHint uid))
                  (fst (Bot.use_hint_callback uid w))).
  change (Bot.replies (replicate (S n) (Bot.UseHint uid)) w)
    with (snd (Bot.use_hint_callback uid w)
          :: Bot.replies (replicate n (Bot.UseHint uid))
               (fst (Bot.use_hint_callback uid w))).
  pose proof (use_hint_callback_balance uid w) as Hstep.
  assert (Hreply : snd (Bot.use_hint_callback uid w)
                   = if 0 <? Bot.get_user_hints uid (Bot.db w)
                     then Ok Bot.HintUsed else Ok Bot.NoHint).
  { unfold Bot.use_hint_callback. by destruct (0 <? _). }
  destruct (0 <? Bot.get_user_hints uid (Bot.db w)) eqn:Hpos.
  - destruct (IH (fst (Bot.use_hint_callback uid w))) as [Hbal Hrep];
      [rewrite Hstep; lia|].
    rewrite Hbal, Hrep, Hstep, Hreply. split; [lia|].
    replace (Z.to_nat (Bot.get_user_hints uid (Bot.db w)))
      with (S (Z.to_nat (Bot.get_user_hints uid (Bot.db w) - 1))) by lia.
    reflexivity.
  - destruct (IH (fst (Bot.use_hint_callback uid w))) as [Hbal Hrep];
      [rewrite Hstep; lia|].
    rewrite Hbal, Hrep, Hstep, Hreply. split; [lia|].
    replace (Bot.get_user_hints uid (Bot.db w)) with 0 by lia. simpl.
    rewrite Nat.min_0_r, Nat.sub_0_r. reflexivity.
Qed.

Lemma use_hint_repeated_witness :
  Bot.get_user_hints 7
    (Bot.db (Bot.run (replicate 3 (Bot.UseHint 7))
                     (Bot.run [Bot.ClaimBonus 7 "2024-05-01"] (Bot.boot sample_db))))
  = Z.max 0 (1 - 3).
Proof.
  refine (proj1 (use_hint_repeated 3
                   (Bot.run [Bot.ClaimBonus 7 "2024-05-01"] (Bot.boot sample_db))
                   7 _)).
  vm_compute. discriminate.
Defined.


(** ** The question bank *)

Lemma elem_of_joined d l q :
  (l, q) ∈ joined d
  <-> exists qr, qr ∈ t_questions d /\ l ∈ t_english_levels d
                 /\ qr_level_id qr = l_id l /\ q = question_of qr l.
Proof.
  unfold joined. rewrite list_elem_of_bind. split.
  - intros (qr & Hin & Hqr). apply list_elem_of_bind in Hin as (l' & Hin & Hl').
    apply list_elem_of_singleton in Hin. injection Hin as -> ->.
    apply list_elem_of_filter in Hl' as [Hid Hl'].
    by exists qr.
  - intros (qr & Hqr & Hl & Hid & ->). exists qr. split; [|done].
    apply list_elem_of_bind. exists l. split; [by apply list_elem_of_singleton|].
    by apply list_elem_of_filter.
Qed.

(** The questions that [get_questions] returns, whatever their order. *)
Lemma bot_get_questions_elem level d q :
  q ∈ Bot.get_questions level d
  <-> exists qr l, qr ∈ t_questions d /\ l ∈ t_english_levels d
                   /\ qr_level_id qr = l_id l /\ level_selected level l
                   /\ q = question_of qr l.
Proof.
  assert (Hall : q ∈ snd <$> order_by by_l_id_q_id (joined d)
                 <-> exists qr l, qr ∈ t_questions d /\ l ∈ t_english_levels d
                                  /\ qr_level_id qr = l_id l /\ q = question_of qr l).
  { rewrite (order_by_perm by_l_id_q_id (joined d)), list_elem_of_fmap. split.
    - intros ([l q'] & -> & Hin). apply elem_of_joined in Hin as (qr & ? & ? & ? & ?).
      by exists qr, l.
    - intros (qr & l & ? & ? & ? & ->). exists (l, question_of qr l).
      split; [done|]. apply elem_of_joined. by exists qr. }
  unfold Bot.get_questions, level_selected. destruct level as [lv|].
  - destruct (decide (lv = "")) as [->|Hne].
    + rewrite Hall. split; intros (qr & l & ? & ? & ? & ?).
      * exists qr, l. repeat (split; [done|]). split; [by left|done].
      * exists qr, l. by destruct H2.
    + rewrite (order_by_perm by_q_id), list_elem_of_fmap. unfold where_level. split.
      * intros ([l q'] & -> & Hin). apply list_elem_of_filter in Hin as [Hlv Hin].
        apply elem_of_joined in Hin as (qr & ? & ? & ? & ?).
        exists qr, l. repeat (split; [done|]). split; [by right|done].
      * intros (qr & l & ? & ? & ? & [?|Hlv] & ->); [done|].
        exists (l, question_of qr l). split; [done|].
        apply list_elem_of_filter. split; [done|]. apply elem_of_joined. by exists qr.
  - rewrite Hall. split; intros (qr & l & ? & ? & ? & ?).
    + by exists qr, l.
    + exists qr, l. by destruct H2.
Qed.

Lemma level_id_Some level d lid :
  BotDb.level_id level d = Some lid ->
  exists l, l ∈ t_english_levels d /\ l_level l = level /\ l_id l = lid.
Proof.
  unfold BotDb.level_id. intros H. apply fmap_Some in H as (l & Hhead & ->).
  apply head_Some_elem_of in Hhead. apply list_elem_of_filter in Hhead as [? ?].
  by exists l.
Qed.

Lemma level_id_None level d l :
  BotDb.level_id level d = None -> l ∈ t_english_levels d -> l_level l <> level.
Proof.
  unfold BotDb.level_id. intros H Hl Hlv. apply fmap_None in H.
  apply head_None in H.
  assert (Hin : l ∈ filter (fun l => l_level l = level) (t_english_levels d))
    by (by apply list_elem_of_filter).
  rewrite H in Hin. by apply not_elem_of_nil in Hin.
Qed.

Lemma NoDup_fmap_eq {A B} (f : A -> B) (l : list A) (x y : A) :
  NoDup (f <$> l) -> x ∈ l -> y ∈ l -> f x = f y -> x = y.
Proof.
  induction l as [|z l IH]; intros Hnd Hx Hy Hf; [by apply not_elem_of_nil in Hx|].
  rewrite fmap_cons in Hnd. apply NoDup_cons in Hnd as [Hz Hnd].
  apply elem_of_cons in Hx as [->|Hx]; apply elem_of_cons in Hy as [->|Hy].
  - done.
  - exfalso. apply Hz. rewrite Hf. by apply list_elem_of_fmap_2.
  - exfalso. apply Hz. rewrite <- Hf. by apply list_elem_of_fmap_2.
  - by apply IH.
Qed.

(** [add_question] of bot.py, with level ids that are unique as the
    primary key makes them: for a level that exists the new question,
    and nothing else, is added to what [get_questions] returns for its
    level and for the full test; for a level that does not exist the
    database is left as it is and nothing is reported. *)
Theorem add_question_lookup rowid level text opts c d :
  NoDup (l_id <$> t_english_levels d) ->
  match BotDb.level_id level d with
  | Some _ =>
      forall lv q,
        q ∈ Bot.get_questions lv (BotDb.add_question rowid level text opts c d)
        <-> q ∈ Bot.get_questions lv d
            \/ ((lv = None \/ lv = Some "" \/ lv = Some level)
                /\ q = {| q_id := rowid; question_text := text; options := opts;
                          correct_answer := c; q_level := level |})
  | None => BotDb.add_question rowid level text opts c d = d
  end.
Proof.
  intros Hnd. unfold BotDb.add_question.
  destruct (BotDb.level_id level d) as [lid|] eqn:Hlid; [|done].
  destruct (level_id_Some _ _ _ Hlid) as (l0 & Hl0 & Hlv0 & Hid0).
  intros lv q. rewrite !bot_get_questions_elem. simpl. split.
  - intros (qr & l & Hqr & Hl & Hid & Hsel & ->).
    apply elem_of_app in Hqr as [Hqr|Hqr].
    + left. by exists qr, l.
    + right. apply list_elem_of_singleton in Hqr. subst qr. simpl in Hid.
      assert (Hl0' : l = l0)
        by (apply (NoDup_fmap_eq l_id (t_english_levels d));
            [done|done|done|congruence]).
      subst l.
      split; [|unfold question_of; simpl; by rewrite Hlv0].
      destruct lv as [lv|]; [|by left]. right.
      destruct Hsel as [->|Hsel]; [by left|right; congruence].
  - intros [(qr & l & Hqr & Hl & Hid & Hsel & ->)|[Hlv ->]].
    + exists qr, l. split; [apply elem_of_app; by left|done].
    + eexists _, l0. split; [apply elem_of_app; right; by apply list_elem_of_singleton|].
      split; [done|]. split; [done|]. split.
      * destruct Hlv as [-> | [-> | ->]]; [done|by left|by right].
      * unfold question_of. simpl. by rewrite Hlv0.
Qed.

Lemma add_question_lookup_witness :
  {| q_id := 8; question_text := "Q"; options := ["a"; "b"];
     correct_answer := 1; q_level := "C1" |}
    ∈ Bot.get_questions (Some "C1")
        (BotDb.add_question 8 "C1" "Q" ["a"; "b"] 1 sample_db)
  /\ BotDb.add_question 8 "Z9" "Q" ["a"; "b"] 1 sample_db = sample_db.
Proof.
  assert (Hids : NoDup (l_id <$> t_english_levels sample_db))
    by (vm_compute; repeat constructor; set_solver).
  split.
  - apply (add_question_lookup 8 "C1" "Q" ["a"; "b"] 1 sample_db Hids).
    right. split; [by right; right|done].
  - exact (add_question_lookup 8 "Z9" "Q" ["a"; "b"] 1 sample_db Hids).
Defined.

Lemma filter_all {A} (P : A -> Prop) `{!forall x, Decision (P x)} (l : list A) :
  Forall P l -> filter P l = l.
Proof.
  induction 1 as [|x l Hx Hl IH]; [done|].
  rewrite filter_cons, decide_True by done. by rewrite IH.
Qed.

Lemma set_questions_same d : BotDb.set_questions (fun qs => qs) d = d.
Proof. by destruct d. Qed.

(** [delete_question] takes the question with the id, and no other,
    out of what [get_questions] returns for every level; deleting an
    id that is not there changes nothing, and deleting the row that
    [add_question] has just added under a new id gives the database
    back as it was. *)
Theorem delete_question_lookup question_id d :
  (forall lv q,
     q ∈ Bot.get_questions lv (BotDb.delete_question question_id d)
     <-> q ∈ Bot.get_questions lv d /\ q_id q <> question_id)
  /\ (question_id ∉ qr_id <$> t_questions d ->
      BotDb.delete_question question_id d = d
      /\ forall level text opts c,
           BotDb.delete_question question_id
             (BotDb.add_question question_id level text opts c d) = d).
Proof.
  split.
  - intros lv q. rewrite !bot_get_questions_elem. simpl. split.
    + intros (qr & l & Hqr & Hl & Hid & Hsel & ->).
      apply list_elem_of_filter in Hqr as [Hne Hqr].
      split; [by exists qr, l|done].
    + intros [(qr & l & Hqr & Hl & Hid & Hsel & ->) Hne].
      exists qr, l. split; [by apply list_elem_of_filter|done].
  - intros Hfresh.
    assert (Hall : Forall (fun q => qr_id q <> question_id) (t_questions d)).
    { apply Forall_forall. intros qr Hqr Heq. apply Hfresh.
      rewrite <- Heq. by apply list_elem_of_fmap_2. }
    assert (Hdel : BotDb.delete_question question_id d = d).
    { unfold BotDb.delete_question, BotDb.set_questions.
      rewrite filter_all by done. by destruct d. }
    split; [done|]. intros level text opts c.
    unfold BotDb.add_question. destruct (BotDb.level_id level d); [|done].
    unfold BotDb.delete_question, BotDb.set_questions. simpl.
    rewrite filter_app, filter_all by done.
    rewrite filter_cons, decide_False by (simpl; intros H; by apply H).
    rewrite filter_nil, app_nil_r. by destruct d.
Qed.

Lemma delete_question_lookup_witness :
  BotDb.delete_question 8 sample_db = sample_db
  /\ forall level text opts c,
       BotDb.delete_question 8 (BotDb.add_question 8 level text opts c sample_db)
       = sample_db.
Proof.
  apply (proj2 (delete_question_lookup 8 sample_db)).
  vm_compute. set_solver.
Defined.

(** [update_question] replaces the text, the options and the correct
    index of the question with the id in what [get_questions] returns,
    for every level; the id and the level of the question stay, every
    other question stays as it is, and an id that is not there changes
    nothing. *)
Theorem update_question_lookup question_id q_text opts correct d lv q :
  q ∈ Bot.get_questions lv
        (BotDb.update_question question_id q_text opts correct d)
  <-> exists q0, q0 ∈ Bot.get_questions lv d
                 /\ q = updated_question question_id q_text opts correct q0.
Proof.
  rewrite bot_get_questions_elem. simpl. split.
  - intros (qr & l & Hqr & Hl & Hid & Hsel & ->).
    apply list_elem_of_fmap in Hqr as (qr0 & -> & Hqr0).
    exists (question_of qr0 l). split.
    + apply bot_get_questions_elem. exists qr0, l.
      split; [done|]. split; [done|]. split; [|done].
      by destruct (decide (qr_id qr0 = question_id)).
    + unfold updated_question, question_of. simpl.
      by destruct (decide (qr_id qr0 = question_id)).
  - intros (q0 & Hq0 & ->). apply bot_get_questions_elem in Hq0
      as (qr0 & l & Hqr0 & Hl & Hid & Hsel & ->).
    eexists _, l. split; [by apply list_elem_of_fmap_2|].
    split; [done|].
    unfold updated_question, question_of. simpl.
    destruct (decide (qr_id qr0 = question_id)); by simpl.
Qed.

(** ** The CSV import *)

Lemma level_id_add_question lv rowid level text opts c d :
  BotDb.level_id lv (BotDb.add_question rowid level text opts c d)
  = BotDb.level_id lv d.
Proof. unfold BotDb.add_question. by destruct (BotDb.level_id level d). Qed.

Lemma import_rows_spec rows : forall rowid d d0,
  (forall lv, BotDb.level_id lv d = BotDb.level_id lv d0) ->
  match BotDb.import_rows rowid rows d with
  | Some d' =>
      Forall (fun row => is_Some (BotDb.c_correct row)) rows
      /\ d' = BotDb.set_questions (fun qs => app qs
                (imap (fun i row => imported_row d0 (rowid + Z.of_nat i) row)
                   (filter (fun row => is_Some (BotDb.level_id (BotDb.c_level row) d0))
                           rows))) d
  | None => ~ Forall (fun row => is_Some (BotDb.c_correct row)) rows
  end.
Proof.
  induction rows as [|row rows IH]; intros rowid d d0 Hlv; simpl.
  - split; [constructor|].
    unfold BotDb.set_questions. rewrite app_nil_r. by destruct d.
  - destruct (BotDb.c_correct row) as [n|] eqn:Hn;
      [|intros HF; apply Forall_cons in HF as [[? HF] _]; by rewrite Hn in HF].
    rewrite filter_cons.
    destruct (BotDb.level_id (BotDb.c_level row) d) as [lid|] eqn:Hlid.
    + rewrite Hlv in Hlid.
      rewrite decide_True by (by rewrite Hlid).
      specialize (IH (rowid + 1)
        (BotDb.add_question rowid (BotDb.c_level row) (BotDb.c_question row)
           [BotDb.c_option1 row; BotDb.c_option2 row; BotDb.c_option3 row;
            BotDb.c_option4 row] (n - 1) d) d0).
      destruct (BotDb.import_rows _ _ _) as [d'|].
      * destruct IH as [HF ->];
          [intros lv; by rewrite level_id_add_question|].
        split; [constructor; [by rewrite Hn|done]|].
        unfold BotDb.add_question. rewrite Hlv, Hlid.
        unfold BotDb.set_questions. simpl. f_equal.
        rewrite <- app_assoc. f_equal. simpl. f_equal.
        -- unfold imported_row. rewrite Hlid, Hn. simpl. f_equal. lia.
        -- apply imap_ext. intros i x _. simpl. f_equal. lia.
      * intros HF. apply Forall_cons in HF as [_ HF]. apply IH; [|done].
        intros lv. by rewrite level_id_add_question.
    + rewrite Hlv in Hlid.
      rewrite decide_False by (rewrite Hlid; by intros [? ?]).
      specialize (IH rowid d d0 Hlv).
      destruct (BotDb.import_rows _ _ _) as [d'|].
      * destruct IH as [HF ->]. split; [|done]. constructor; [by rewrite Hn|done].
      * intros HF. apply Forall_cons in HF as [_ HF]. by apply IH.
Qed.

(** [import_questions_from_csv] imports all rows or none: if [int]
    raises on the [correct] column of any row, the database is left as
    it was, also for the rows before that one.  Otherwise the rows of
    known levels are appended in order with consecutive ids, rows of
    unknown levels are passed over without a word, and the stored
    correct index is the column less 1, whatever the column holds: a
    column of 0 is stored as -1. *)
Theorem import_questions_all_or_nothing rowid rows d :
  (Forall (fun row => is_Some (BotDb.c_correct row)) rows ->
   BotDb.import_questions_from_csv rowid rows d
   = (BotDb.set_questions (fun qs => app qs
        (imap (fun i row => imported_row d (rowid + Z.of_nat i) row)
           (filter (fun row => is_Some (BotDb.level_id (BotDb.c_level row) d))
                   rows))) d,
      true))
  /\ (~ Forall (fun row => is_Some (BotDb.c_correct row)) rows ->
      BotDb.import_questions_from_csv rowid rows d = (d, false)).
Proof.
  pose proof (import_rows_spec rows rowid d d (fun _ => eq_refl)) as H.
  unfold BotDb.import_questions_from_csv.
  destruct (BotDb.import_rows rowid rows d) as [d'|].
  - destruct H as [HF ->]. split; [done|]. by intros Hn.
  - split; [by intros HF|done].
Qed.

Lemma import_questions_all_or_nothing_witness :
  BotDb.import_questions_from_csv 8
    [ {| BotDb.c_level := "A1"; BotDb.c_question := "Q1"; BotDb.c_option1 := "a";
         BotDb.c_option2 := "b"; BotDb.c_option3 := "c"; BotDb.c_option4 := "d";
         BotDb.c_correct := Some 0 |};
      {| BotDb.c_level := "A1"; BotDb.c_question := "Q2"; BotDb.c_option1 := "a";
         BotDb.c_option2 := "b"; BotDb.c_option3 := "c"; BotDb.c_option4 := "d";
         BotDb.c_correct := None |} ] sample_db
  = (sample_db, false)
  /\ snd (BotDb.import_questions_from_csv 8
            [ {| BotDb.c_level := "A1"; BotDb.c_question := "Q1";
                 BotDb.c_option1 := "a"; BotDb.c_option2 := "b";
                 BotDb.c_option3 := "c"; BotDb.c_option4 := "d";
                 BotDb.c_correct := Some 0 |} ] sample_db) = true.
Proof.
  split.
  - apply (proj2 (import_questions_all_or_nothing 8 _ sample_db)).
    intros HF. apply Forall_cons in HF as [_ HF].
    apply Forall_cons in HF as [[? HF] _]. discriminate HF.
  - rewrite (proj1 (import_questions_all_or_nothing 8 _ sample_db)); [done|].
    repeat constructor. by eexists.
Defined.


(** ** The router *)

Lemma bot_handle_bank e b :
  t_questions (Bot.db (fst (Bot.handle e b))) = t_questions (Bot.db b)
  /\ t_english_levels (Bot.db (fst (Bot.handle e b))) = t_english_levels (Bot.db b).
Proof.
  destruct e as [uid now lv|uid now a|uid today|uid]; simpl.
  - unfold Bot.start_quiz. destruct (if decide (lv = "full") then _ else _); [done|].
    destruct (getitem _ _); [|done]. by rewrite bot_ask_question_world.
  - assert (Hfin : forall score total early w,
      t_questions (Bot.db (fst (Bot.finish_quiz uid now score total early w)))
      = t_questions (Bot.db w)
      /\ t_english_levels (Bot.db (fst (Bot.finish_quiz uid now score total early w)))
         = t_english_levels (Bot.db w)).
    { intros score total early w. unfold Bot.finish_quiz.
      destruct (percentage score total); [|done].
      cbn zeta. by destruct (Bot.wrong_answers_text _). }
    unfold Bot.handle_answer.
    destruct (Bot.state (Bot.get_context uid b)) as [[]|]; try done.
    destruct (Bot.data (Bot.get_context uid b)) as [d|]; [|done].
    destruct (Bot.answer_step d a) as [d'|]; [|done]. cbn zeta.
    destruct (_ <=? _); [exact (Hfin _ _ _ (Bot.update_data uid d' b))|].
    destruct (_ <=? _); [exact (Hfin _ _ _ (Bot.update_data uid d' b))|].
    destruct (getitem _ _); [|done]. by rewrite bot_ask_question_world.
  - rewrite claim_daily_bonus_db. unfold Bot.get_daily_bonus.
    by destruct (t_daily_bonus (Bot.db b) !! (uid, today)).
  - unfold Bot.use_hint_callback. destruct (0 <? _); [|done]. simpl.
    unfold Bot.use_hint. destruct (t_user_hints (Bot.db b) !! uid) as [n|]; [|done].
    by destruct (0 <? n).
Qed.

Lemma get_state_raw uid w s :
  Router.get_state uid w = Some s -> Router.admin_state w !! uid = Some s.
Proof.
  unfold Router.get_state.
  by destruct (Bot.state (Bot.get_context uid (Router.bot w))).
Qed.

Lemma admin_state_add_user uid un fn w :
  Router.admin_state (Router.add_user uid un fn w) = Router.admin_state w.
Proof. unfold Router.add_user. by destruct (bool_decide _). Qed.

Lemma admin_state_update_level uid lv w :
  Router.admin_state (Router.update_level uid lv w) = Router.admin_state w.
Proof.
  unfold Router.update_level.
  by destruct (Bot.data (Bot.get_context uid (Router.bot w))).
Qed.


(** ** A bank of answerable questions *)

Lemma wrong_answers_text_ok l :
  Forall answerable l -> exists lines, Bot.wrong_answers_text l = Ok lines.
Proof.
  induction 1 as [|q l Hq Hl [lines IH]]; [by eexists|].
  destruct (getitem_in_range (options q) (correct_answer q) Hq) as (x & Hx & _).
  exists (x :: lines). simpl. unfold Bot.correct_option. by rewrite Hx, IH.
Qed.

Lemma get_questions_answerable lv d :
  bank_ok d -> Forall answerable (Bot.get_questions lv d).
Proof.
  intros Hd. apply Forall_forall. intros q Hq.
  apply bot_get_questions_elem in Hq as (qr & l & Hqr & _ & _ & _ & ->).
  unfold bank_ok in Hd. rewrite Forall_forall in Hd. exact (Hd qr Hqr).
Qed.

Lemma bank_ok_same d d' : t_questions d' = t_questions d -> bank_ok d -> bank_ok d'.
Proof. unfold bank_ok. by intros ->. Qed.

Lemma bank_ok_add rowid level text opts c d :
  0 <= c < len opts -> bank_ok d ->
  bank_ok (BotDb.add_question rowid level text opts c d).
Proof.
  intros Hc Hd. unfold BotDb.add_question.
  destruct (BotDb.level_id level d); [|done].
  unfold bank_ok. simpl. apply Forall_app. split; [done|]. by constructor.
Qed.

Lemma bank_ok_delete q_id d : bank_ok d -> bank_ok (BotDb.delete_question q_id d).
Proof.
  unfold bank_ok. simpl. intros Hd. apply Forall_forall. intros q Hq.
  apply list_elem_of_filter in Hq as [_ Hq].
  rewrite Forall_forall in Hd. by apply Hd.
Qed.

Lemma bank_ok_update q_id text opts c d :
  0 <= c < len opts -> bank_ok d ->
  bank_ok (BotDb.update_question q_id text opts c d).
Proof.
  unfold bank_ok. simpl. intros Hc Hd. apply Forall_fmap.
  eapply Forall_impl; [exact Hd|]. intros q Hq. simpl.
  by destruct (decide (qr_id q = q_id)).
Qed.

(** What a quiz event does to the FSM records, in a bank of answerable
    questions: it raises nothing; it leaves the records of the other
    users alone; and unless it finishes the quiz, the record of its
    user is again one that [handle_answer] can work on, with quiz data
    if there was quiz data. *)
Lemma bot_handle_ready e b :
  bank_ok (Bot.db b) ->
  (forall uid, quiz_ready (Bot.get_context uid b)) ->
  exists r, snd (Bot.handle e b) = Ok r
    /\ (forall uid, uid <> event_user e ->
          Bot.get_context uid (fst (Bot.handle e b)) = Bot.get_context uid b)
    /\ match r with
       | Bot.Finished _ _ _ => True
       | _ =>
           quiz_ready (Bot.get_context (event_user e) (fst (Bot.handle e b)))
           /\ (is_Some (Bot.data (Bot.get_context (event_user e) b)) ->
               is_Some (Bot.data (Bot.get_context (event_user e)
                                    (fst (Bot.handle e b)))))
       end.
Proof.
  intros Hbank Hready.
  destruct e as [uid now lv|uid now a|uid today|uid]; simpl.
  - destruct (bot_selected lv (Bot.db b)) as [|q qs] eqn:Hsel.
    + unfold bot_selected in Hsel. unfold Bot.start_quiz. rewrite Hsel.
      exists Bot.NoQuestionsAlert. simpl. by split; [|split].
    + destruct (bot_start_quiz_nonempty uid now lv b q qs Hsel) as [h ->].
      eexists. split; [done|]. simpl. split.
      * intros uid' Hne. unfold Bot.set_state, Bot.update_data.
        by rewrite !get_set_context_ne.
      * unfold Bot.set_state, Bot.update_data. rewrite !get_set_context.
        simpl. split; [|by eexists]. split; [done|].
        unfold quiz_ready. simpl.
        assert (Hall : Forall answerable (q :: qs)).
        { rewrite <- Hsel. unfold bot_selected.
          destruct (decide (lv = "full")); by apply get_questions_answerable. }
        split; [|by split]. unfold len. simpl. lia.
  - destruct (Bot.session uid b) as [d|] eqn:Hs.
    + destruct (session_data _ _ _ Hs) as [Hst Hd].
      pose proof (Hready uid) as Hr. unfold quiz_ready in Hr.
      rewrite Hst, Hd in Hr. destruct Hr as (_ & Hcur & Hqs & Hwrong).
      destruct (bot_answer_step d a Hcur)
        as (q & d' & Hq & Hstep' & Hqs' & Hc' & _ & _ & _ & Hcase).
      assert (Hqok : answerable q).
      { destruct (getitem_in_range (Bot.questions d) (Bot.current d) Hcur)
          as (q0 & Hq0 & Hl). rewrite Hq in Hq0. injection Hq0 as <-.
        rewrite Forall_forall in Hqs. apply Hqs.
        by eapply list_elem_of_lookup_2. }
      assert (Hwrong' : Forall answerable (Bot.wrong_answers d')).
      { destruct Hcase as [(_ & _ & _ & ->)|(_ & _ & _ & ->)]; [done|].
        apply Forall_app. split; [done|]. by constructor. }
      destruct (wrong_answers_text_ok (take 5 (Bot.wrong_answers d')))
        as [lines Hlines]; [by apply Forall_take|].
      destruct (bot_handle_answer uid now a b d Hs Hcur)
        as (d'' & Hstep & Hcases).
      rewrite Hstep' in Hstep. injection Hstep as <-.
      assert (Hfin : forall p early,
        exists r, snd (bot_finished uid now d' p early b) = Ok r
          /\ (forall uid', uid' <> uid ->
                Bot.get_context uid' (fst (bot_finished uid now d' p early b))
                = Bot.get_context uid' b)
          /\ match r with Bot.Finished _ _ _ => True | _ => False end).
      { intros p early. unfold bot_finished. cbn zeta. rewrite Hlines.
        eexists. split; [done|]. split; [|done].
        intros uid' Hne. simpl. unfold Bot.clear, Bot.update_data.
        rewrite get_set_context_ne by done.
        unfold Bot.get_context. simpl. by rewrite lookup_insert_ne. }
      destruct Hcases as [(_ & p & _ & ->)|[(_ & _ & p & _ & ->)|
                          (_ & Hlt & q' & _ & ->)]].
      * destruct (Hfin p true) as (r & Hr & Hfr & Hfin').
        exists r. split; [done|]. split; [done|]. by destruct r.
      * destruct (Hfin p false) as (r & Hr & Hfr & Hfin').
        exists r. split; [done|]. split; [done|]. by destruct r.
      * eexists. split; [done|]. simpl. split.
        { intros uid' Hne. unfold Bot.update_data.
          by rewrite get_set_context_ne. }
        unfold Bot.update_data. rewrite get_set_context. simpl.
        split; [|by eexists]. unfold quiz_ready. simpl. rewrite Hst.
        split; [done|]. rewrite Hqs' in Hlt |- *. split; [lia|]. by split.
    + exists Bot.Unhandled.
      assert (Hidle : Bot.handle_answer uid now a b = (b, Ok Bot.Unhandled)).
      { unfold Bot.session in Hs. unfold Bot.handle_answer.
        pose proof (Hready uid) as Hr. unfold quiz_ready in Hr.
        destruct (Bot.state (Bot.get_context uid b)) as [s|]; [|done].
        destruct Hr as [-> Hr].
        destruct (Bot.data (Bot.get_context uid b)); done. }
      rewrite Hidle. simpl. split; [done|]. split; [done|]. by split.
  - assert (Hctx : forall uid',
      Bot.get_context uid' (fst (Bot.claim_daily_bonus uid today b))
      = Bot.get_context uid' b).
    { intros uid'. unfold Bot.get_context. by rewrite bot_storage_claim. }
    assert (Hr : exists r, snd (Bot.claim_daily_bonus uid today b) = Ok r
                 /\ match r with Bot.Finished _ _ _ => False | _ => True end).
    { unfold Bot.claim_daily_bonus.
      destruct (Bot.get_daily_bonus today uid (Bot.db b)) as [db1 claimed].
      destruct (decide (claimed = 0)); by eexists. }
    destruct Hr as (r & Hr & Hnf). exists r. split; [done|].
    split; [by intros; apply Hctx|]. rewrite !Hctx.
    destruct r; try done; by split.
  - assert (Hctx : forall uid',
      Bot.get_context uid' (fst (Bot.use_hint_callback uid b))
      = Bot.get_context uid' b).
    { intros uid'. unfold Bot.get_context. by rewrite bot_storage_hint. }
    assert (Hr : exists r, snd (Bot.use_hint_callback uid b) = Ok r
                 /\ match r with Bot.Finished _ _ _ => False | _ => True end).
    { unfold Bot.use_hint_callback.
      destruct (0 <? Bot.get_user_hints uid (Bot.db b)); by eexists. }
    destruct Hr as (r & Hr & Hnf). exists r. split; [done|].
    split; [by intros; apply Hctx|]. rewrite !Hctx.
    destruct r; try done; by split.
Qed.

(** ** The FSM record of a user under the operations of the router *)

Lemma view_set_state uid' uid s w :
  view uid' (Router.set_state uid s w)
  = if decide (uid' = uid) then
      ({| Bot.state := None; Bot.data := Bot.data (fst (fst (view uid w))) |},
       Some s, snd (view uid w))
    else view uid' w.
Proof.
  unfold view, Router.set_state, Router.get_form. simpl.
  destruct (decide (uid' = uid)) as [->|Hne].
  - by rewrite get_set_context, lookup_insert_eq.
  - by rewrite get_set_context_ne, lookup_insert_ne.
Qed.

Lemma view_update_data uid' uid g w :
  view uid' (Router.update_data uid g w)
  = if decide (uid' = uid) then
      (fst (fst (view uid w)), snd (fst (view uid w)), g (snd (view uid w)))
    else view uid' w.
Proof.
  unfold view, Router.update_data, Router.get_form. simpl.
  destruct (decide (uid' = uid)) as [->|Hne].
  - by rewrite lookup_insert_eq.
  - by rewrite lookup_insert_ne.
Qed.

Lemma view_clear uid' uid w :
  view uid' (Router.clear uid w)
  = if decide (uid' = uid) then
      ({| Bot.state := None; Bot.data := None |}, None, Router.empty_form)
    else view uid' w.
Proof.
  unfold view, Router.clear, Router.get_form, Bot.clear. simpl.
  destruct (decide (uid' = uid)) as [->|Hne].
  - by rewrite get_set_context, !lookup_delete_eq.
  - by rewrite get_set_context_ne, !lookup_delete_ne.
Qed.

Lemma view_set_db uid d w : view uid (Router.set_db d w) = view uid w.
Proof. done. Qed.

Lemma view_set_bot uid b w :
  view uid (Router.set_bot b w)
  = (Bot.get_context uid b, Router.admin_state w !! uid, Router.get_form uid w).
Proof. done. Qed.

Lemma view_add_user uid user_id un fn w :
  view uid (Router.add_user user_id un fn w) = view uid w.
Proof. unfold Router.add_user. by destruct (bool_decide _). Qed.

Lemma view_ban_user uid user_id reason w :
  view uid (Router.ban_user user_id reason w) = view uid w.
Proof. done. Qed.

Lemma view_unban_user uid user_id w :
  view uid (Router.unban_user user_id w) = view uid w.
Proof. done. Qed.

Lemma view_report_question uid question_id user_id reason w :
  view uid (Router.report_question question_id user_id reason w) = view uid w.
Proof. done. Qed.

Lemma view_update_level uid' uid lv w :
  view uid' (Router.update_level uid lv w)
  = if decide (uid' = uid) then
      match Bot.data (fst (fst (view uid w))) with
      | Some d =>
          ({| Bot.state := Bot.state (fst (fst (view uid w)));
              Bot.data := Some
                {| Bot.questions := Bot.questions d; Bot.current := Bot.current d;
                   Bot.score := Bot.score d; Bot.level := lv;
                   Bot.lives := Bot.lives d;
                   Bot.wrong_answers := Bot.wrong_answers d;
                   Bot.start_time := Bot.start_time d;
                   Bot.user_id := Bot.user_id d |} |},
           snd (fst (view uid w)), snd (view uid w))
      | None =>
          (fst (fst (view uid w)), snd (fst (view uid w)),
           Router.with_level lv (snd (view uid w)))
      end
    else view uid' w.
Proof.
  unfold Router.update_level. cbn [view fst snd].
  destruct (Bot.data (Bot.get_context uid (Router.bot w))) as [d|] eqn:Hd.
  - rewrite view_set_bot. unfold view, Bot.update_data.
    destruct (decide (uid' = uid)) as [->|Hne].
    + by rewrite get_set_context.
    + by rewrite get_set_context_ne.
  - rewrite view_update_data. destruct (decide (uid' = uid)); [|done].
    done.
Qed.

Lemma db_add_user user_id un fn w :
  Router.db (Router.add_user user_id un fn w) = Router.db w.
Proof. unfold Router.add_user. by destruct (bool_decide _). Qed.

Lemma db_update_level uid lv w :
  Router.db (Router.update_level uid lv w) = Router.db w.
Proof.
  unfold Router.update_level.
  by destruct (Bot.data (Bot.get_context uid (Router.bot w))).
Qed.

Lemma db_set_state uid s w : Router.db (Router.set_state uid s w) = Router.db w.
Proof. done. Qed.

Lemma db_clear uid w : Router.db (Router.clear uid w) = Router.db w.
Proof. done. Qed.

Lemma db_update_data uid g w : Router.db (Router.update_data uid g w) = Router.db w.
Proof. done. Qed.

Lemma db_set_db d w : Router.db (Router.set_db d w) = d.
Proof. done. Qed.

Lemma form_ready_level s l l' f :
  (is_Some l -> is_Some l') -> form_ready s l f -> form_ready s l' f.
Proof. intros Hl. destruct s; simpl; naive_solver. Qed.

Lemma view_ok_empty :
  view_ok ({| Bot.state := None; Bot.data := None |}, None, Router.empty_form).
Proof. done. Qed.

(** The quiz handlers keep the invariant and raise nothing. *)
Lemma router_inv_quiz e w :
  router_inv w ->
  exists r, snd (Router.quiz e w) = Ok r /\ router_inv (fst (Router.quiz e w)).
Proof.
  intros [Hbank Hview].
  destruct (bot_handle_ready e (Router.bot w) Hbank) as (r & Hr & Hframe & Hpost).
  { intros uid. apply (Hview uid). }
  destruct (bot_handle_bank e (Router.bot w)) as [Hq _].
  unfold Router.quiz. rewrite Hr.
  assert (Hother : forall uid, uid <> event_user e ->
            view_ok (Bot.get_context uid (fst (Bot.handle e (Router.bot w))),
                     Router.admin_state w !! uid, Router.get_form uid w)).
  { intros uid Hne. rewrite Hframe by done. apply (Hview uid). }
  assert (Hfinished :
    router_inv (Router.clear (event_user e)
                  (Router.set_bot (fst (Bot.handle e (Router.bot w))) w))).
  { split; [by apply (bank_ok_same (Router.db w))|].
    intros uid. rewrite view_clear, view_set_bot.
    destruct (decide (uid = event_user e)); [done|]. by apply Hother. }
  assert (Hgoes_on :
    quiz_ready (Bot.get_context (event_user e) (fst (Bot.handle e (Router.bot w))))
    /\ (is_Some (Bot.data (Bot.get_context (event_user e) (Router.bot w))) ->
        is_Some (Bot.data (Bot.get_context (event_user e)
                             (fst (Bot.handle e (Router.bot w)))))) ->
    router_inv (Router.set_bot (fst (Bot.handle e (Router.bot w))) w)).
  { intros [Hready Hdata]. split; [by apply (bank_ok_same (Router.db w))|].
    intros uid. rewrite view_set_bot.
    destruct (decide (uid = event_user e)) as [->|Hne]; [|by apply Hother].
    split; [done|]. simpl.
    destruct (Hview (event_user e)) as [_ Hform]. simpl in Hform.
    destruct (Router.admin_state w !! event_user e) as [s|]; [|done].
    eapply form_ready_level; [|exact Hform].
    unfold level_key. intros Hl.
    destruct (Bot.data (Bot.get_context (event_user e)
                          (fst (Bot.handle e (Router.bot w))))) as [d'|] eqn:Hd';
      [by eexists|].
    destruct (Bot.data (Bot.get_context (event_user e) (Router.bot w))) as [d|];
      [|done].
    destruct Hdata as [? ?]; [by eexists|done]. }
  destruct r; simpl; eexists; (split; [done|]); by auto.
Qed.

Lemma admin_view_questions_ok uid w :
  bank_ok (Router.db w) ->
  exists r, Router.admin_view_questions uid w = (w, Ok r).
Proof.
  intros Hbank. unfold Router.admin_view_questions.
  destruct (Router.is_admin uid); [|by eexists].
  pose proof (get_questions_answerable None _ Hbank) as Hqs.
  destruct (Bot.get_questions None (Router.db w)) as [|q qs]; [by eexists|].
  destruct (wrong_answers_text_ok (take 20 (q :: qs))) as [lines Hl];
    [by apply Forall_take|].
  rewrite Hl. by eexists.
Qed.

#[local] Set Warnings "-notation-for-abbreviation".

Section router.

Variable int : string -> option Z.
Variable strip : string -> string.
Variable DictReader : string -> option (list BotDb.CsvRow).

Local Notation handle := (Router.handle int strip DictReader).
Local Notation run := (Router.run int strip DictReader).

Ltac router_unfold :=
  unfold Router.on_text, Router.on_callback, Router.quiz, Router.start_command,
    Router.report_question_callback, Router.enter_report_reason,
    Router.admin_command, Router.back_to_admin, Router.admin_add_question,
    Router.admin_select_level, Router.admin_enter_question,
    Router.admin_enter_options, Router.admin_enter_correct,
    Router.admin_view_questions, Router.admin_stats,
    Router.admin_delete_question, Router.delete_question_id,
    Router.edit_question_id, Router.edit_question_text,
    Router.edit_question_options, Router.edit_question_correct,
    Router.admin_edit_question, Router.admin_import_csv,
    Router.import_csv_content, Router.admin_ban_user, Router.admin_unban_user,
    Router.ban_user_id, Router.ban_user_reason, Router.unban_user_id,
    Router.admin_view_reports.

Ltac router_cases :=
  repeat match goal with
  | |- context [if Router.is_admin ?u then _ else _] =>
      destruct (Router.is_admin u) eqn:?
  | |- context [match Router.get_state ?u ?w with _ => _ end] =>
      destruct (Router.get_state u w) as [[]|] eqn:?
  | |- context [match int ?t with _ => _ end] => destruct (int t) eqn:?
  | |- context [match DictReader ?t with _ => _ end] => destruct (DictReader t) eqn:?
  | |- context [match Router.find_user ?i ?t ?w with _ => _ end] =>
      destruct (Router.find_user i t w) eqn:?
  | |- context [match Router.question_by_id ?i ?w with _ => _ end] =>
      destruct (Router.question_by_id i w) eqn:?
  | |- context [match Router.reports ?w with _ => _ end] =>
      destruct (Router.reports w) eqn:?
  | |- context [match Router.get_level ?u ?w with _ => _ end] =>
      destruct (Router.get_level u w) eqn:?
  | |- context [match Router.f_report_question_id ?f with _ => _ end] =>
      destruct (Router.f_report_question_id f) eqn:?
  | |- context [match Router.f_options ?f with _ => _ end] =>
      destruct (Router.f_options f) eqn:?
  | |- context [match Router.f_question ?f with _ => _ end] =>
      destruct (Router.f_question f) eqn:?
  | |- context [match Router.f_edit_options ?f with _ => _ end] =>
      destruct (Router.f_edit_options f) eqn:?
  | |- context [match Router.f_edit_q_id ?f with _ => _ end] =>
      destruct (Router.f_edit_q_id f) eqn:?
  | |- context [match Router.f_edit_q_text ?f with _ => _ end] =>
      destruct (Router.f_edit_q_text f) eqn:?
  | |- context [match Router.f_ban_user_id ?f with _ => _ end] =>
      destruct (Router.f_ban_user_id f) eqn:?
  | |- context [match Bot.get_questions ?l ?d with _ => _ end] =>
      destruct (Bot.get_questions l d) eqn:?
  | |- context [match Bot.wrong_answers_text ?l with _ => _ end] =>
      destruct (Bot.wrong_answers_text l) eqn:?
  | |- context [match snd (Bot.handle ?e ?b) with _ => _ end] =>
      destruct (snd (Bot.handle e b)) as [[]|] eqn:?
  | |- context [if Router.is_banned ?u ?w then _ else _] =>
      destruct (Router.is_banned u w) eqn:?
  | |- context [if decide ?P then _ else _] => destruct (decide P)
  | |- context [if ?a <? ?b then _ else _] => destruct (a <? b) eqn:?
  | |- context [if ?a && ?b then _ else _] => destruct (a && b) eqn:?
  end.

Lemma guests_outside_handle u w :
  guests_outside w -> guests_outside (fst (handle u w)).
Proof.
  intros Hinv uid Hna. specialize (Hinv uid Hna).
  assert (Hset : forall s m, Router.is_admin s = true ->
            <[s := m]> (Router.admin_state w) !! uid = None
            \/ <[s := m]> (Router.admin_state w) !! uid
               = Some Router.waiting_report_reason).
  { intros s m Hs. rewrite lookup_insert_ne; [done|]. intros <-. congruence. }
  assert (Hst : forall s st m, Router.get_state s w = Some st ->
            st <> Router.waiting_report_reason ->
            <[s := m]> (Router.admin_state w) !! uid = None
            \/ <[s := m]> (Router.admin_state w) !! uid
               = Some Router.waiting_report_reason).
  { intros s st m Hs Hne. apply get_state_raw in Hs.
    rewrite lookup_insert_ne; [done|]. intros <-.
    destruct Hinv as [H|H]; rewrite H in Hs; congruence. }
  assert (Hrep : forall s,
            <[s := Router.waiting_report_reason]> (Router.admin_state w) !! uid = None
            \/ <[s := Router.waiting_report_reason]> (Router.admin_state w) !! uid
               = Some Router.waiting_report_reason).
  { intros s. destruct (decide (s = uid)) as [->|Hne];
      [rewrite lookup_insert_eq; by right|by rewrite lookup_insert_ne]. }
  assert (Hdel : forall s,
            delete s (Router.admin_state w) !! uid = None
            \/ delete s (Router.admin_state w) !! uid
               = Some Router.waiting_report_reason).
  { intros s. destruct (decide (s = uid)) as [->|Hne];
      [rewrite lookup_delete_eq; by left|by rewrite lookup_delete_ne]. }
  destruct u as [e|s un fn|s text|s b|s lv|s qid|s text rowid];
    [| | | destruct b | | |]; simpl; router_unfold; router_cases; simpl;
    try done; try (by apply Hdel); try (by apply Hrep);
    try (by apply Hset); try (by eapply Hst).
  - by rewrite admin_state_add_user.
  - rewrite admin_state_update_level. by eapply Hst.
Qed.

Lemma guests_outside_run us w :
  guests_outside w -> guests_outside (run us w).
Proof.
  revert w. induction us as [|u us IH]; intros w Hinv; [done|].
  apply IH. by apply guests_outside_handle.
Qed.

Lemma guests_outside_boot d users bans reps :
  guests_outside (Router.boot d users bans reps).
Proof. intros uid _. by left. Qed.

Lemma guest_update u w :
  guests_outside w -> Router.is_admin (Router.sender u) = false ->
  t_questions (Router.db (fst (handle u w))) = t_questions (Router.db w)
  /\ t_english_levels (Router.db (fst (handle u w)))
     = t_english_levels (Router.db w)
  /\ Router.t_banned_users (fst (handle u w)) = Router.t_banned_users w.
Proof.
  intros Hinv Hna. specialize (Hinv _ Hna).
  assert (Hst : forall st, Router.get_state (Router.sender u) w = Some st ->
            st <> Router.waiting_report_reason -> False).
  { intros st Hs Hne. apply get_state_raw in Hs.
    destruct Hinv as [H|H]; rewrite H in Hs; congruence. }
  destruct u as [e|s un fn|s text|s b|s lv|s qid|s text rowid];
    [| | | destruct b | | |]; simpl in *; router_unfold; router_cases; simpl;
    try done; try congruence; try (by exfalso; eapply Hst).
  all: unfold Router.db; simpl.
  all: try (unfold Router.add_user; by destruct (bool_decide _)).
  all: by destruct (bot_handle_bank e (Router.bot w)).
Qed.

(** A user who is not in [ADMIN_IDS] cannot change the questions, the
    levels or the bans, whatever was sent to the bot before and
    whatever the user sends: the handlers that write to these tables
    are reached only through a state that an admin button sets. *)
Theorem non_admin_cannot_change_bank us u d users bans reps :
  Router.is_admin (Router.sender u) = false ->
  t_questions (Router.db (fst (handle u (run us (Router.boot d users bans reps)))))
  = t_questions (Router.db (run us (Router.boot d users bans reps)))
  /\ t_english_levels
       (Router.db (fst (handle u (run us (Router.boot d users bans reps)))))
     = t_english_levels (Router.db (run us (Router.boot d users bans reps)))
  /\ Router.t_banned_users (fst (handle u (run us (Router.boot d users bans reps))))
     = Router.t_banned_users (run us (Router.boot d users bans reps)).
Proof.
  intros Hna. apply guest_update; [|done].
  apply guests_outside_run, guests_outside_boot.
Qed.

(** Reporting a question gives up the quiz: once the report button is
    pressed the answers of the user are taken by no handler, and the
    message with the reason stores the report and clears the FSM
    record with the quiz data, without a row in [results]. *)
Theorem report_abandons_quiz uid question_id w :
  (forall now a,
     handle (Router.QuizUpdate (Bot.Answer uid now a))
       (fst (handle (Router.Report uid question_id) w))
     = (fst (handle (Router.Report uid question_id) w),
        Ok (Router.QuizReply Bot.Unhandled)))
  /\ (forall reason rowid,
       snd (handle (Router.Text uid reason rowid)
              (fst (handle (Router.Report uid question_id) w)))
       = Ok Router.ReportSent
       /\ Router.t_question_reports
            (fst (handle (Router.Text uid reason rowid)
                    (fst (handle (Router.Report uid question_id) w))))
          = app (Router.t_question_reports w)
              [{| Router.rp_question_id := question_id;
                  Router.rp_user_id := uid; Router.rp_reason := reason |}]
       /\ Bot.get_context uid
            (Router.bot (fst (handle (Router.Text uid reason rowid)
                                (fst (handle (Router.Report uid question_id) w)))))
          = {| Bot.state := None; Bot.data := None |}
       /\ Router.get_state uid
            (fst (handle (Router.Text uid reason rowid)
                    (fst (handle (Router.Report uid question_id) w))))
          = None
       /\ t_results
            (Router.db (fst (handle (Router.Text uid reason rowid)
                               (fst (handle (Router.Report uid question_id) w)))))
          = t_results (Router.db w)).
Proof.
  set (w1 := fst (handle (Router.Report uid question_id) w)).
  assert (Hctx : Bot.state (Bot.get_context uid (Router.bot w1)) = None).
  { unfold w1. simpl. by rewrite get_set_context. }
  assert (Hst : Router.get_state uid w1 = Some Router.waiting_report_reason).
  { unfold Router.get_state. rewrite Hctx. unfold w1. simpl.
    by rewrite lookup_insert_eq. }
  assert (Hform : Router.f_report_question_id (Router.get_form uid w1)
                  = Some question_id).
  { unfold w1, Router.get_form. simpl. by rewrite lookup_insert_eq. }
  assert (Hrep : Router.t_question_reports w1 = Router.t_question_reports w
                 /\ t_results (Router.db w1) = t_results (Router.db w)) by done.
  destruct Hrep as [Hrep Hres]. clearbody w1. split.
  - intros now a. simpl. unfold Router.quiz. simpl.
    unfold Bot.handle_answer. rewrite Hctx. simpl. by destruct w1.
  - intros reason rowid. simpl. unfold Router.on_text. rewrite Hst.
    rewrite <- Hrep, <- Hres.
    unfold Router.enter_report_reason. rewrite Hform. simpl.
    split; [done|]. split; [done|].
    split; [unfold Bot.clear; by rewrite get_set_context|].
    split; [|done].
    unfold Router.get_state. simpl. unfold Bot.clear.
    by rewrite get_set_context, lookup_delete_eq.
Qed.

(** A ban stops [/start] and nothing else: the banned user is refused
    by [start_command] and is not registered, while the quiz, the
    bonus, the hint and the report of the user are handled as they
    are without the ban; the ban of one user is not the ban of another,
    and an unban removes it whatever the number of bans before. *)
Theorem ban_blocks_only_start user_id reason w :
  (forall username full_name,
     handle (Router.CommandStart user_id username full_name)
       (Router.ban_user user_id reason w)
     = (Router.ban_user user_id reason w, Ok Router.BannedNotice))
  /\ (forall e,
       handle (Router.QuizUpdate e) (Router.ban_user user_id reason w)
       = (Router.ban_user user_id reason (fst (handle (Router.QuizUpdate e) w)),
          snd (handle (Router.QuizUpdate e) w)))
  /\ (forall uid question_id,
       handle (Router.Report uid question_id) (Router.ban_user user_id reason w)
       = (Router.ban_user user_id reason
            (fst (handle (Router.Report uid question_id) w)),
          snd (handle (Router.Report uid question_id) w)))
  /\ (forall uid, Router.is_banned uid (Router.ban_user user_id reason w)
                  = bool_decide (uid = user_id) || Router.is_banned uid w)
  /\ (forall reason', Router.is_banned user_id
         (Router.unban_user user_id
            (Router.ban_user user_id reason'
               (Router.ban_user user_id reason w))) = false).
Proof.
  split; [|split; [|split; [|split]]].
  - intros username full_name. simpl. unfold Router.start_command.
    replace (Router.is_banned user_id (Router.ban_user user_id reason w))
      with true; [done|].
    unfold Router.is_banned. simpl. rewrite lookup_insert_eq.
    symmetry. by apply bool_decide_eq_true.
  - intros e. simpl. unfold Router.quiz. simpl.
    by destruct (snd (Bot.handle e (Router.bot w))) as [[]|].
  - done.
  - intros uid. unfold Router.is_banned. simpl.
    destruct (decide (uid = user_id)) as [->|Hne].
    + rewrite lookup_insert_eq.
      rewrite (bool_decide_eq_true_2 (user_id = user_id)) by done.
      by apply bool_decide_eq_true.
    + rewrite lookup_insert_ne by done.
      by rewrite (bool_decide_eq_false_2 (uid = user_id)).
  - intros reason'. unfold Router.is_banned. simpl.
    rewrite lookup_delete_eq. apply bool_decide_eq_false. by intros [? ?].
Qed.

Ltac use_state Hs :=
  repeat match goal with
  | H : Router.get_state _ _ = Some _ |- _ =>
      apply get_state_raw in H; rewrite H in Hs; simpl in Hs
  end.

Ltac in_range :=
  repeat match goal with
  | H : (_ && _) = true |- _ =>
      apply andb_prop in H as [?%Z.leb_le ?%Z.ltb_lt]
  end.

Lemma router_inv_handle u w :
  router_inv w -> imports u = false ->
  exists r, snd (handle u w) = Ok r /\ router_inv (fst (handle u w)).
Proof.
  intros Hinv Himp.
  destruct u as [e|s un fn|s text|s b|s lv|s qid|s text rowid];
    [by apply router_inv_quiz| | | | | |].
  all: destruct Hinv as [Hbank Hview]; pose proof (Hview s) as Hs.
  all: unfold view_ok, view in Hs; simpl in Hs.
  3: destruct b; try discriminate Himp.
  all: simpl.
  all: try (destruct (admin_view_questions_ok s w Hbank) as [r ->];
            by exists r).
  all: router_unfold; router_cases; simpl; use_state Hs; in_range.
  all: try (by destruct Hs as [_ []]).
  all: try match goal with
           | |- exists r, Raise _ = Ok r /\ _ =>
               exfalso; unfold Router.get_level, level_key, is_Some in *;
               repeat match goal with
                      | H : _ = None |- _ => rewrite H in Hs
                      end;
               naive_solver
           end.
  all: try (eexists; split; [reflexivity|]; split;
            [rewrite ?db_set_state, ?db_clear, ?db_update_data, ?db_set_db,
               ?db_add_user, ?db_update_level;
             first [ exact Hbank | by apply bank_ok_delete
                   | by apply bank_ok_add | by apply bank_ok_update ]
            |]).
  all: try exact Hview.
  all: try (intros uid';
            rewrite ?view_clear, ?view_set_state, ?view_update_data,
              ?view_set_db, ?view_add_user, ?view_ban_user, ?view_unban_user,
              ?view_report_question, ?view_update_level;
            destruct (decide (uid' = s)) as [->|Hne]; [|by apply Hview]).
  all: try done.
  all: rewrite ?decide_True by done.
  all: unfold view_ok, view, quiz_ready, form_ready, level_key in *; simpl.
  all: try (by naive_solver).
  destruct (Bot.data (Bot.get_context s (Router.bot w))) eqn:Hd; simpl;
    rewrite ?Hd; (split; [done|]); by eexists.
Qed.

Lemma router_inv_run us w :
  router_inv w -> Forall (fun u => imports u = false) us ->
  Forall (fun r => exists x, r = Ok x) (Router.replies int strip DictReader us w)
  /\ router_inv (run us w).
Proof.
  revert w. induction us as [|u us IH]; intros w Hinv Hus; [by split|].
  apply Forall_cons in Hus as [Hu Hus].
  destruct (router_inv_handle u w Hinv Hu) as (r & Hr & Hinv').
  destruct (IH _ Hinv' Hus) as [Hrs Hfin].
  split; [|done]. simpl. constructor; [by exists r|done].
Qed.

Lemma router_inv_boot d users bans reps :
  bank_ok d -> router_inv (Router.boot d users bans reps).
Proof. intros Hd. split; [done|]. intros uid. by split. Qed.

(** With a bank of answerable questions, and as long as the CSV import
    is not opened, none of the handlers that [Router.handle] dispatches
    to raises [IndexError], [KeyError] or [ZeroDivisionError], whatever
    is sent to them and by whom, and the bank stays one of answerable
    questions.  These handlers are the quiz, the bonus and the hint,
    [/start], [/admin], the report callback, the callbacks of the admin
    panel and the admin dialogues on text messages: the dialogues that
    add and edit a question check the correct index against the
    options, and every dialogue state is entered with the keys that its
    handler reads.  The five menu handlers [start_quiz_menu],
    [show_results], [show_leaderboard], [show_info] and [back_to_main]
    are not updates of the router and the statement says nothing of
    them: [show_results] divides the stored score by the stored total
    of each row it lists, and raises [ZeroDivisionError] on a row whose
    total is 0, which a bank of answerable questions does not
    exclude. *)
Theorem router_never_raises us d users bans reps :
  bank_ok d ->
  Forall (fun u => imports u = false) us ->
  Forall (fun r => exists x, r = Ok x)
    (Router.replies int strip DictReader us (Router.boot d users bans reps))
  /\ bank_ok (Router.db (run us (Router.boot d users bans reps))).
Proof.
  intros Hd Hus.
  destruct (router_inv_run us _ (router_inv_boot d users bans reps Hd) Hus)
    as [Hrs [Hbank _]].
  by split.
Qed.

End router.

#[local] Set Warnings "-notation-for-abbreviation".

Section dialogues.

Variable int : string -> option Z.
Variable strip : string -> string.
Variable DictReader : string -> option (list BotDb.CsvRow).

Local Notation handle := (Router.handle int strip DictReader).
Local Notation run := (Router.run int strip DictReader).
Local Notation replies := (Router.replies int strip DictReader).

Lemma run_cons u us w : run (u :: us) w = run us (fst (handle u w)).
Proof. done. Qed.

Lemma run_nil w : run [] w = w.
Proof. done. Qed.

Lemma replies_cons u us w :
  replies (u :: us) w = snd (handle u w) :: replies us (fst (handle u w)).
Proof. done. Qed.

Lemma replies_nil w : replies [] w = [].
Proof. done. Qed.

Lemma get_state_set_state uid s w :
  Router.get_state uid (Router.set_state uid s w) = Some s.
Proof.
  unfold Router.get_state, Router.set_state. simpl.
  by rewrite get_set_context, lookup_insert_eq.
Qed.

Lemma get_state_clear uid w : Router.get_state uid (Router.clear uid w) = None.
Proof.
  unfold Router.get_state, Router.clear, Bot.clear. simpl.
  by rewrite get_set_context, lookup_delete_eq.
Qed.

Lemma get_form_set_state uid s w :
  Router.get_form uid (Router.set_state uid s w) = Router.get_form uid w.
Proof. done. Qed.

Lemma get_form_update_data uid g w :
  Router.get_form uid (Router.update_data uid g w) = g (Router.get_form uid w).
Proof. unfold Router.get_form, Router.update_data. simpl. by rewrite lookup_insert_eq. Qed.

Lemma get_state_update_data uid g w :
  Router.get_state uid (Router.update_data uid g w) = Router.get_state uid w.
Proof. done. Qed.

Lemma get_level_set_state uid s w :
  Router.get_level uid (Router.set_state uid s w) = Router.get_level uid w.
Proof.
  unfold Router.get_level. rewrite get_form_set_state.
  unfold Router.set_state. simpl. by rewrite get_set_context.
Qed.

Lemma get_level_update_data uid g w :
  Router.f_level (g (Router.get_form uid w)) = Router.f_level (Router.get_form uid w) ->
  Router.get_level uid (Router.update_data uid g w) = Router.get_level uid w.
Proof.
  intros Hg. unfold Router.get_level. rewrite get_form_update_data, Hg. done.
Qed.

Lemma get_level_update_level uid lv w :
  Router.get_level uid (Router.update_level uid lv w) = Some lv.
Proof.
  unfold Router.update_level.
  destruct (Bot.data (Bot.get_context uid (Router.bot w))) as [d|] eqn:Hd.
  - unfold Router.get_level. simpl. by rewrite bot_update_data_data.
  - unfold Router.get_level. rewrite get_form_update_data.
    unfold Router.update_data. simpl. by rewrite Hd.
Qed.

Lemma get_form_update_level uid lv w :
  Router.f_question (Router.get_form uid (Router.update_level uid lv w))
  = Router.f_question (Router.get_form uid w)
  /\ Router.f_options (Router.get_form uid (Router.update_level uid lv w))
     = Router.f_options (Router.get_form uid w).
Proof.
  unfold Router.update_level.
  destruct (Bot.data (Bot.get_context uid (Router.bot w))); [done|].
  by rewrite get_form_update_data.
Qed.

Lemma len_fmap {A B} (f : A -> B) (l : list A) : len (f <$> l) = len l.
Proof. unfold len. by rewrite length_fmap. Qed.

(** The dialogue that adds a question stores what the admin sends: the
    level of the button, the text of the question, the options as the
    fields between the commas, stripped, and as the correct index the
    number sent less 1; whatever state and data the admin had before. *)
Theorem add_dialogue_adds_question uid lv q opts num n rowid0 rowid1 rowid w :
  Router.is_admin uid = true ->
  int num = Some n ->
  2 <= len (split_comma opts) ->
  1 <= n <= len (split_comma opts) ->
  Router.db (run [Router.Callback uid Router.btn_add_question;
                  Router.AddLevel uid lv; Router.Text uid q rowid0;
                  Router.Text uid opts rowid1; Router.Text uid num rowid] w)
  = BotDb.add_question rowid lv q (strip <$> split_comma opts) (n - 1)
      (Router.db w)
  /\ replies [Router.Callback uid Router.btn_add_question;
              Router.AddLevel uid lv; Router.Text uid q rowid0;
              Router.Text uid opts rowid1; Router.Text uid num rowid] w
     = [Ok Router.AskLevel; Ok Router.AskQuestionText; Ok Router.AskOptions;
        Ok (Router.AskCorrect (strip <$> split_comma opts));
        Ok Router.QuestionAdded]
  /\ Router.get_state uid
       (run [Router.Callback uid Router.btn_add_question;
             Router.AddLevel uid lv; Router.Text uid q rowid0;
             Router.Text uid opts rowid1; Router.Text uid num rowid] w) = None.
Proof.
  intros Hadmin Hnum Hlen Hn.
  set (w1 := Router.set_state uid Router.waiting_level w).
  set (w2 := Router.set_state uid Router.waiting_question
               (Router.update_level uid lv w1)).
  set (w3 := Router.set_state uid Router.waiting_options
               (Router.update_data uid (Router.with_question q) w2)).
  set (w4 := Router.set_state uid Router.waiting_correct
               (Router.update_data uid
                  (Router.with_options (strip <$> split_comma opts)) w3)).
  set (w5 := Router.clear uid
               (Router.set_db
                  (BotDb.add_question rowid lv q (strip <$> split_comma opts)
                     (n - 1) (Router.db w)) w4)).
  assert (H1 : handle (Router.Callback uid Router.btn_add_question) w
               = (w1, Ok Router.AskLevel)).
  { simpl. unfold Router.admin_add_question. by rewrite Hadmin. }
  assert (H2 : handle (Router.AddLevel uid lv) w1
               = (w2, Ok Router.AskQuestionText)).
  { simpl. unfold w1. by rewrite get_state_set_state. }
  assert (H3 : handle (Router.Text uid q rowid0) w2 = (w3, Ok Router.AskOptions)).
  { simpl. unfold Router.on_text, w2. by rewrite get_state_set_state. }
  assert (H4 : handle (Router.Text uid opts rowid1) w3
               = (w4, Ok (Router.AskCorrect (strip <$> split_comma opts)))).
  { simpl. unfold Router.on_text, w3. rewrite get_state_set_state.
    unfold Router.admin_enter_options. rewrite len_fmap.
    destruct (len (split_comma opts) <? 2) eqn:E; [lia|done]. }
  assert (H5 : handle (Router.Text uid num rowid) w4
               = (w5, Ok Router.QuestionAdded)).
  { simpl. unfold Router.on_text. unfold w4 at 1. rewrite get_state_set_state.
    unfold Router.admin_enter_correct. rewrite Hnum.
    assert (Hopts : Router.f_options (Router.get_form uid w4)
                    = Some (strip <$> split_comma opts)).
    { unfold w4. by rewrite get_form_set_state, get_form_update_data. }
    assert (Hq : Router.f_question (Router.get_form uid w4) = Some q).
    { unfold w4, w3.
      by rewrite get_form_set_state, get_form_update_data, get_form_set_state,
        get_form_update_data. }
    assert (Hlv : Router.get_level uid w4 = Some lv).
    { unfold w4, w3, w2.
      rewrite get_level_set_state, get_level_update_data by done.
      rewrite get_level_set_state, get_level_update_data by done.
      by rewrite get_level_set_state, get_level_update_level. }
    assert (Hdb : Router.db w4 = Router.db w).
    { change (Router.db w4) with (Router.db (Router.update_level uid lv w1)).
      by rewrite db_update_level. }
    rewrite Hopts, Hq, Hlv, len_fmap, Hdb.
    destruct ((0 <=? n - 1) && (n - 1 <? len (split_comma opts))) eqn:E;
      [done|].
    apply andb_false_iff in E as [E|E]; lia. }
  rewrite !run_cons, !replies_cons, run_nil, replies_nil.
  rewrite H1. cbn [fst snd]. rewrite H2. cbn [fst snd].
  rewrite H3. cbn [fst snd]. rewrite H4. cbn [fst snd].
  rewrite H5. cbn [fst snd].
  split; [reflexivity|]. split; [reflexivity|].
  apply get_state_clear.
Qed.

(** The dialogue that edits a question replaces the text, the options
    and the correct index of the question whose id the admin sends by
    what is sent next, the correct index being the number less 1. *)
Theorem edit_dialogue_updates_question uid id_text q_id q0 q_text opts num n
    rowid0 rowid1 rowid2 rowid3 w :
  Router.is_admin uid = true ->
  int id_text = Some q_id ->
  Router.question_by_id q_id w = Some q0 ->
  int num = Some n ->
  2 <= len (split_comma opts) ->
  1 <= n <= len (split_comma opts) ->
  Router.db (run [Router.Callback uid Router.btn_edit_question;
                  Router.Text uid id_text rowid0; Router.Text uid q_text rowid1;
                  Router.Text uid opts rowid2; Router.Text uid num rowid3] w)
  = BotDb.update_question q_id q_text (strip <$> split_comma opts) (n - 1)
      (Router.db w)
  /\ replies [Router.Callback uid Router.btn_edit_question;
              Router.Text uid id_text rowid0; Router.Text uid q_text rowid1;
              Router.Text uid opts rowid2; Router.Text uid num rowid3] w
     = [Ok Router.AskEditId; Ok (Router.AskEditText q0); Ok Router.AskEditOptions;
        Ok (Router.AskEditCorrect (strip <$> split_comma opts));
        Ok Router.QuestionEdited]
  /\ Router.get_state uid
       (run [Router.Callback uid Router.btn_edit_question;
             Router.Text uid id_text rowid0; Router.Text uid q_text rowid1;
             Router.Text uid opts rowid2; Router.Text uid num rowid3] w) = None.
Proof.
  intros Hadmin Hid Hq0 Hnum Hlen Hn.
  set (w1 := Router.set_state uid Router.waiting_edit_id w).
  set (w2 := Router.set_state uid Router.waiting_edit_text
               (Router.update_data uid
                  (Router.with_edit q_id (qr_options q0) (qr_correct_answer q0))
                  w1)).
  set (w3 := Router.set_state uid Router.waiting_edit_options
               (Router.update_data uid (Router.with_edit_q_text q_text) w2)).
  set (w4 := Router.set_state uid Router.waiting_edit_correct
               (Router.update_data uid
                  (Router.with_edit_options (strip <$> split_comma opts)) w3)).
  set (w5 := Router.clear uid
               (Router.set_db
                  (BotDb.update_question q_id q_text (strip <$> split_comma opts)
                     (n - 1) (Router.db w)) w4)).
  assert (H1 : handle (Router.Callback uid Router.btn_edit_question) w
               = (w1, Ok Router.AskEditId)).
  { simpl. unfold Router.admin_edit_question. by rewrite Hadmin. }
  assert (H2 : handle (Router.Text uid id_text rowid0) w1
               = (w2, Ok (Router.AskEditText q0))).
  { simpl. unfold Router.on_text, w1. rewrite get_state_set_state.
    unfold Router.edit_question_id. rewrite Hid.
    change (Router.question_by_id q_id
              (Router.set_state uid Router.waiting_edit_id w))
      with (Router.question_by_id q_id w).
    by rewrite Hq0. }
  assert (H3 : handle (Router.Text uid q_text rowid1) w2
               = (w3, Ok Router.AskEditOptions)).
  { simpl. unfold Router.on_text, w2. by rewrite get_state_set_state. }
  assert (H4 : handle (Router.Text uid opts rowid2) w3
               = (w4, Ok (Router.AskEditCorrect (strip <$> split_comma opts)))).
  { simpl. unfold Router.on_text, w3. rewrite get_state_set_state.
    unfold Router.edit_question_options. rewrite len_fmap.
    destruct (len (split_comma opts) <? 2) eqn:E; [lia|done]. }
  assert (H5 : handle (Router.Text uid num rowid3) w4
               = (w5, Ok Router.QuestionEdited)).
  { simpl. unfold Router.on_text. unfold w4 at 1. rewrite get_state_set_state.
    unfold Router.edit_question_correct. rewrite Hnum.
    assert (Hform : Router.get_form uid w4
                    = Router.with_edit_options (strip <$> split_comma opts)
                        (Router.with_edit_q_text q_text
                           (Router.with_edit q_id (qr_options q0)
                              (qr_correct_answer q0) (Router.get_form uid w)))).
    { unfold w4, w3, w2, w1.
      by rewrite get_form_set_state, get_form_update_data, get_form_set_state,
        get_form_update_data, get_form_set_state, get_form_update_data,
        get_form_set_state. }
    rewrite Hform. cbn [Router.f_edit_options Router.with_edit_options
                        Router.f_edit_q_id Router.f_edit_q_text
                        Router.with_edit_q_text Router.with_edit].
    rewrite len_fmap.
    destruct ((0 <=? n - 1) && (n - 1 <? len (split_comma opts))) eqn:E;
      [done|].
    apply andb_false_iff in E as [E|E]; lia. }
  rewrite !run_cons, !replies_cons, run_nil, replies_nil.
  rewrite H1. cbn [fst snd]. rewrite H2. cbn [fst snd].
  rewrite H3. cbn [fst snd]. rewrite H4. cbn [fst snd].
  rewrite H5. cbn [fst snd].
  split; [reflexivity|]. split; [reflexivity|].
  apply get_state_clear.
Qed.

(** The ban dialogue and the unban dialogue, from the admin panel to
    [/start]: the user that the input names, by id or by user name, is
    banned with the reason sent and is then refused by [/start]; the
    unban dialogue removes the ban, and [/start] greets the user. *)
Theorem ban_dialogue_round_trip uid text reason n rowid0 rowid1 rowid2 w :
  Router.is_admin uid = true ->
  strip text <> "" ->
  Router.find_user int (strip text) w = inr n ->
  n <> 0 ->
  Router.t_banned_users
    (run [Router.Callback uid Router.btn_ban_user; Router.Text uid text rowid0;
          Router.Text uid reason rowid1] w)
  = <[n := reason]> (Router.t_banned_users w)
  /\ (forall username full_name,
       snd (handle (Router.CommandStart n username full_name)
              (run [Router.Callback uid Router.btn_ban_user;
                    Router.Text uid text rowid0;
                    Router.Text uid reason rowid1] w))
       = Ok Router.BannedNotice)
  /\ Router.t_banned_users
       (run [Router.Callback uid Router.btn_ban_user; Router.Text uid text rowid0;
             Router.Text uid reason rowid1;
             Router.Callback uid Router.btn_unban_user;
             Router.Text uid text rowid2] w)
     = delete n (Router.t_banned_users w)
  /\ (forall username full_name,
       snd (handle (Router.CommandStart n username full_name)
              (run [Router.Callback uid Router.btn_ban_user;
                    Router.Text uid text rowid0;
                    Router.Text uid reason rowid1;
                    Router.Callback uid Router.btn_unban_user;
                    Router.Text uid text rowid2] w))
       = Ok Router.Welcome).
Proof.
  intros Hadmin Htext Hfind Hn.
  set (w1 := Router.set_state uid Router.waiting_ban_user_id w).
  set (w2 := Router.set_state uid Router.waiting_ban_reason
               (Router.update_data uid (Router.with_ban_user_id n) w1)).
  set (w3 := Router.clear uid (Router.ban_user n reason w2)).
  set (w4 := Router.set_state uid Router.waiting_unban_user_id w3).
  set (w5 := Router.clear uid (Router.unban_user n w4)).
  assert (H1 : handle (Router.Callback uid Router.btn_ban_user) w
               = (w1, Ok Router.AskBanUser)).
  { simpl. unfold Router.admin_ban_user. by rewrite Hadmin. }
  assert (H2 : handle (Router.Text uid text rowid0) w1
               = (w2, Ok Router.AskBanReason)).
  { simpl. unfold Router.on_text, w1. rewrite get_state_set_state.
    unfold Router.ban_user_id. rewrite decide_False by done.
    change (Router.find_user int (strip text)
              (Router.set_state uid Router.waiting_ban_user_id w))
      with (Router.find_user int (strip text) w).
    rewrite Hfind. by rewrite decide_False. }
  assert (H3 : handle (Router.Text uid reason rowid1) w2
               = (w3, Ok Router.UserBanned)).
  { simpl. unfold Router.on_text, w2. rewrite get_state_set_state.
    unfold Router.ban_user_reason.
    by rewrite get_form_set_state, get_form_update_data. }
  assert (H4 : handle (Router.Callback uid Router.btn_unban_user) w3
               = (w4, Ok Router.AskUnbanUser)).
  { simpl. unfold Router.admin_unban_user. by rewrite Hadmin. }
  assert (H5 : handle (Router.Text uid text rowid2) w4
               = (w5, Ok Router.UserUnbanned)).
  { simpl. unfold Router.on_text, w4. rewrite get_state_set_state.
    unfold Router.unban_user_id. rewrite decide_False by done.
    change (Router.find_user int (strip text)
              (Router.set_state uid Router.waiting_unban_user_id w3))
      with (Router.find_user int (strip text) w).
    rewrite Hfind. by rewrite decide_False. }
  assert (Hb3 : Router.t_banned_users w3 = <[n := reason]> (Router.t_banned_users w))
    by done.
  assert (Hb5 : Router.t_banned_users w5 = delete n (Router.t_banned_users w)).
  { change (Router.t_banned_users w5)
      with (delete n (<[n := reason]> (Router.t_banned_users w))).
    apply delete_insert_eq. }
  rewrite !run_cons, !run_nil.
  rewrite H1. cbn [fst snd]. rewrite H2. cbn [fst snd].
  rewrite H3. cbn [fst snd]. rewrite H4. cbn [fst snd].
  rewrite H5. cbn [fst snd].
  split; [done|]. split; [|split; [done|]].
  - intros username full_name. simpl. unfold Router.start_command.
    replace (Router.is_banned n w3) with true; [done|].
    unfold Router.is_banned. rewrite Hb3, lookup_insert_eq.
    symmetry. by apply bool_decide_eq_true.
  - intros username full_name. simpl. unfold Router.start_command.
    replace (Router.is_banned n w5) with false; [done|].
    unfold Router.is_banned. rewrite Hb5, lookup_delete_eq.
    symmetry. apply bool_decide_eq_false. by intros [? ?].
Qed.

End dialogues.

Lemma non_admin_cannot_change_bank_witness :
  t_questions
    (Router.db
       (fst (Router.handle sample_int sample_strip sample_reader
               (Router.Text 5 "1" 0)
               (Router.run sample_int sample_strip sample_reader
                  [Router.Callback 7782143104 Router.btn_delete_question]
                  (Router.boot sample_db [] ∅ [])))))
  = t_questions
      (Router.db
         (Router.run sample_int sample_strip sample_reader
            [Router.Callback 7782143104 Router.btn_delete_question]
            (Router.boot sample_db [] ∅ []))).
Proof.
  exact (proj1 (non_admin_cannot_change_bank sample_int sample_strip
                  sample_reader
                  [Router.Callback 7782143104 Router.btn_delete_question]
                  (Router.Text 5 "1" 0) sample_db [] ∅ [] eq_refl)).
Defined.

Lemma router_never_raises_witness :
  Forall (fun r => exists x, r = Ok x)
    (Router.replies sample_int sample_strip sample_reader sample_updates
       (Router.boot sample_db [] ∅ []))
  /\ bank_ok (Router.db (Router.run sample_int sample_strip sample_reader
                           sample_updates (Router.boot sample_db [] ∅ []))).
Proof.
  refine (router_never_raises sample_int sample_strip sample_reader
            sample_updates sample_db [] ∅ [] _ _).
  - unfold bank_ok. cbn [t_questions sample_db].
    repeat constructor; cbn; lia.
  - unfold sample_updates. repeat constructor.
Defined.

Lemma add_dialogue_adds_question_witness :
  Router.db
    (Router.run sample_int sample_strip sample_reader
       [Router.Callback 7782143104 Router.btn_add_question;
        Router.AddLevel 7782143104 "A1";
        Router.Text 7782143104 "Where are you from?" 0;
        Router.Text 7782143104 "a,b" 0; Router.Text 7782143104 "2" 8]
       sample_world)
  = BotDb.add_question 8 "A1" "Where are you from?"
      (sample_strip <$> split_comma "a,b") (2 - 1) (Router.db sample_world).
Proof.
  refine (proj1 (add_dialogue_adds_question sample_int sample_strip
                   sample_reader 7782143104 "A1" "Where are you from?" "a,b"
                   "2" 2 0 0 8 sample_world _ _ _ _)).
  - reflexivity.
  - reflexivity.
  - by vm_compute.
  - by vm_compute.
Defined.

Lemma edit_dialogue_updates_question_witness :
  Router.db
    (Router.run sample_int sample_strip sample_reader
       [Router.Callback 7782143104 Router.btn_edit_question;
        Router.Text 7782143104 "1" 0;
        Router.Text 7782143104 "Who are you?" 0;
        Router.Text 7782143104 "a,b" 0; Router.Text 7782143104 "2" 0]
       sample_world)
  = BotDb.update_question 1 "Who are you?"
      (sample_strip <$> split_comma "a,b") (2 - 1) (Router.db sample_world).
Proof.
  refine (proj1 (edit_dialogue_updates_question sample_int sample_strip
                   sample_reader 7782143104 "1" 1
                   (sample_question 1 1 0 "What is your name?")
                   "Who are you?" "a,b" "2" 2 0 0 0 0 sample_world _ _ _ _ _ _)).
  - reflexivity.
  - reflexivity.
  - reflexivity.
  - reflexivity.
  - by vm_compute.
  - by vm_compute.
Defined.

Lemma ban_dialogue_round_trip_witness :
  Router.t_banned_users
    (Router.run sample_int sample_strip sample_reader
       [Router.Callback 7782143104 Router.btn_ban_user;
        Router.Text 7782143104 "42" 0; Router.Text 7782143104 "spam" 0]
       sample_world)
  = <[42 := "spam"]> (Router.t_banned_users sample_world).
Proof.
  refine (proj1 (ban_dialogue_round_trip sample_int sample_strip sample_reader
                   7782143104 "42" "spam" 42 0 0 0 sample_world _ _ _ _)).
  - reflexivity.
  - done.
  - reflexivity.
  - done.
Defined.


(** ** The accounts and the admin API of the web application *)

Lemma app_handle_bank e w :
  t_questions (App.db (fst (App.handle e w))) = t_questions (App.db w)
  /\ t_english_levels (App.db (fst (App.handle e w))) = t_english_levels (App.db w).
Proof.
  destruct e as [now random lv|now a]; simpl.
  - unfold App.start_quiz. destruct (App.user_id (App.session w)); [|done].
    by destruct (getitem _ _).
  - unfold App.submit_answer. destruct (App.user_id (App.session w)); [|done].
    destruct (App.current_quiz (App.session w)); [|done].
    destruct (getitem _ _); [|done]. cbn zeta.
    destruct (_ <=? _).
    + by destruct (percentage _ _).
    + by destruct (getitem _ _).
Qed.

Lemma user_by_id_elem id w u :
  Web.user_by_id id w = Some u -> u ∈ Web.t_web_users w.
Proof.
  unfold Web.user_by_id. intros H. apply head_Some_elem_of in H.
  by apply list_elem_of_filter in H as [_ H].
Qed.

Lemma no_admin_refused w :
  no_admin w ->
  Web.admin_required w = Some Web.AuthenticationRequired
  \/ Web.admin_required w = Some Web.AdminRequired.
Proof.
  intros Hw. unfold Web.admin_required.
  destruct (Web.user_id w) as [uid|]; [|by left]. right.
  destruct (Web.user_by_id uid w) as [u|] eqn:Hu; [|done].
  apply user_by_id_elem in Hu. unfold no_admin in Hw.
  rewrite Forall_forall in Hw. by rewrite decide_True by by apply Hw.
Qed.

#[local] Set Warnings "-notation-for-abbreviation".

Section web.

Variable hash_password : string -> string.

Local Notation handle := (Web.handle hash_password).
Local Notation run := (Web.run hash_password).
Local Notation replies := (Web.replies hash_password).

Lemma web_run_cons r rs w : run (r :: rs) w = run rs (fst (handle r w)).
Proof. done. Qed.

Lemma web_replies_cons r rs w :
  replies (r :: rs) w = snd (handle r w) :: replies rs (fst (handle r w)).
Proof. done. Qed.

Ltac web_unfold :=
  unfold Web.register, Web.login, Web.logout, Web.check_session, Web.quiz,
    Web.get_admin_stats, Web.get_all_questions, Web.add_question,
    Web.update_question, Web.delete_question, Web.get_reports.

(** The admin accounts are those the database was started with: no
    request changes the [is_admin] of an account, and [register]
    creates accounts that are not admins. *)
Lemma admins_handle r w :
  filter (fun u => Web.wu_is_admin u <> 0) (Web.t_web_users (fst (handle r w)))
  = filter (fun u => Web.wu_is_admin u <> 0) (Web.t_web_users w).
Proof.
  destruct r; simpl; web_unfold;
    repeat match goal with
    | |- context [match Web.admin_required ?w with _ => _ end] =>
        destruct (Web.admin_required w)
    | |- context [match Web.truthy ?x with _ => _ end] => destruct (Web.truthy x)
    | |- context [match Web.user_by_name ?x ?w with _ => _ end] =>
        destruct (Web.user_by_name x w)
    | |- context [match Web.user_id ?w with _ => _ end] => destruct (Web.user_id w)
    | |- context [match Web.account ?w with _ => _ end] => destruct (Web.account w)
    | |- context [match ?l ≫= ?f with _ => _ end] => destruct (l ≫= f)
    | |- context [if decide ?P then _ else _] => destruct (decide P)
    | |- context [if bool_decide ?P then _ else _] => destruct (bool_decide P)
    end; simpl; try done.
  all: rewrite filter_app, filter_cons, decide_False by (simpl; by intros H);
    by rewrite filter_nil, app_nil_r.
Qed.

Lemma no_admin_filter w :
  no_admin w <-> filter (fun u => Web.wu_is_admin u <> 0) (Web.t_web_users w) = [].
Proof.
  unfold no_admin. split.
  - intros Hw. induction Hw as [|u l Hu Hl IH]; [done|].
    by rewrite filter_cons, decide_False by (by intros H).
  - intros Hf. apply Forall_forall. intros u Hu.
    destruct (decide (Web.wu_is_admin u = 0)) as [|Hne]; [done|].
    assert (Hin : u ∈ filter (fun u => Web.wu_is_admin u <> 0) (Web.t_web_users w))
      by (by apply list_elem_of_filter).
    rewrite Hf in Hin. by apply not_elem_of_nil in Hin.
Qed.

Lemma no_admin_handle r w : no_admin w -> no_admin (fst (handle r w)).
Proof. rewrite !no_admin_filter, admins_handle. done. Qed.

Lemma locked_handle r w :
  no_admin w ->
  t_questions (Web.db (fst (handle r w))) = t_questions (Web.db w)
  /\ t_english_levels (Web.db (fst (handle r w))) = t_english_levels (Web.db w)
  /\ (Web.admin_api r = true -> refused (snd (handle r w))).
Proof.
  intros Hw. pose proof (no_admin_refused w Hw) as Href.
  destruct r; simpl; web_unfold;
    try (destruct Href as [-> | ->]; unfold refused; by auto).
  - destruct (Web.truthy username), (Web.truthy password); try done.
    destruct (bool_decide _); [done|]. simpl.
    by destruct (bool_decide _).
  - destruct (Web.truthy username), (Web.truthy password); try done.
    destruct (Web.user_by_name _ _); [|done]. by destruct (decide _).
  - done.
  - destruct (Web.user_id w); [|done]. by destruct (Web.account w).
  - unfold Web.db. simpl.
    destruct (app_handle_bank e (Web.app_world w)) as [-> ->]. done.
Qed.

(** The admin API of an installation whose accounts were all made by
    [register] serves nobody: while no account is an admin, which no
    request changes, every request of the admin API is refused with
    the status 401 or 403, and the questions and the levels stay as
    they are. *)
Theorem web_admin_locked rs w :
  no_admin w ->
  no_admin (run rs w)
  /\ t_questions (Web.db (run rs w)) = t_questions (Web.db w)
  /\ t_english_levels (Web.db (run rs w)) = t_english_levels (Web.db w)
  /\ Forall2 (fun r res => Web.admin_api r = true -> refused res)
       rs (replies rs w).
Proof.
  revert w. induction rs as [|r rs IH]; intros w Hw.
  { by repeat split. }
  destruct (locked_handle r w Hw) as (Hq & Hl & Hr).
  destruct (IH _ (no_admin_handle r w Hw)) as (Hn & Hq' & Hl' & Hrs).
  rewrite web_run_cons, web_replies_cons.
  split; [done|]. split; [by rewrite Hq'|]. split; [by rewrite Hl'|].
  by constructor.
Qed.

Lemma user_by_name_new username row (w : Web.World) :
  username ∉ Web.wu_username <$> Web.t_web_users w ->
  Web.wu_username row = username ->
  head (filter (fun u => Web.wu_username u = username)
          (app (Web.t_web_users w) [row])) = Some row.
Proof.
  intros Hnew Hrow.
  assert (Hold : filter (fun u => Web.wu_username u = username)
                   (Web.t_web_users w) = []).
  { induction (Web.t_web_users w) as [|u l IH]; [done|].
    rewrite fmap_cons in Hnew. apply not_elem_of_cons in Hnew as [Hu Hl].
    rewrite filter_cons, decide_False by (by intros H).
    by apply IH. }
  rewrite filter_app, Hold. simpl.
  by rewrite filter_cons, decide_True.
Qed.

(** Registration and login.  A name that is not taken is registered
    with the id of its row, and the client is logged in under it;
    afterwards the name is taken, for whatever password.  After a
    logout nobody is logged in; the login with the password registered
    gives the same id back, and a password with another digest is
    refused and leaves the session as it is. *)
Theorem register_login_round_trip username password full_name email rowid w :
  username <> "" -> password <> "" ->
  username ∉ Web.wu_username <$> Web.t_web_users w ->
  snd (handle (Web.Register (Some username) (Some password) full_name email rowid) w)
  = Web.Sent (Web.Registered rowid username full_name)
  /\ Web.user_id
       (fst (handle (Web.Register (Some username) (Some password) full_name
                       email rowid) w)) = Some rowid
  /\ (forall password' full_name' email' rowid',
       password' <> "" ->
       handle (Web.Register (Some username) (Some password') full_name' email'
                 rowid')
         (fst (handle (Web.Register (Some username) (Some password) full_name
                         email rowid) w))
       = (fst (handle (Web.Register (Some username) (Some password) full_name
                         email rowid) w),
          Web.Sent Web.UsernameExists))
  /\ Web.user_id
       (run [Web.Register (Some username) (Some password) full_name email rowid;
             Web.Logout] w) = None
  /\ snd (handle (Web.Login (Some username) (Some password))
            (run [Web.Register (Some username) (Some password) full_name email
                    rowid; Web.Logout] w))
     = Web.Sent (Web.LoggedIn rowid username full_name 0)
  /\ Web.user_id
       (run [Web.Register (Some username) (Some password) full_name email rowid;
             Web.Logout; Web.Login (Some username) (Some password)] w)
     = Some rowid
  /\ (forall password',
       hash_password password' <> hash_password password ->
       handle (Web.Login (Some username) (Some password'))
         (run [Web.Register (Some username) (Some password) full_name email
                 rowid; Web.Logout] w)
       = (run [Web.Register (Some username) (Some password) full_name email
                 rowid; Web.Logout] w,
          match Web.truthy (Some password') with
          | Some _ => Web.Sent Web.InvalidCredentials
          | None => Web.Sent Web.CredentialsRequired
          end)).
Proof.
  intros Hu Hp Hnew.
  set (row := {| Web.wu_id := rowid; Web.wu_username := username;
                 Web.wu_password_hash := hash_password password;
                 Web.wu_full_name := full_name; Web.wu_email := email;
                 Web.wu_is_admin := 0 |}).
  assert (Hreg : exists w1,
    handle (Web.Register (Some username) (Some password) full_name email rowid) w
    = (w1, Web.Sent (Web.Registered rowid username full_name))
    /\ Web.user_id w1 = Some rowid
    /\ Web.t_web_users w1 = app (Web.t_web_users w) [row]).
  { simpl. unfold Web.register, Web.truthy.
    rewrite !decide_False by done.
    rewrite bool_decide_eq_false_2 by done. eexists. split; [done|].
    cbn zeta. split; simpl; by destruct (bool_decide _). }
  destruct Hreg as (w1 & Hreg & Hid1 & Husers1). rewrite !web_run_cons, Hreg.
  cbn [fst snd].
  assert (Hname : Web.user_by_name username w1 = Some row).
  { unfold Web.user_by_name. rewrite Husers1. by apply user_by_name_new. }
  assert (Hname2 : Web.user_by_name username (Web.clear_session w1) = Some row)
    by exact Hname.
  split; [done|]. split; [done|]. split; [|split; [done|split; [|split]]].
  - intros password' full_name' email' rowid' Hp'. simpl.
    unfold Web.register, Web.truthy. rewrite !decide_False by done.
    rewrite bool_decide_eq_true_2; [done|].
    rewrite Husers1, fmap_app. apply elem_of_app. right. simpl.
    apply list_elem_of_singleton. done.
  - simpl. unfold Web.login, Web.truthy. rewrite !decide_False by done.
    rewrite Hname2. by rewrite decide_True.
  - simpl. unfold Web.login, Web.truthy. rewrite !decide_False by done.
    rewrite Hname2. by rewrite decide_True.
  - intros password' Hne. simpl. unfold Web.login, Web.truthy.
    rewrite (decide_False (P := username = "")) by done.
    destruct (decide (password' = "")); [done|].
    rewrite Hname2. by rewrite decide_False.
Qed.

(** The quiz belongs to the session, not to the account.  A login
    keeps the quiz of the session, and the result of a quiz is written
    for the account that is logged in when the last answer comes,
    whoever started it; a logout drops the quiz, so that the quiz
    routes ask for a login, and after a new login find no quiz. *)
Theorem quiz_follows_the_session username password user w :
  username <> "" -> password <> "" ->
  Web.user_by_name username w = Some user ->
  hash_password password = Web.wu_password_hash user ->
  App.current_quiz
    (App.session (Web.app_world
       (fst (handle (Web.Login (Some username) (Some password)) w))))
  = App.current_quiz (App.session (Web.app_world w))
  /\ (forall now answer w' c o,
       handle (Web.QuizRequest (App.SubmitAnswer now answer))
         (fst (handle (Web.Login (Some username) (Some password)) w))
       = (w', Web.Sent (Web.QuizResponse (App.Done c o))) ->
       exists row,
         t_results (Web.db w') = app (t_results (Web.db w)) [row]
         /\ r_user_id row = Web.wu_id user + 10000)
  /\ (forall e,
       handle (Web.QuizRequest e) (fst (handle Web.Logout w))
       = (fst (handle Web.Logout w),
          Web.Sent (Web.QuizResponse App.AuthenticationRequired)))
  /\ (forall now answer,
       snd (handle (Web.QuizRequest (App.SubmitAnswer now answer))
              (run [Web.Logout; Web.Login (Some username) (Some password)] w))
       = Web.Sent (Web.QuizResponse App.NoActiveQuiz)).
Proof.
  intros Hu Hp Huser Hhash.
  assert (Hlogin : forall w0, Web.user_by_name username w0 = Some user ->
    fst (handle (Web.Login (Some username) (Some password)) w0)
    = Web.set_session (Web.wu_id user)
        {| Web.a_username := Web.wu_username user;
           Web.a_full_name := Web.wu_full_name user;
           Web.a_is_admin := Some (Web.wu_is_admin user) |} w0).
  { intros w0 H0. simpl. unfold Web.login, Web.truthy.
    rewrite !decide_False by done. rewrite H0. by rewrite decide_True. }
  split; [by rewrite Hlogin|]. split; [|split].
  - intros now answer w' c o. rewrite Hlogin by done. simpl. unfold Web.quiz.
    simpl. intros Hdone.
    destruct (App.submit_answer now answer _) as [aw' [r|e]] eqn:Hsub;
      simpl in Hdone; [|discriminate Hdone].
    injection Hdone as <- ->.
    destruct (app_done_row _ _ _ _ _ _ Hsub)
      as (uid & quiz & quiz1 & row & Huid & _ & _ & _ & _ & _ & _ & _ & Hres
          & Hrow & _).
    simpl in Huid. injection Huid as <-.
    exists row. split; [exact Hres|done].
  - intros e. simpl. unfold Web.quiz. simpl.
    destruct e as [now random lv|now a]; simpl.
    + unfold App.start_quiz. simpl. unfold Web.set_app, Web.clear_session. done.
    + unfold App.submit_answer. simpl. unfold Web.set_app, Web.clear_session. done.
  - intros now answer. rewrite !web_run_cons.
    change (fst (handle Web.Logout w)) with (Web.clear_session w).
    change (run [] ?x) with x.
    rewrite Hlogin by exact Huser. simpl. unfold Web.quiz. simpl.
    unfold App.submit_answer. simpl. done.
Qed.

(** The session key [is_admin] is not what the admin API goes by.
    [register] leaves the key as a login before it has set it, so
    that [/api/session] reports the new account with the flag of the
    old one; the admin API reads the flag of the account from the
    database and refuses the new account. *)
Theorem stale_admin_flag username password full_name email rowid a k w :
  username <> "" -> password <> "" ->
  username ∉ Web.wu_username <$> Web.t_web_users w ->
  rowid ∉ Web.wu_id <$> Web.t_web_users w ->
  Web.account w = Some a -> Web.a_is_admin a = Some k ->
  snd (handle Web.CheckSession
         (fst (handle (Web.Register (Some username) (Some password) full_name
                         email rowid) w)))
  = Web.Sent (Web.Authenticated rowid username full_name k)
  /\ Web.admin_required
       (fst (handle (Web.Register (Some username) (Some password) full_name
                       email rowid) w))
     = Some Web.AdminRequired.
Proof.
  intros Hu Hp Hnew Hid Ha Hk.
  set (row := {| Web.wu_id := rowid; Web.wu_username := username;
                 Web.wu_password_hash := hash_password password;
                 Web.wu_full_name := full_name; Web.wu_email := email;
                 Web.wu_is_admin := 0 |}).
  assert (Hreg : exists w1,
    fst (handle (Web.Register (Some username) (Some password) full_name email
                   rowid) w) = w1
    /\ Web.user_id w1 = Some rowid
    /\ Web.account w1
       = Some {| Web.a_username := username; Web.a_full_name := full_name;
                 Web.a_is_admin := Some k |}
    /\ Web.t_web_users w1 = app (Web.t_web_users w) [row]).
  { simpl. unfold Web.register, Web.truthy. rewrite !decide_False by done.
    rewrite bool_decide_eq_false_2 by done. eexists. split; [done|].
    cbn zeta. rewrite Ha. simpl. rewrite Hk.
    repeat split; simpl; by destruct (bool_decide _). }
  destruct Hreg as (w1 & -> & Hid1 & Hacc1 & Husers1). split.
  - simpl. unfold Web.check_session. by rewrite Hid1, Hacc1.
  - unfold Web.admin_required. rewrite Hid1.
    assert (Hrow : Web.user_by_id rowid w1 = Some row).
    { unfold Web.user_by_id. rewrite Husers1.
      assert (Hold : filter (fun u => Web.wu_id u = rowid) (Web.t_web_users w) = []).
      { clear -Hid. induction (Web.t_web_users w) as [|u l IH]; [done|].
        rewrite fmap_cons in Hid. apply not_elem_of_cons in Hid as [Hne Hl].
        rewrite filter_cons, decide_False by (by intros H). by apply IH. }
      rewrite filter_app, Hold. simpl. by rewrite filter_cons, decide_True. }
    rewrite Hrow. by rewrite decide_True.
Qed.

(** For an admin, [POST /api/admin/questions] inserts the row that
    [add_question] of bot.py inserts, with whatever correct index the
    body holds; on a level that is not in [english_levels], where the
    bot's function returns without a word, the route raises
    [TypeError] and answers with the status 500, the database being
    left as it is in both. *)
Theorem web_add_question_as_bot level question opts correct rowid w :
  Web.admin_required w = None ->
  match level ≫= fun lv => BotDb.level_id lv (Web.db w) with
  | Some _ =>
      exists lv, level = Some lv
        /\ handle (Web.AddQuestion level question opts correct rowid) w
           = (Web.set_db (BotDb.add_question rowid lv question opts correct
                            (Web.db w)) w,
              Web.Sent Web.Success)
  | None =>
      handle (Web.AddQuestion level question opts correct rowid) w
      = (w, Web.RaisedTypeError)
      /\ forall lv, level = Some lv ->
           BotDb.add_question rowid lv question opts correct (Web.db w) = Web.db w
  end.
Proof.
  intros Hadmin. simpl. unfold Web.add_question. rewrite Hadmin.
  destruct level as [lv|]; simpl.
  - destruct (BotDb.level_id lv (Web.db w)) as [lid|] eqn:Hl.
    + exists lv. split; [done|]. unfold BotDb.add_question. by rewrite Hl.
    + split; [done|]. intros lv' [= <-]. unfold BotDb.add_question. by rewrite Hl.
  - split; [done|]. intros lv [=].
Qed.

End web.

Lemma web_admin_locked_witness :
  no_admin (Web.run sample_hash sample_requests sample_visitor)
  /\ t_questions (Web.db (Web.run sample_hash sample_requests sample_visitor))
     = t_questions (Web.db sample_visitor)
  /\ t_english_levels (Web.db (Web.run sample_hash sample_requests sample_visitor))
     = t_english_levels (Web.db sample_visitor)
  /\ Forall2 (fun r res => Web.admin_api r = true -> refused res)
       sample_requests (Web.replies sample_hash sample_requests sample_visitor).
Proof.
  refine (web_admin_locked sample_hash sample_requests sample_visitor _).
  constructor.
Defined.

Lemma register_login_round_trip_witness :
  snd (Web.handle sample_hash
         (Web.Register (Some "ann") (Some "pw") None None 1) sample_visitor)
  = Web.Sent (Web.Registered 1 "ann" None).
Proof.
  refine (proj1 (register_login_round_trip sample_hash "ann" "pw" None None 1
                   sample_visitor _ _ _)).
  - done.
  - done.
  - apply not_elem_of_nil.
Defined.

Lemma quiz_follows_the_session_witness :
  App.current_quiz
    (App.session (Web.app_world
       (fst (Web.handle sample_hash (Web.Login (Some "ann") (Some "pw"))
               (Web.visitor sample_db [sample_account] [] [])))))
  = App.current_quiz
      (App.session (Web.app_world (Web.visitor sample_db [sample_account] [] []))).
Proof.
  refine (proj1 (quiz_follows_the_session sample_hash "ann" "pw" sample_account
                   (Web.visitor sample_db [sample_account] [] []) _ _ _ _)).
  - done.
  - done.
  - reflexivity.
  - reflexivity.
Defined.

Lemma stale_admin_flag_witness :
  Web.admin_required
    (fst (Web.handle sample_hash
            (Web.Register (Some "ann") (Some "pw") None None 8)
            sample_admin_client))
  = Some Web.AdminRequired.
Proof.
  refine (proj2 (stale_admin_flag sample_hash "ann" "pw" None None 8
                   {| Web.a_username := "root"; Web.a_full_name := None;
                      Web.a_is_admin := Some 1 |} 1 sample_admin_client
                   _ _ _ _ _ _)).
  - done.
  - done.
  - intros H. apply list_elem_of_singleton in H. discriminate H.
  - intros H. apply list_elem_of_singleton in H. discriminate H.
  - reflexivity.
  - reflexivity.
Defined.

Lemma web_add_question_as_bot_witness :
  Web.handle sample_hash (Web.AddQuestion (Some "Z9") "What is this?" ["a"] 0 8)
    sample_admin_client
  = (sample_admin_client, Web.RaisedTypeError).
Proof.
  exact (proj1 (web_add_question_as_bot sample_hash (Some "Z9") "What is this?"
                  ["a"] 0 8 sample_admin_client eq_refl)).
Defined.
